(** * edu-tests-platform: the assessment engine, embedded in Rocq

    A shallow embedding of the parts of the platform that decide how a test
    attempt is started, answered, finished and analysed, and how tests are
    created and deleted:

    - [profile/student/models.py], [profile/teacher/models.py]: the tables;
    - [profile/student/repository.py], [profile/student/services.py];
    - [profile/teacher/repository.py], [profile/teacher/services.py];
    - [profile/teacher/schemas.py]: the request validators;
    - [common/paginations.py]: [Pagination];
    - [utils/s3.py]: [get_public_url], [get_key_from_url] and [delete_file].

    How the code is read:

    - A table is the list of its rows and an SQL statement is a
      comprehension over them.  The constraints PostgreSQL enforces are
      written out where a statement meets them: primary keys and the
      foreign keys at an INSERT, the [unique=True] of [tests.title], every
      [ON DELETE CASCADE] below [tests].  The table [auth_entity] and the
      timestamp columns are left out: student and teacher ids are taken as
      the identity layer hands them over.
    - An id that the database draws with [gen_random_uuid()] is an argument
      of the function that inserts the row; a collision is the
      IntegrityError the database would raise.
    - A service method is a computation in the monad [M]: it reads and
      writes the world (database and log of outside effects) and either
      returns or raises, the world at the raise being kept.  One request is
      served from start to end before the next one; interleavings of
      concurrent requests are not part of the model.
    - Python ints are [Z], sets of ids are [gset], floats are binary64
      ([PrimFloat]); [str.split] is [S3.split].
    - [lower(text) LIKE '%q%'] of the analytics filter is a parameter
      [like], and [text ILIKE pattern] of the listings is a parameter
      [ilike]; rows that tie in an ORDER BY, and the rows of a statement
      without one, keep their table order.
    - A [while True] loop is given a number of rounds and answers [None]
      when they are used up; that enough rounds reach the [return] is
      proved.  An int printed into a string is printed by [pretty]. *)

From Stdlib Require Import ZArith NArith List String Ascii Bool Lia Floats Sorted.
From stdpp Require Import gmap pretty.
Import ListNotations.
Local Open Scope string_scope.
Local Open Scope Z_scope.

(** ** Data model *)

(** [uuid.UUID]: a 128-bit number. *)
Definition uuid := N.

Inductive TestStatus := DRAFT | PUBLISHED | ARCHIVED.
Inductive TestAttemptStatus := IN_PROGRESS | COMPLETED.

Definition TestStatus_eqb (a b : TestStatus) : bool :=
  match a, b with
  | DRAFT, DRAFT | PUBLISHED, PUBLISHED | ARCHIVED, ARCHIVED => true
  | _, _ => false
  end.

Definition TestAttemptStatus_eqb (a b : TestAttemptStatus) : bool :=
  match a, b with
  | IN_PROGRESS, IN_PROGRESS | COMPLETED, COMPLETED => true
  | _, _ => false
  end.

(** [class Test], table [tests]. *)
Record Test := mkTest {
  test_id : uuid;
  teacher_id : Z;
  title : string;
  description : option string;
  test_image_url : option string;
  test_status : TestStatus
}.

(** [class Question], table [questions]. *)
Record Question := mkQuestion {
  question_id : uuid;
  q_test_id : uuid;
  question_text : string;
  q_image_url : option string;
  order : option Z;
  points : Z
}.

(** [class AnswerOption], table [answer_options]. *)
Record AnswerOption := mkAnswerOption {
  answer_id : uuid;
  ao_question_id : uuid;
  answer_text : option string;
  ao_image_url : option string;
  ao_is_correct : bool
}.

(** [class TestAttempt], table [test_attempts]. *)
Record TestAttempt := mkTestAttempt {
  attempt_id : uuid;
  student_id : Z;
  ta_test_id : uuid;
  status : TestAttemptStatus;
  score : option float
}.

(** [class StudentAnswer], table [student_answers]. *)
Record StudentAnswer := mkStudentAnswer {
  student_answer_id : uuid;
  sa_attempt_id : uuid;
  sa_question_id : uuid;
  sa_is_correct : bool
}.

(** [class StudentAnswerSelectedOption], the association table behind
    [StudentAnswer.chosen_options]. *)
Record StudentAnswerSelectedOption := mkSelected {
  sel_student_answer_id : uuid;
  sel_answer_option_id : uuid
}.

(** The database: one list of rows per table. *)
Record DB := mkDB {
  tests : list Test;
  questions : list Question;
  answer_options : list AnswerOption;
  test_attempts : list TestAttempt;
  student_answers : list StudentAnswer;
  student_answer_selected_options : list StudentAnswerSelectedOption
}.

Definition empty_db : DB := mkDB [] [] [] [] [] [].

(** What a request does to the outside: object-storage deletions and
    database commits, in the order they are issued. *)
Inductive Event :=
| S3DeleteObject (key : string)
| Commit.

Record World := mkWorld {
  w_db : DB;
  w_log : list Event
}.

(** ** Exceptions *)

Inductive Exn :=
(* profile/student/exceptions.py *)
| TestNotFound (id : uuid)
| AttemptNotFound (id : uuid)
| AttemptAlreadyFinished (id : uuid)
| QuestionNotFoundInTest (qid tid : uuid)
| AnswerOptionNotFound (id : uuid)
| ActiveTestAttemptExists
(* profile/teacher/exceptions.py *)
| NotFoundUuid (model : string) (id : uuid)
| AlreadyExists (model field_name value_field : string)
(* sqlalchemy, pydantic and the interpreter *)
| IntegrityError
| MultipleResultsFound
| AttributeError
| ValidationError (msg : string)
(* fastapi *)
| HTTPException (status_code : Z).

(** ** The request monad: state that survives an exception *)

Inductive Result (A : Type) :=
| Ok (a : A)
| Raise (e : Exn).
Arguments Ok {A} a.
Arguments Raise {A} e.

Definition M (A : Type) : Type := World -> Result A * World.

#[global] Instance M_ret : MRet M := fun A a w => (Ok a, w).

#[global] Instance M_bind : MBind M := fun A B k m w =>
  match m w with
  | (Ok a, w') => k a w'
  | (Raise e, w') => (Raise e, w')
  end.

Definition raise {A} (e : Exn) : M A := fun w => (Raise e, w).

(** [try: m except IntegrityError: raise e]. *)
Definition except_IntegrityError {A} (m : M A) (e : Exn) : M A :=
  fun w => match m w with
           | (Raise IntegrityError, w') => (Raise e, w')
           | r => r
           end.

Definition get_db : M DB := fun w => (Ok (w_db w), w).
Definition put_db (d : DB) : M unit := fun w => (Ok tt, mkWorld d (w_log w)).
Definition emit (e : Event) : M unit :=
  fun w => (Ok tt, mkWorld (w_db w) (w_log w ++ [e])).

(** [await self.session.commit()] *)
Definition commit : M unit := emit Commit.

(** [result.scalar_one_or_none()] *)
Definition scalar_one_or_none {A} (rows : list A) : M (option A) :=
  match rows with
  | [] => mret None
  | [x] => mret (Some x)
  | _ => raise MultipleResultsFound
  end.

(** ** Relationship loading *)

(** [Test.questions] *)
Definition test_questions (d : DB) (t : Test) : list Question :=
  List.filter (fun q => N.eqb (q_test_id q) (test_id t)) (questions d).

(** [Question.answer_options] *)
Definition question_answer_options (d : DB) (q : Question) : list AnswerOption :=
  List.filter (fun a => N.eqb (ao_question_id a) (question_id q)) (answer_options d).

(** [TestAttempt.student_answers] *)
Definition attempt_student_answers (d : DB) (a : TestAttempt) : list StudentAnswer :=
  List.filter (fun s => N.eqb (sa_attempt_id s) (attempt_id a)) (student_answers d).

(** [TestAttempt.test]: many-to-one, [None] when the row is missing. *)
Definition attempt_test (d : DB) (a : TestAttempt) : option Test :=
  List.find (fun t => N.eqb (test_id t) (ta_test_id a)) (tests d).

(** [StudentAnswer.question] *)
Definition answer_question (d : DB) (s : StudentAnswer) : option Question :=
  List.find (fun q => N.eqb (question_id q) (sa_question_id s)) (questions d).

(** [StudentAnswer.chosen_options], as the set of option ids linked to the
    answer in the association table. *)
Definition chosen_options (d : DB) (sa_id : uuid) : gset uuid :=
  list_to_set
    (map sel_answer_option_id
       (List.filter (fun r => N.eqb (sel_student_answer_id r) sa_id)
          (student_answer_selected_options d))).

(** Writing one table back, the others unchanged. *)
Definition set_tests (d : DB) (x : list Test) : DB :=
  mkDB x (questions d) (answer_options d) (test_attempts d) (student_answers d)
    (student_answer_selected_options d).
Definition set_questions (d : DB) (x : list Question) : DB :=
  mkDB (tests d) x (answer_options d) (test_attempts d) (student_answers d)
    (student_answer_selected_options d).
Definition set_answer_options (d : DB) (x : list AnswerOption) : DB :=
  mkDB (tests d) (questions d) x (test_attempts d) (student_answers d)
    (student_answer_selected_options d).
Definition set_test_attempts (d : DB) (x : list TestAttempt) : DB :=
  mkDB (tests d) (questions d) (answer_options d) x (student_answers d)
    (student_answer_selected_options d).
Definition set_student_answers (d : DB) (x : list StudentAnswer)
    (y : list StudentAnswerSelectedOption) : DB :=
  mkDB (tests d) (questions d) (answer_options d) (test_attempts d) x y.

(** ** Python numbers *)

(** [float(z)] for a Python int; exact while [|z| < 2^53]. *)
Definition float_of_Z (z : Z) : float :=
  if z <? 0 then PrimFloat.opp (PrimFloat.of_uint63 (Uint63.of_Z (- z)))
  else PrimFloat.of_uint63 (Uint63.of_Z z).

(** [sum(xs)] over Python ints. *)
Definition sum (xs : list Z) : Z := fold_right Z.add 0 xs.

(** ** SQL aggregates *)

(** [func.avg(column)]: the mean of the non-null values, added up in scan
    order; NULL over no value. *)
Definition func_avg (xs : list float) : option float :=
  match xs with
  | [] => None
  | _ => Some (PrimFloat.div (fold_left PrimFloat.add xs (float_of_Z 0))
                 (float_of_Z (Z.of_nat (length xs))))
  end.

(** ** profile/student/repository.py *)

Module StudentRepository.

(** [get_test_for_student_by_id]: the test, only when PUBLISHED. *)
Definition get_test_for_student_by_id (tid : uuid) : M (option Test) :=
  d ← get_db;
  scalar_one_or_none
    (List.filter
       (fun t => N.eqb (test_id t) tid && TestStatus_eqb (test_status t) PUBLISHED)
       (tests d)).

(** [has_active_attempt]: EXISTS over the student's IN_PROGRESS attempts. *)
Definition is_active_of (sid : Z) (a : TestAttempt) : bool :=
  Z.eqb (student_id a) sid && TestAttemptStatus_eqb (status a) IN_PROGRESS.

Definition has_active_attempt (sid : Z) : M bool :=
  d ← get_db;
  mret (existsb (is_active_of sid) (test_attempts d)).

(** [create_test_attempt]: INSERT with the column defaults
    (status IN_PROGRESS, score NULL).  [new_id] is the value
    [gen_random_uuid()] draws for the row; the primary key and the
    foreign key to [tests] are checked by the database. *)
Definition create_test_attempt (new_id : uuid) (sid : Z) (tid : uuid)
  : M TestAttempt :=
  d ← get_db;
  let new_attempt := mkTestAttempt new_id sid tid IN_PROGRESS None in
  if existsb (fun a => N.eqb (attempt_id a) new_id) (test_attempts d)
  then raise IntegrityError
  else if negb (existsb (fun t => N.eqb (test_id t) tid) (tests d))
  then raise IntegrityError
  else
    put_db (set_test_attempts d (test_attempts d ++ [new_attempt]));;
    commit;;
    mret new_attempt.

(** [get_correct_answers_for_question] *)
Definition get_correct_answers_for_question (qid : uuid) : M (list AnswerOption) :=
  d ← get_db;
  mret (List.filter
          (fun a => N.eqb (ao_question_id a) qid && ao_is_correct a)
          (answer_options d)).

(** [student_answer.is_correct = b] *)
Definition set_is_correct (s : StudentAnswer) (b : bool) : StudentAnswer :=
  mkStudentAnswer (student_answer_id s) (sa_attempt_id s) (sa_question_id s) b.

(** The association rows of one answer: one per chosen option. *)
Definition selected_rows (sa_id : uuid) (opts : list AnswerOption)
  : list StudentAnswerSelectedOption :=
  map (fun o => mkSelected sa_id (answer_id o)) opts.

(** [save_student_answer]: look the (attempt, question) answer up, then
    update it in place or insert a new row. *)
Definition save_student_answer (new_id : uuid) (aid qid : uuid)
    (chosen_option_ids : list uuid) (is_correct : bool) : M StudentAnswer :=
  d ← get_db;
  student_answer ←
    scalar_one_or_none
      (List.filter
         (fun s => N.eqb (sa_attempt_id s) aid && N.eqb (sa_question_id s) qid)
         (student_answers d));
  (* SELECT answer_options WHERE answer_id IN chosen_option_ids *)
  let chosen :=
    List.filter
      (fun o => existsb (N.eqb (answer_id o)) chosen_option_ids)
      (answer_options d) in
  match student_answer with
  | Some sa =>
      let sid := student_answer_id sa in
      put_db
        (set_student_answers d
           (map (fun s => if N.eqb (student_answer_id s) sid
                          then set_is_correct s is_correct else s)
              (student_answers d))
           (List.filter (fun r => negb (N.eqb (sel_student_answer_id r) sid))
              (student_answer_selected_options d)
            ++ selected_rows sid chosen));;
      commit;;
      mret (set_is_correct sa is_correct)
  | None =>
      let sa := mkStudentAnswer new_id aid qid is_correct in
      if existsb (fun s => N.eqb (student_answer_id s) new_id) (student_answers d)
      then raise IntegrityError
      else if negb (existsb (fun a => N.eqb (attempt_id a) aid) (test_attempts d))
      then raise IntegrityError
      else if negb (existsb (fun q => N.eqb (question_id q) qid) (questions d))
      then raise IntegrityError
      else
        put_db
          (set_student_answers d
             (student_answers d ++ [sa])
             (student_answer_selected_options d ++ selected_rows new_id chosen));;
        commit;;
        mret sa
  end.

(** [get_attempt_with_results] *)
Definition get_attempt_with_results (aid : uuid) : M (option TestAttempt) :=
  d ← get_db;
  scalar_one_or_none
    (List.filter (fun a => N.eqb (attempt_id a) aid) (test_attempts d)).

(** [update_test_attempt(attempt_id, status=..., score=...)]:
    UPDATE ... RETURNING, commit, then [scalar_one_or_none]. *)
Definition update_test_attempt (aid : uuid) (st : TestAttemptStatus) (sc : float)
  : M (option TestAttempt) :=
  d ← get_db;
  let upd a := mkTestAttempt (attempt_id a) (student_id a) (ta_test_id a) st (Some sc) in
  let hit a := N.eqb (attempt_id a) aid in
  put_db (set_test_attempts d
            (map (fun a => if hit a then upd a else a) (test_attempts d)));;
  commit;;
  scalar_one_or_none (map upd (List.filter hit (test_attempts d))).

(** [get_student_stats]: one SELECT with three filtered aggregates over
    the attempts of the student.  A COUNT is never NULL, so [or 0] keeps
    it. *)
Definition get_student_stats (sid : Z) : M (Z * option float * Z) :=
  d ← get_db;
  let rows := List.filter (fun a => Z.eqb (student_id a) sid) (test_attempts d) in
  let completed :=
    List.filter (fun a => TestAttemptStatus_eqb (status a) COMPLETED) rows in
  let in_progress :=
    List.filter (fun a => TestAttemptStatus_eqb (status a) IN_PROGRESS) rows in
  mret (Z.of_nat (length completed),
        func_avg (omap score completed),
        Z.of_nat (length in_progress)).

End StudentRepository.

(** ** profile/student/services.py *)

Module StudentServices.
Import StudentRepository.

(** [start_test] *)
Definition start_test (new_id : uuid) (sid : Z) (tid : uuid) : M TestAttempt :=
  active ← has_active_attempt sid;
  if active : bool then raise ActiveTestAttemptExists
  else
    test ← get_test_for_student_by_id tid;
    match test with
    | None => raise (TestNotFound tid)
    | Some _ => create_test_attempt new_id sid tid
    end.

(** [StudentAnswerIn] *)
Record StudentAnswerIn := mkStudentAnswerIn {
  in_question_id : uuid;
  chosen_answer_option_ids : list uuid
}.

(** The dict [submit_answer] returns. *)
Record StudentAnswerResultOut := mkStudentAnswerResultOut {
  is_correct : bool;
  correct_answer_option_ids : list uuid
}.

(** [submit_answer] *)
Definition submit_answer (new_id : uuid) (aid : uuid) (answer_data : StudentAnswerIn)
  : M StudentAnswerResultOut :=
  attempt ← get_attempt_with_results aid;
  match attempt with
  | None => raise (AttemptNotFound aid)
  | Some attempt =>
    match status attempt with
    | COMPLETED => raise (AttemptAlreadyFinished aid)
    | IN_PROGRESS =>
      correct_answers ← get_correct_answers_for_question (in_question_id answer_data);
      let correct_answer_ids : gset uuid := list_to_set (map answer_id correct_answers) in
      d ← get_db;
      match attempt_test d attempt with
      | None => raise AttributeError
      | Some t =>
        let question_exists_in_test :=
          existsb (fun q => N.eqb (question_id q) (in_question_id answer_data))
            (test_questions d t) in
        if negb question_exists_in_test
        then raise (QuestionNotFoundInTest (in_question_id answer_data) (ta_test_id attempt))
        else
          let chosen_ids : gset uuid :=
            list_to_set (chosen_answer_option_ids answer_data) in
          let is_correct := bool_decide (chosen_ids = correct_answer_ids) in
          save_student_answer new_id aid (in_question_id answer_data)
            (chosen_answer_option_ids answer_data) is_correct;;
          mret (mkStudentAnswerResultOut is_correct (elements correct_answer_ids))
      end
    end
  end.

(** [TestResultOut], without the two timestamps. *)
Record TestResultOut := mkTestResultOut {
  r_attempt_id : uuid;
  r_test_id : uuid;
  r_status : TestAttemptStatus;
  r_score : float;
  total_possible_points : Z;
  earned_points : Z
}.

(** [(earned / total) * 100 if total > 0 else 0], in binary64. *)
Definition score_percentage (earned total : Z) : float :=
  if 0 <? total
  then PrimFloat.mul (PrimFloat.div (float_of_Z earned) (float_of_Z total)) (float_of_Z 100)
  else float_of_Z 0.

(** [ans.question.points for ans in answers if ans.is_correct]; [None]
    when some [ans.question] is missing. *)
Fixpoint correct_answer_points (d : DB) (answers : list StudentAnswer)
  : option (list Z) :=
  match answers with
  | [] => Some []
  | ans :: rest =>
      if sa_is_correct ans then
        match answer_question d ans with
        | None => None
        | Some q =>
            match correct_answer_points d rest with
            | None => None
            | Some ps => Some (points q :: ps)
            end
        end
      else correct_answer_points d rest
  end.

(** [finish_test] *)
Definition finish_test (aid : uuid) : M TestResultOut :=
  attempt ← get_attempt_with_results aid;
  match attempt with
  | None => raise (AttemptNotFound aid)
  | Some attempt =>
    match status attempt with
    | COMPLETED => raise (AttemptAlreadyFinished aid)
    | IN_PROGRESS =>
      d ← get_db;
      match attempt_test d attempt with
      | None => raise AttributeError
      | Some t =>
        let total := sum (map points (test_questions d t)) in
        match correct_answer_points d (attempt_student_answers d attempt) with
        | None => raise AttributeError
        | Some ps =>
          let earned := sum ps in
          let sc := score_percentage earned total in
          test_attempt ← update_test_attempt aid COMPLETED sc;
          match test_attempt with
          | None => raise AttributeError
          | Some _ =>
              mret (mkTestResultOut aid (ta_test_id attempt) COMPLETED sc total earned)
          end
        end
      end
    end
  end.

(** [StudentStatsOut] *)
Record StudentStatsOut := mkStudentStatsOut {
  total_tests_completed : Z;
  average_score : option float;
  in_progress_count : Z
}.

(** [get_student_stats] *)
Definition get_student_stats (sid : Z) : M StudentStatsOut :=
  stats_data ← StudentRepository.get_student_stats sid;
  let '(completed, average, in_progress) := stats_data in
  mret (mkStudentStatsOut completed average in_progress).

(** [get_test_for_passing] *)
Definition get_test_for_passing (tid : uuid) : M Test :=
  test ← get_test_for_student_by_id tid;
  match test with
  | None => raise (TestNotFound tid)
  | Some t => mret t
  end.

End StudentServices.

(** ** utils/s3.py *)

Module S3.

(** [s.split(sep)] for a non-empty separator: the pieces between the
    non-overlapping occurrences of [sep], scanned from the left.
    [skip] counts the characters of a matched separator still to drop,
    [cur] is the piece being read, last character first. *)
Fixpoint split_aux (sep : string) (skip : nat) (cur : list ascii) (s : string)
  : list string :=
  match s with
  | EmptyString => [string_of_list_ascii (rev cur)]
  | String c s' =>
      match skip with
      | S k => split_aux sep k cur s'
      | O =>
          if String.prefix sep s
          then string_of_list_ascii (rev cur)
               :: split_aux sep (String.length sep - 1) [] s'
          else split_aux sep 0 (c :: cur) s'
      end
  end.

Definition split (s sep : string) : list string := split_aux sep 0 [] s.

(** The client object; only the bucket name matters here. *)
Record S3Client := mkS3Client { bucket_name : string }.

(** [get_key_from_url]: [url.split(bucket + "/")[1]], [None] on IndexError. *)
Definition get_key_from_url (c : S3Client) (url : string) : option string :=
  nth_error (split url (bucket_name c ++ "/")%string) 1.

(** [delete_file]: one delete request to the object store. *)
Definition delete_file (c : S3Client) (object_key : string) : M unit :=
  emit (S3DeleteObject object_key).

(** Truthiness of a [str | None]. *)
Definition truthy (s : option string) : bool :=
  match s with
  | Some (String _ _) => true
  | _ => false
  end.

(** The key a delete request is sent for, if any:
    [if x.image_url: if object_key := get_key_from_url(x.image_url): ...] *)
Definition key_to_delete (c : S3Client) (image_url : option string) : option string :=
  match image_url with
  | Some (String _ _ as url) =>
      match get_key_from_url c url with
      | Some (String _ _ as k) => Some k
      | _ => None
      end
  | _ => None
  end.

(** The three lines every delete path repeats for one image. *)
Definition delete_image (c : S3Client) (image_url : option string) : M unit :=
  match key_to_delete c image_url with
  | Some k => delete_file c k
  | None => mret tt
  end.

(** [get_public_url]: [secure] is the flag of the client, [port] is
    [settings.s3.port], an int printed in decimal. *)
Definition get_public_url (c : S3Client) (secure : bool) (port : Z)
    (object_key : string) : string :=
  let public_host := "localhost" in
  let protocol := if secure then "https" else "http" in
  (protocol ++ "://" ++ public_host ++ ":" ++ pretty port ++ "/"
   ++ bucket_name c ++ "/" ++ object_key)%string.

End S3.

(** ** profile/teacher/schemas.py *)

Module Schemas.

(** [TestIn] *)
Record TestIn := mkTestIn {
  in_title : string;
  in_description : option string;
  in_image_url : option string
}.

(** The raw data of one answer option as it reaches a ["before"]
    validator: keys may be missing or null. *)
Record AnswerOptionData := mkAnswerOptionData {
  d_answer_id : option uuid;
  d_answer_text : option string;
  d_image_url : option string;
  d_is_correct : option bool
}.

(** The body of [AnswerOptionCreate.check_text_or_image] on a dict. *)
Definition check_text_or_image (data : AnswerOptionData) : Result AnswerOptionData :=
  if negb (S3.truthy (d_answer_text data)) && negb (S3.truthy (d_image_url data))
  then Raise (ValidationError "Either answer_text or image_url must be provided")
  else Ok data.

(** [AnswerOptionCreate] after validation. *)
Record AnswerOptionCreate := mkAnswerOptionCreate {
  c_answer_text : option string;
  c_image_url : option string;
  c_is_correct : bool
}.

(** [QuestionCreate] after validation; [c_points] is [None] only when the
    request sends an explicit null. *)
Record QuestionCreate := mkQuestionCreate {
  c_question_text : string;
  c_q_image_url : option string;
  c_order : option Z;
  c_points : option Z;
  c_answer_options : list AnswerOptionCreate
}.

(** [AnswerOptionEdit]: four optional fields and no validator. *)
Definition AnswerOptionEdit_validate (data : AnswerOptionData) : Result AnswerOptionData :=
  Ok data.

(** The raw data of a [QuestionEdit]. *)
Record QuestionEditData := mkQuestionEditData {
  e_question_text : option string;
  e_image_url : option string;
  e_order : option Z;
  e_points : option Z;
  e_answer_options : option (list AnswerOptionData);
  e_answer_ids_to_delete : option (list uuid)
}.

Fixpoint validate_all {A} (v : A -> Result A) (xs : list A) : Result (list A) :=
  match xs with
  | [] => Ok []
  | x :: rest =>
      match v x with
      | Raise e => Raise e
      | Ok x' =>
          match validate_all v rest with
          | Raise e => Raise e
          | Ok rest' => Ok (x' :: rest')
          end
      end
  end.

(** [QuestionEdit]: [points] has [ge=0], each answer option is an
    [AnswerOptionEdit]. *)
Definition QuestionEdit_validate (data : QuestionEditData) : Result QuestionEditData :=
  let points_ok :=
    match e_points data with
    | Some p => negb (p <? 0)
    | None => true
    end in
  if negb points_ok then Raise (ValidationError "points: ge=0")
  else
    match e_answer_options data with
    | None => Ok data
    | Some opts =>
        match validate_all AnswerOptionEdit_validate opts with
        | Raise e => Raise e
        | Ok _ => Ok data
        end
    end.


End Schemas.

(** ** common/paginations.py *)

Module Paginations.



End Paginations.

(** ** profile/teacher/repository.py *)

Module TeacherRepository.
Import Schemas.

(** [create_test]: INSERT with status DRAFT.  The database checks the
    primary key and the [unique=True] constraint of [tests.title]. *)
Definition create_test (new_id : uuid) (test_data : TestIn) (tch : Z) : M Test :=
  d ← get_db;
  let new_test :=
    mkTest new_id tch (in_title test_data) (in_description test_data)
      (in_image_url test_data) DRAFT in
  if existsb (fun t => N.eqb (test_id t) new_id) (tests d)
  then raise IntegrityError
  else if existsb (fun t => String.eqb (title t) (in_title test_data)) (tests d)
  then raise IntegrityError
  else
    put_db (set_tests d (tests d ++ [new_test]));;
    commit;;
    mret new_test.

(** [get_test_by_id]: the test, only when owned by the teacher. *)
Definition owned (tid : uuid) (tch : Z) (t : Test) : bool :=
  N.eqb (test_id t) tid && Z.eqb (teacher_id t) tch.

Definition get_test_by_id (tid : uuid) (tch : Z) : M (option Test) :=
  d ← get_db;
  scalar_one_or_none (List.filter (owned tid tch) (tests d)).

(** [update_test_status] *)
Definition update_test_status (tid : uuid) (st : TestStatus) (tch : Z)
  : M (option Test) :=
  d ← get_db;
  let upd t :=
    mkTest (test_id t) (teacher_id t) (title t) (description t)
      (test_image_url t) st in
  put_db (set_tests d
            (map (fun t => if owned tid tch t then upd t else t) (tests d)));;
  commit;;
  scalar_one_or_none (map upd (List.filter (owned tid tch) (tests d))).

(** [DELETE FROM tests WHERE gone] with every [ON DELETE CASCADE] that
    hangs below [tests]: questions, their answer options, the attempts
    of the test, the student answers of those attempts or questions, and
    the association rows of those answers or options. *)
Definition cascade_delete_tests (gone : Test -> bool) (d : DB) : DB :=
  let t_gone id :=
    existsb (fun t => N.eqb (test_id t) id) (List.filter gone (tests d)) in
  let q_gone q := t_gone (q_test_id q) in
  let qid_gone id :=
    existsb (fun q => N.eqb (question_id q) id) (List.filter q_gone (questions d)) in
  let o_gone o := qid_gone (ao_question_id o) in
  let oid_gone id :=
    existsb (fun o => N.eqb (answer_id o) id) (List.filter o_gone (answer_options d)) in
  let a_gone a := t_gone (ta_test_id a) in
  let aid_gone id :=
    existsb (fun a => N.eqb (attempt_id a) id) (List.filter a_gone (test_attempts d)) in
  let s_gone s := aid_gone (sa_attempt_id s) || qid_gone (sa_question_id s) in
  let sid_gone id :=
    existsb (fun s => N.eqb (student_answer_id s) id)
      (List.filter s_gone (student_answers d)) in
  let r_gone r :=
    sid_gone (sel_student_answer_id r) || oid_gone (sel_answer_option_id r) in
  mkDB
    (List.filter (fun t => negb (gone t)) (tests d))
    (List.filter (fun q => negb (q_gone q)) (questions d))
    (List.filter (fun o => negb (o_gone o)) (answer_options d))
    (List.filter (fun a => negb (a_gone a)) (test_attempts d))
    (List.filter (fun s => negb (s_gone s)) (student_answers d))
    (List.filter (fun r => negb (r_gone r)) (student_answer_selected_options d)).

(** [delete_test_by_id]: DELETE ... RETURNING test_id, commit, then
    [scalar_one_or_none]. *)
Definition delete_test_by_id (tid : uuid) (tch : Z) : M (option uuid) :=
  d ← get_db;
  put_db (cascade_delete_tests (owned tid tch) d);;
  commit;;
  scalar_one_or_none (map test_id (List.filter (owned tid tch) (tests d))).

(** [create_question_with_answers]: the question is inserted at the
    flush, its answers at the commit.  A [points] of [None] is left out
    of the INSERT, so the column default 1 applies.  [new_qid] and
    [new_oid i] are the ids drawn for the question and its i-th answer. *)
Definition create_question_with_answers (new_qid : uuid) (new_oid : nat -> uuid)
    (tid : uuid) (question_data : QuestionCreate) : M Question :=
  d ← get_db;
  let new_question :=
    mkQuestion new_qid tid (c_question_text question_data)
      (c_q_image_url question_data) (c_order question_data)
      (default 1 (c_points question_data)) in
  if existsb (fun q => N.eqb (question_id q) new_qid) (questions d)
  then raise IntegrityError
  else if negb (existsb (fun t => N.eqb (test_id t) tid) (tests d))
  then raise IntegrityError
  else
    let answer_objs :=
      imap (fun i a =>
              mkAnswerOption (new_oid i) new_qid (c_answer_text a)
                (c_image_url a) (c_is_correct a))
        (c_answer_options question_data) in
    let ids := map answer_id answer_objs in
    if existsb (fun o => existsb (N.eqb (answer_id o)) ids) (answer_options d)
       || negb (bool_decide (NoDup ids))
    then raise IntegrityError
    else
      put_db (mkDB (tests d) (questions d ++ [new_question])
                (answer_options d ++ answer_objs) (test_attempts d)
                (student_answers d) (student_answer_selected_options d));;
      commit;;
      mret new_question.

(** *** [get_test_analytics_data] *)

(** The filter of the second query: the four-way join of
    [student_answers], [questions], [test_attempts] and [tests], restricted
    to the teacher's test and to COMPLETED attempts.  [like q text] stands
    for [lower(text) LIKE '%' || q || '%'] in the database. *)
Definition analytics_join (like : string -> string -> bool) (d : DB)
    (tid : uuid) (tch : Z) (search_query : option string)
  : list (StudentAnswer * Question) :=
  flat_map (fun sa =>
    flat_map (fun q =>
      flat_map (fun ta =>
        flat_map (fun t =>
          if N.eqb (sa_question_id sa) (question_id q)
             && N.eqb (sa_attempt_id sa) (attempt_id ta)
             && N.eqb (ta_test_id ta) (test_id t)
             && N.eqb (test_id t) tid
             && Z.eqb (teacher_id t) tch
             && TestAttemptStatus_eqb (status ta) COMPLETED
             && (if S3.truthy search_query
                 then like (default "" search_query) (question_text q)
                 else true)
          then [(sa, q)] else [])
          (tests d))
        (test_attempts d))
      (questions d))
    (student_answers d).

(** GROUP BY question_id, question_text. *)
Definition same_group (q1 q2 : Question) : bool :=
  N.eqb (question_id q1) (question_id q2)
  && String.eqb (question_text q1) (question_text q2).

Fixpoint group_keys (rows : list (StudentAnswer * Question)) : list Question :=
  match rows with
  | [] => []
  | (_, q) :: rest =>
      q :: List.filter (fun k => negb (same_group q k)) (group_keys rest)
  end.

(** ORDER BY questions.order: ascending, NULL last. *)
Definition order_le (a b : option Z) : bool :=
  match a, b with
  | Some x, Some y => x <=? y
  | Some _, None => true
  | None, Some _ => false
  | None, None => true
  end.

Fixpoint insert_by_order {A} (key : A -> option Z) (x : A) (l : list A) : list A :=
  match l with
  | [] => [x]
  | y :: l' =>
      if order_le (key x) (key y) then x :: l else y :: insert_by_order key x l'
  end.

Definition sort_by_order {A} (key : A -> option Z) (l : list A) : list A :=
  fold_right (insert_by_order key) [] l.

(** [CASE WHEN total > 0 THEN CAST(correct AS FLOAT) / total * 100 ELSE 0.0]. *)
Definition percentage_correct (correct total : Z) : float :=
  if 0 <? total
  then PrimFloat.mul (PrimFloat.div (float_of_Z correct) (float_of_Z total)) (float_of_Z 100)
  else float_of_Z 0.

Definition question_row (rows : list (StudentAnswer * Question)) (q : Question)
  : uuid * string * float :=
  let group := List.filter (fun r => same_group q (snd r)) rows in
  let correct := Z.of_nat (length (List.filter (fun r => sa_is_correct (fst r)) group)) in
  let total := Z.of_nat (length group) in
  (question_id q, question_text q, percentage_correct correct total).

(** AVG over the non-null scores, NULL when there is none. *)
Definition avg (xs : list float) : option float :=
  match xs with
  | [] => None
  | _ => Some (PrimFloat.div (fold_left PrimFloat.add xs (float_of_Z 0))
                 (float_of_Z (Z.of_nat (length xs))))
  end.

Definition completed_attempts (d : DB) (tid : uuid) (tch : Z) : list TestAttempt :=
  flat_map (fun ta =>
    flat_map (fun t =>
      if N.eqb (ta_test_id ta) (test_id t)
         && N.eqb (test_id t) tid
         && Z.eqb (teacher_id t) tch
         && TestAttemptStatus_eqb (status ta) COMPLETED
      then [ta] else [])
      (tests d))
    (test_attempts d).

Definition get_test_analytics_data (like : string -> string -> bool)
    (tid : uuid) (tch : Z) (search_query : option string)
  : M (Z * option float * list (uuid * string * float)) :=
  d ← get_db;
  let attempts := completed_attempts d tid tch in
  let total_attempts := Z.of_nat (length attempts) in
  let average_score := avg (omap score attempts) in
  if total_attempts =? 0 then mret (0, None, [])
  else
    let rows := analytics_join like d tid tch search_query in
    let question_analytics_data :=
      map (question_row rows) (sort_by_order order (group_keys rows)) in
    mret (total_attempts, average_score, question_analytics_data).

(** *** Listing and deleting *)

(** [get_all_tests_by_teacher] *)
Definition get_all_tests_by_teacher (tch : Z) : M (list Test) :=
  d ← get_db;
  mret (List.filter (fun t => Z.eqb (teacher_id t) tch) (tests d)).


(** [get_question_by_id]: the question, only when it belongs to the test. *)
Definition in_test (tid qid : uuid) (q : Question) : bool :=
  N.eqb (question_id q) qid && N.eqb (q_test_id q) tid.

Definition get_question_by_id (tid qid : uuid) : M (option Question) :=
  d ← get_db;
  scalar_one_or_none (List.filter (in_test tid qid) (questions d)).

(** [DELETE FROM questions WHERE gone] with every [ON DELETE CASCADE] that
    hangs below [questions]: the answer options, the student answers to
    the questions, and the association rows of those answers or options.
    Tests and attempts stay. *)
Definition cascade_delete_questions (gone : Question -> bool) (d : DB) : DB :=
  let qid_gone id :=
    existsb (fun q => N.eqb (question_id q) id) (List.filter gone (questions d)) in
  let o_gone o := qid_gone (ao_question_id o) in
  let oid_gone id :=
    existsb (fun o => N.eqb (answer_id o) id) (List.filter o_gone (answer_options d)) in
  let s_gone s := qid_gone (sa_question_id s) in
  let sid_gone id :=
    existsb (fun s => N.eqb (student_answer_id s) id)
      (List.filter s_gone (student_answers d)) in
  let r_gone r :=
    sid_gone (sel_student_answer_id r) || oid_gone (sel_answer_option_id r) in
  mkDB
    (tests d)
    (List.filter (fun q => negb (gone q)) (questions d))
    (List.filter (fun o => negb (o_gone o)) (answer_options d))
    (test_attempts d)
    (List.filter (fun s => negb (s_gone s)) (student_answers d))
    (List.filter (fun r => negb (r_gone r)) (student_answer_selected_options d)).

(** [delete_question_by_id]: DELETE ... RETURNING question_id, commit, then
    [scalar_one_or_none]. *)
Definition delete_question_by_id (tid qid : uuid) : M (option uuid) :=
  d ← get_db;
  put_db (cascade_delete_questions (in_test tid qid) d);;
  commit;;
  scalar_one_or_none (map question_id (List.filter (in_test tid qid) (questions d))).

(** [delete_all_questions_by_test_id]: the rowcount is the number of
    question rows the statement deleted. *)
Definition delete_all_questions_by_test_id (tid : uuid) : M Z :=
  d ← get_db;
  let hit q := N.eqb (q_test_id q) tid in
  put_db (cascade_delete_questions hit d);;
  commit;;
  mret (Z.of_nat (length (List.filter hit (questions d)))).

(** [delete_all_tests]: the rowcount is the number of test rows the
    statement deleted. *)
Definition delete_all_tests (tch : Z) : M Z :=
  d ← get_db;
  let hit t := Z.eqb (teacher_id t) tch in
  put_db (cascade_delete_tests hit d);;
  commit;;
  mret (Z.of_nat (length (List.filter hit (tests d)))).

(** [get_tests_by_title_prefix] *)
Definition get_tests_by_title_prefix (ilike : string -> string -> bool)
    (title_prefix : string) (tch : Z) : M (list Test) :=
  d ← get_db;
  mret (List.filter
          (fun t => Z.eqb (teacher_id t) tch
                    && ilike (title_prefix ++ "%")%string (title t))
          (tests d)).

End TeacherRepository.

(** ** profile/teacher/services.py *)

Module TeacherServices.
Import Schemas S3.

(** [create_test] *)
Definition create_test (new_id : uuid) (test_data : TestIn) (tch : Z) : M Test :=
  except_IntegrityError
    (TeacherRepository.create_test new_id test_data tch)
    (AlreadyExists "Test" "title" (in_title test_data)).

(** [get_test_by_id] *)
Definition get_test_by_id (tid : uuid) (tch : Z) : M Test :=
  test ← TeacherRepository.get_test_by_id tid tch;
  match test with
  | None => raise (NotFoundUuid "Test" tid)
  | Some t => mret t
  end.

(** [update_test_status] *)
Definition update_test_status (tid : uuid) (st : TestStatus) (tch : Z) : M Test :=
  test ← TeacherRepository.update_test_status tid st tch;
  match test with
  | None => raise (NotFoundUuid "Test" tid)
  | Some t => mret t
  end.

(** [for x in xs: body(x)] *)
Fixpoint for_each {A} (xs : list A) (body : A -> M unit) : M unit :=
  match xs with
  | [] => mret tt
  | x :: rest => body x;; for_each rest body
  end.

(** [delete_test]: the images first, then the rows. *)
Definition delete_test (c : S3Client) (tid : uuid) (tch : Z) : M unit :=
  test_to_delete ← get_test_by_id tid tch;
  d ← get_db;
  delete_image c (test_image_url test_to_delete);;
  for_each (test_questions d test_to_delete) (fun question =>
    delete_image c (q_image_url question);;
    for_each (question_answer_options d question) (fun answer =>
      delete_image c (ao_image_url answer)));;
  deleted_test_id ← TeacherRepository.delete_test_by_id tid tch;
  match deleted_test_id with
  | None => raise (NotFoundUuid "Test" tid)
  | Some _ => mret tt
  end.

(** [create_question_with_answers] *)
Definition create_question_with_answers (new_qid : uuid) (new_oid : nat -> uuid)
    (tid : uuid) (question_data : QuestionCreate) (tch : Z) : M Question :=
  get_test_by_id tid tch;;
  except_IntegrityError
    (TeacherRepository.create_question_with_answers new_qid new_oid tid question_data)
    (HTTPException 500).

(** [QuestionAnalyticsOut], [TestAnalyticsOut] *)
Record QuestionAnalyticsOut := mkQuestionAnalyticsOut {
  qa_question_id : uuid;
  qa_question_text : string;
  correct_answer_percentage : float
}.

Record TestAnalyticsOut := mkTestAnalyticsOut {
  total_attempts : Z;
  average_score : option float;
  question_analytics : list QuestionAnalyticsOut
}.

(** [get_test_analytics] *)
Definition get_test_analytics (like : string -> string -> bool)
    (tid : uuid) (tch : Z) (search_query : option string) : M TestAnalyticsOut :=
  data ← TeacherRepository.get_test_analytics_data like tid tch search_query;
  let '(total_attempts, average_score, question_data) := data in
  let question_analytics :=
    map (fun '(q_id, q_text, percentage) =>
           mkQuestionAnalyticsOut q_id q_text percentage)
      question_data in
  mret (mkTestAnalyticsOut total_attempts average_score question_analytics).


(** [f"{base_title} (копия {i})"] *)
Definition copy_title (base_title : string) (i : N) : string :=
  (base_title ++ " (копия " ++ pretty i ++ ")")%string.

(** The [while True] loop of [_generate_unique_title], from counter [i]:
    [None] when [fuel] rounds did not reach the [return]. *)
Fixpoint copy_loop (existing_titles : list string) (base_title : string)
    (i : N) (fuel : nat) : option string :=
  match fuel with
  | O => None
  | S fuel' =>
      let new_title := copy_title base_title i in
      if negb (existsb (String.eqb new_title) existing_titles)
      then Some new_title
      else copy_loop existing_titles base_title (i + 1)%N fuel'
  end.

(** [_generate_unique_title] *)
Definition _generate_unique_title (ilike : string -> string -> bool) (fuel : nat)
    (base_title : string) (tch : Z) : M (option string) :=
  found ← TeacherRepository.get_tests_by_title_prefix ilike base_title tch;
  let existing_titles := map title found in
  if negb (existsb (String.eqb base_title) existing_titles)
  then mret (Some base_title)
  else mret (copy_loop existing_titles base_title 1%N fuel).

(** [get_question_by_id]: the owner check first, then the question. *)
Definition get_question_by_id (tid qid : uuid) (tch : Z) : M Question :=
  get_test_by_id tid tch;;
  question ← TeacherRepository.get_question_by_id tid qid;
  match question with
  | None => raise (NotFoundUuid "Question" qid)
  | Some q => mret q
  end.

(** [delete_question]: the images first, then the rows. *)
Definition delete_question (c : S3Client) (tid qid : uuid) (tch : Z) : M unit :=
  question_to_delete ← get_question_by_id tid qid tch;
  d ← get_db;
  delete_image c (q_image_url question_to_delete);;
  for_each (question_answer_options d question_to_delete) (fun answer =>
    delete_image c (ao_image_url answer));;
  deleted_question_id ← TeacherRepository.delete_question_by_id tid qid;
  match deleted_question_id with
  | None => raise (NotFoundUuid "Question" qid)
  | Some _ => mret tt
  end.

(** [delete_all_questions_by_test_id]; the answer is the message of the
    returned dict. *)
Definition delete_all_questions_by_test_id (c : S3Client) (tid : uuid) (tch : Z)
  : M string :=
  test ← get_test_by_id tid tch;
  d ← get_db;
  for_each (test_questions d test) (fun question =>
    delete_image c (q_image_url question);;
    for_each (question_answer_options d question) (fun answer =>
      delete_image c (ao_image_url answer)));;
  deleted_count ← TeacherRepository.delete_all_questions_by_test_id tid;
  mret ("Successfully deleted " ++ pretty deleted_count ++ " questions.")%string.

(** [delete_all_tests]; the answer is the message of the returned dict. *)
Definition delete_all_tests (c : S3Client) (tch : Z) : M string :=
  all_tests ← TeacherRepository.get_all_tests_by_teacher tch;
  d ← get_db;
  for_each all_tests (fun test =>
    delete_image c (test_image_url test);;
    for_each (test_questions d test) (fun question =>
      delete_image c (q_image_url question);;
      for_each (question_answer_options d question) (fun answer =>
        delete_image c (ao_image_url answer))));;
  deleted_count ← TeacherRepository.delete_all_tests tch;
  mret ("Successfully deleted " ++ pretty deleted_count ++ " tests.")%string.

End TeacherServices.

(** ** Requests *)

(** One request to the engine, with the ids the database draws while it
    is served. *)
Inductive Request :=
| CreateTest (new_id : uuid) (test_data : Schemas.TestIn) (tch : Z)
| UpdateTestStatus (tid : uuid) (st : TestStatus) (tch : Z)
| CreateQuestion (new_qid : uuid) (new_oid : nat -> uuid) (tid : uuid)
    (question_data : Schemas.QuestionCreate) (tch : Z)
| DeleteTest (tid : uuid) (tch : Z)
| GetTestAnalytics (tid : uuid) (tch : Z) (search_query : option string)
| StartTest (new_id : uuid) (sid : Z) (tid : uuid)
| SubmitAnswer (new_id : uuid) (aid : uuid) (answer_data : StudentServices.StudentAnswerIn)
| FinishTest (aid : uuid).

Section Serve.
Variable s3_client : S3.S3Client.
Variable like : string -> string -> bool.

(** The world after a request has been served, whatever it answered. *)
Definition serve (r : Request) (w : World) : World :=
  match r with
  | CreateTest new_id test_data tch =>
      snd (TeacherServices.create_test new_id test_data tch w)
  | UpdateTestStatus tid st tch =>
      snd (TeacherServices.update_test_status tid st tch w)
  | CreateQuestion new_qid new_oid tid question_data tch =>
      snd (TeacherServices.create_question_with_answers new_qid new_oid tid
             question_data tch w)
  | DeleteTest tid tch =>
      snd (TeacherServices.delete_test s3_client tid tch w)
  | GetTestAnalytics tid tch search_query =>
      snd (TeacherServices.get_test_analytics like tid tch search_query w)
  | StartTest new_id sid tid =>
      snd (StudentServices.start_test new_id sid tid w)
  | SubmitAnswer new_id aid answer_data =>
      snd (StudentServices.submit_answer new_id aid answer_data w)
  | FinishTest aid =>
      snd (StudentServices.finish_test aid w)
  end.

Definition serve_all (rs : list Request) (w : World) : World :=
  fold_left (fun w r => serve r w) rs w.

End Serve.

Definition empty_world : World := mkWorld empty_db [].

(** ** Calls *)

(** A request to the engine or one of the teacher's bulk operations. *)
Inductive Call :=
| Engine (r : Request)
| DeleteQuestion (tid qid : uuid) (tch : Z)
| DeleteAllQuestions (tid : uuid) (tch : Z)
| DeleteAllTests (tch : Z).

Section Handle.
Variable s3_client : S3.S3Client.
Variable like : string -> string -> bool.

(** The world after a call has been handled, whatever it answered. *)
Definition handle (c : Call) (w : World) : World :=
  match c with
  | Engine r => serve s3_client like r w
  | DeleteQuestion tid qid tch =>
      snd (TeacherServices.delete_question s3_client tid qid tch w)
  | DeleteAllQuestions tid tch =>
      snd (TeacherServices.delete_all_questions_by_test_id s3_client tid tch w)
  | DeleteAllTests tch =>
      snd (TeacherServices.delete_all_tests s3_client tch w)
  end.

Definition handle_all (cs : list Call) (w : World) : World :=
  fold_left (fun w c => handle c w) cs w.

End Handle.

(** * Specification vocabulary *)

Import StudentServices StudentRepository.

(** ** Invariants of the store *)

(** The attempts of student [sid] that are IN_PROGRESS. *)
Definition active_attempts (d : DB) (sid : Z) : list TestAttempt :=
  List.filter (StudentRepository.is_active_of sid) (test_attempts d).

(** At most one IN_PROGRESS attempt per student, over all tests. *)
Definition single_active_attempt (d : DB) : Prop :=
  forall sid, (length (active_attempts d sid) <= 1)%nat.

(** The rows of [student_answers] for one (attempt, question) pair. *)
Definition answers_for (d : DB) (aid qid : uuid) : list StudentAnswer :=
  List.filter
    (fun s => N.eqb (sa_attempt_id s) aid && N.eqb (sa_question_id s) qid)
    (student_answers d).

(** At most one [StudentAnswer] per (attempt, question). *)
Definition one_answer_per_pair (d : DB) : Prop :=
  forall aid qid, (length (answers_for d aid qid) <= 1)%nat.

(** [one_answer_per_pair] as a program. *)
Definition one_answer_per_pairb (d : DB) : bool :=
  bool_decide
    (NoDup (map (fun s => (sa_attempt_id s, sa_question_id s)) (student_answers d))).

(** [key] is a primary key of [rows]. *)
Definition pk {A} (key : A -> uuid) (rows : list A) : Prop :=
  NoDup (map key rows).

(** Every row of [child] refers, by [ref], to a row of [parent]. *)
Definition fk {A B} (child : list A) (ref : A -> uuid)
    (parent : list B) (key : B -> uuid) : Prop :=
  forall x, In x child -> exists y, In y parent /\ key y = ref x.

(** What the database guarantees by its constraints: primary keys are
    unique and the foreign keys used by the engine point at rows. *)
Record integrity (d : DB) : Prop := mkIntegrity {
  pk_tests : pk test_id (tests d);
  pk_questions : pk question_id (questions d);
  pk_answer_options : pk answer_id (answer_options d);
  pk_test_attempts : pk attempt_id (test_attempts d);
  pk_student_answers : pk student_answer_id (student_answers d);
  fk_question_test : fk (questions d) q_test_id (tests d) test_id;
  fk_option_question : fk (answer_options d) ao_question_id (questions d) question_id;
  fk_attempt_test : fk (test_attempts d) ta_test_id (tests d) test_id;
  fk_answer_attempt : fk (student_answers d) sa_attempt_id (test_attempts d) attempt_id;
  fk_answer_question : fk (student_answers d) sa_question_id (questions d) question_id;
  fk_selected_answer :
    fk (student_answer_selected_options d) sel_student_answer_id
      (student_answers d) student_answer_id;
  fk_selected_option :
    fk (student_answer_selected_options d) sel_answer_option_id
      (answer_options d) answer_id
}.

(** Some row of [rows] has the key [id]. *)
Definition refers {A} (key : A -> uuid) (rows : list A) (id : uuid) : bool :=
  existsb (fun x => N.eqb (key x) id) rows.

(** [integrity] as a program. *)
Definition integrityb (d : DB) : bool :=
  bool_decide (NoDup (map test_id (tests d)))
  && bool_decide (NoDup (map question_id (questions d)))
  && bool_decide (NoDup (map answer_id (answer_options d)))
  && bool_decide (NoDup (map attempt_id (test_attempts d)))
  && bool_decide (NoDup (map student_answer_id (student_answers d)))
  && forallb (fun q => refers test_id (tests d) (q_test_id q)) (questions d)
  && forallb (fun o => refers question_id (questions d) (ao_question_id o)) (answer_options d)
  && forallb (fun a => refers test_id (tests d) (ta_test_id a)) (test_attempts d)
  && forallb (fun s => refers attempt_id (test_attempts d) (sa_attempt_id s)) (student_answers d)
  && forallb (fun s => refers question_id (questions d) (sa_question_id s)) (student_answers d)
  && forallb (fun r => refers student_answer_id (student_answers d) (sel_student_answer_id r))
       (student_answer_selected_options d)
  && forallb (fun r => refers answer_id (answer_options d) (sel_answer_option_id r))
       (student_answer_selected_options d).

(** Every recorded answer is to a question of the test of its attempt. *)
Definition answers_within_test (d : DB) : Prop :=
  forall s a q,
    In s (student_answers d) ->
    In a (test_attempts d) -> attempt_id a = sa_attempt_id s ->
    In q (questions d) -> question_id q = sa_question_id s ->
    q_test_id q = ta_test_id a.

(** [answers_within_test] as a program. *)
Definition answers_within_testb (d : DB) : bool :=
  forallb (fun s =>
    forallb (fun a =>
      forallb (fun q =>
        negb (N.eqb (attempt_id a) (sa_attempt_id s))
        || negb (N.eqb (question_id q) (sa_question_id s))
        || N.eqb (q_test_id q) (ta_test_id a))
        (questions d))
      (test_attempts d))
    (student_answers d).

(** What holds of every store that requests can produce. *)
Record consistent (d : DB) : Prop := mkConsistent {
  cons_integrity : integrity d;
  cons_single_active : single_active_attempt d;
  cons_one_answer : one_answer_per_pair d;
  cons_within_test : answers_within_test d
}.

(** ** How a request may change the tables *)

(** The attempts table after a request: the same rows, rows removed, rows
    moved to COMPLETED, or one active row added for a student who had
    none. *)
Inductive attempts_step (l : list TestAttempt) : list TestAttempt -> Prop :=
| step_same : attempts_step l l
| step_removed keep : attempts_step l (List.filter keep l)
| step_completed hit sc :
    attempts_step l
      (map (fun a => if hit a : bool
                     then mkTestAttempt (attempt_id a) (student_id a) (ta_test_id a)
                            COMPLETED sc
                     else a) l)
| step_started a :
    List.filter (StudentRepository.is_active_of (student_id a)) l = [] ->
    attempts_step l (l ++ [a]).

(** The answers table after a request: the same rows, rows removed, the
    verdict of one row rewritten, or a row added for a pair that had none. *)
Inductive answers_step (l : list StudentAnswer) : list StudentAnswer -> Prop :=
| ans_same : answers_step l l
| ans_removed keep : answers_step l (List.filter keep l)
| ans_updated sid b :
    answers_step l
      (map (fun s => if N.eqb (student_answer_id s) sid
                     then set_is_correct s b else s) l)
| ans_added s :
    List.filter
      (fun s' => N.eqb (sa_attempt_id s') (sa_attempt_id s)
                 && N.eqb (sa_question_id s') (sa_question_id s)) l = [] ->
    answers_step l (l ++ [s]).

(** One request changes the store in one of these ways. *)
Inductive db_step (d : DB) : DB -> Prop :=
| db_unchanged : db_step d d
| db_new_test t :
    (forall x, In x (tests d) -> test_id x <> test_id t) ->
    db_step d (set_tests d (tests d ++ [t]))
| db_tests_updated hit u :
    (forall t, test_id (u t) = test_id t) ->
    db_step d (set_tests d (map (fun t => if hit t : bool then u t else t) (tests d)))
| db_new_question q opts :
    (forall x, In x (questions d) -> question_id x <> question_id q) ->
    (exists t, In t (tests d) /\ test_id t = q_test_id q) ->
    pk answer_id opts ->
    (forall o, In o opts -> ao_question_id o = question_id q) ->
    (forall x o, In x (answer_options d) -> In o opts -> answer_id x <> answer_id o) ->
    db_step d (mkDB (tests d) (questions d ++ [q]) (answer_options d ++ opts)
                 (test_attempts d) (student_answers d)
                 (student_answer_selected_options d))
| db_tests_deleted gone :
    db_step d (TeacherRepository.cascade_delete_tests gone d)
| db_new_attempt a :
    (forall x, In x (test_attempts d) -> attempt_id x <> attempt_id a) ->
    (exists t, In t (tests d) /\ test_id t = ta_test_id a) ->
    db_step d (set_test_attempts d (test_attempts d ++ [a]))
| db_attempts_updated hit u :
    (forall a, attempt_id (u a) = attempt_id a /\ ta_test_id (u a) = ta_test_id a) ->
    db_step d (set_test_attempts d
                 (map (fun a => if hit a : bool then u a else a) (test_attempts d)))
| db_new_answer s opts :
    (forall x, In x (student_answers d) -> student_answer_id x <> student_answer_id s) ->
    (exists a q, In a (test_attempts d) /\ attempt_id a = sa_attempt_id s
                 /\ In q (questions d) /\ question_id q = sa_question_id s
                 /\ q_test_id q = ta_test_id a) ->
    (forall o, In o opts -> In o (answer_options d)) ->
    db_step d (set_student_answers d (student_answers d ++ [s])
                 (student_answer_selected_options d
                  ++ selected_rows (student_answer_id s) opts))
| db_answer_updated sa b opts :
    In sa (student_answers d) ->
    (forall o, In o opts -> In o (answer_options d)) ->
    db_step d
      (set_student_answers d
         (map (fun s => if N.eqb (student_answer_id s) (student_answer_id sa)
                        then set_is_correct s b else s)
            (student_answers d))
         (List.filter
            (fun r => negb (N.eqb (sel_student_answer_id r) (student_answer_id sa)))
            (student_answer_selected_options d)
          ++ selected_rows (student_answer_id sa) opts)).

(** ** Submitting an answer *)

(** [x] is the id of a correct option of question [qid]. *)
Definition is_correct_option (d : DB) (qid x : uuid) : Prop :=
  exists o, In o (answer_options d) /\ answer_id o = x
            /\ ao_question_id o = qid /\ ao_is_correct o = true.

(** [x] is the id of some row of [answer_options]. *)
Definition is_option (d : DB) (x : uuid) : Prop :=
  exists o, In o (answer_options d) /\ answer_id o = x.

(** The precondition of a successful [submit_answer]: the attempt is in
    progress, the question belongs to its test, and the id drawn for a new
    row is not taken. *)
Record can_submit (d : DB) (new_id aid qid : uuid) : Prop := mkCanSubmit {
  cs_attempt : exists a, In a (test_attempts d) /\ attempt_id a = aid
                         /\ status a = IN_PROGRESS
                         /\ exists q, In q (questions d) /\ question_id q = qid
                                      /\ q_test_id q = ta_test_id a;
  cs_fresh : forall s, In s (student_answers d) -> student_answer_id s <> new_id
}.

(** The set the service compares the chosen ids with. *)
Definition correct_answer_ids (d : DB) (qid : uuid) : gset uuid :=
  list_to_set
    (map answer_id
       (List.filter (fun a => N.eqb (ao_question_id a) qid && ao_is_correct a)
          (answer_options d))).

(** The rows of [answer_options] whose id is among the chosen ids. *)
Definition chosen_rows (d : DB) (chosen_option_ids : list uuid) : list AnswerOption :=
  List.filter (fun o => existsb (N.eqb (answer_id o)) chosen_option_ids)
    (answer_options d).

(** The store after the upsert of [save_student_answer]. *)
Definition upsert (d : DB) (new_id aid qid : uuid) (chosen_option_ids : list uuid)
    (b : bool) : DB :=
  match answers_for d aid qid with
  | sa :: _ =>
      let sid := student_answer_id sa in
      set_student_answers d
        (map (fun s => if N.eqb (student_answer_id s) sid
                       then set_is_correct s b else s)
           (student_answers d))
        (List.filter (fun r => negb (N.eqb (sel_student_answer_id r) sid))
           (student_answer_selected_options d)
         ++ selected_rows sid (chosen_rows d chosen_option_ids))
  | [] =>
      set_student_answers d
        (student_answers d ++ [mkStudentAnswer new_id aid qid b])
        (student_answer_selected_options d
         ++ selected_rows new_id (chosen_rows d chosen_option_ids))
  end.

(** What the store records about one attempt: its row, its answers and
    the options chosen in each. *)
Definition attempt_record (d : DB) (aid : uuid)
  : list TestAttempt * list (StudentAnswer * gset uuid) :=
  (List.filter (fun a => N.eqb (attempt_id a) aid) (test_attempts d),
   map (fun s => (s, chosen_options d (student_answer_id s)))
     (List.filter (fun s => N.eqb (sa_attempt_id s) aid) (student_answers d))).

(** ** Finishing an attempt *)

(** The points of the question with id [qid]. *)
Definition question_points (d : DB) (qid : uuid) : Z :=
  match List.find (fun q => N.eqb (question_id q) qid) (questions d) with
  | Some q => points q
  | None => 0
  end.

(** The attempt holds a correct answer to the question. *)
Definition answered_correctly (d : DB) (aid qid : uuid) : bool :=
  existsb sa_is_correct (answers_for d aid qid).

(** The attempts table after [finish_test]. *)
Definition completed (d : DB) (aid : uuid) (sc : float) : DB :=
  set_test_attempts d
    (map (fun a => if N.eqb (attempt_id a) aid
                   then mkTestAttempt (attempt_id a) (student_id a) (ta_test_id a)
                          COMPLETED (Some sc)
                   else a)
       (test_attempts d)).

(** The sum of the points of the questions of test [tid]. *)
Definition total_points (d : DB) (tid : uuid) : Z :=
  sum (map points (List.filter (fun q => N.eqb (q_test_id q) tid) (questions d))).

(** The sum, over the answers of attempt [aid] marked correct, of the
    points of their questions. *)
Definition earned (d : DB) (aid : uuid) : Z :=
  sum (map (fun s => question_points d (sa_question_id s))
         (List.filter sa_is_correct
            (List.filter (fun s => N.eqb (sa_attempt_id s) aid) (student_answers d)))).

(** ** Test titles *)



(** ** Deleting a test *)

(** The keys [delete_test] asks the object store to delete, in order. *)
Definition option_keys (c : S3.S3Client) (opts : list AnswerOption) : list string :=
  omap (fun o => S3.key_to_delete c (ao_image_url o)) opts.

(** The keys of one question: its image, then the images of its options. *)
Definition question_keys (c : S3.S3Client) (d : DB) (q : Question) : list string :=
  option_list (S3.key_to_delete c (q_image_url q))
  ++ option_keys c (question_answer_options d q).

(** The keys of a test: its cover, then the keys of its questions. *)
Definition test_keys (c : S3.S3Client) (d : DB) (t : Test) : list string :=
  option_list (S3.key_to_delete c (test_image_url t))
  ++ flat_map (question_keys c d) (test_questions d t).

(** The world after delete requests for [keys] have been sent. *)
Definition logged (w : World) (keys : list string) : World :=
  mkWorld (w_db w) (w_log w ++ map S3DeleteObject keys).

(** [url] is an image reference held by the test, by one of its questions
    or by one of their answer options. *)
Definition held_image (d : DB) (t : Test) (url : string) : Prop :=
  test_image_url t = Some url
  \/ exists q, In q (test_questions d t)
       /\ (q_image_url q = Some url
           \/ exists o, In o (question_answer_options d q)
                /\ ao_image_url o = Some url).


(** ** Worlds to run the engine on *)


(** Teacher 7 writes test 1 with three questions worth 2, 3 and 5 points and
    test 2 with one question, publishes both; student 3 starts test 1, gets
    the second question right and the first one wrong. *)
Definition quiz_requests : list Request :=
  [ CreateTest 1%N (Schemas.mkTestIn "Algebra" None None) 7;
    CreateQuestion 10%N (fun i => (100 + N.of_nat i)%N) 1%N
      (Schemas.mkQuestionCreate "first" None (Some 1) (Some 2)
         [Schemas.mkAnswerOptionCreate (Some "a") None true;
          Schemas.mkAnswerOptionCreate (Some "b") None false]) 7;
    CreateQuestion 11%N (fun i => (110 + N.of_nat i)%N) 1%N
      (Schemas.mkQuestionCreate "second" None (Some 2) (Some 3)
         [Schemas.mkAnswerOptionCreate (Some "a") None true;
          Schemas.mkAnswerOptionCreate (Some "b") None true;
          Schemas.mkAnswerOptionCreate (Some "c") None false]) 7;
    CreateQuestion 12%N (fun i => (120 + N.of_nat i)%N) 1%N
      (Schemas.mkQuestionCreate "third" None (Some 3) (Some 5)
         [Schemas.mkAnswerOptionCreate (Some "a") None false]) 7;
    CreateTest 2%N (Schemas.mkTestIn "Geometry" None None) 7;
    CreateQuestion 20%N (fun i => (200 + N.of_nat i)%N) 2%N
      (Schemas.mkQuestionCreate "other" None None None
         [Schemas.mkAnswerOptionCreate (Some "a") None true]) 7;
    UpdateTestStatus 1%N PUBLISHED 7;
    UpdateTestStatus 2%N PUBLISHED 7;
    StartTest 50%N 3 1%N;
    SubmitAnswer 60%N 50%N (mkStudentAnswerIn 11%N [110%N; 111%N]);
    SubmitAnswer 61%N 50%N (mkStudentAnswerIn 10%N [101%N]) ].

(** The storage client of the examples: bucket "edu". *)
Definition edu : S3.S3Client := S3.mkS3Client "edu".

(** The world after the quiz requests, from the empty store. *)
Definition quiz : World :=
  Eval vm_compute in serve_all edu (fun _ _ => true) quiz_requests empty_world.

(** The quiz after student 3 has finished the attempt. *)
Definition quiz_finished : World :=
  Eval vm_compute in snd (finish_test 50%N quiz).


(** A test with a stored cover, a question with a stored picture and an
    answer option with a stored picture and one with a linked picture. *)
Definition illustrated : World :=
  mkWorld
    (mkDB
       [mkTest 1%N 7 "Algebra" None (Some "http://localhost:9000/edu/tests/cover.png") DRAFT]
       [mkQuestion 10%N 1%N "first" (Some "http://localhost:9000/edu/tests/q.png") (Some 1) 2]
       [mkAnswerOption 100%N 10%N None (Some "http://localhost:9000/edu/tests/a.png") true;
        mkAnswerOption 101%N 10%N (Some "b") (Some "http://cdn.example.com/b.png") false]
       [] [] [])
    [].

(** ** Attempts and their scores *)

(** An attempt carries a score exactly when it is COMPLETED. *)
Definition scored (d : DB) : Prop :=
  forall a, In a (test_attempts d) -> status a = COMPLETED <-> score a <> None.

(** The attempts of student [sid], in whatever state. *)
Definition attempts_of (d : DB) (sid : Z) : list TestAttempt :=
  List.filter (fun a => Z.eqb (student_id a) sid) (test_attempts d).

(** A row of the attempts table after a request is an old row, a row that
    has just been started or a row that has just been completed. *)
Definition attempt_row_ok (l : list TestAttempt) (a : TestAttempt) : Prop :=
  In a l
  \/ (status a = IN_PROGRESS /\ score a = None)
  \/ (status a = COMPLETED /\ score a <> None).


(** ** Public URLs *)

(** [sub in s] *)
Fixpoint contains (sub s : string) : bool :=
  String.prefix sub s
  || match s with
     | EmptyString => false
     | String _ s' => contains sub s'
     end.

(** The part of a public URL before the bucket name. *)
Definition url_root (secure : bool) (port : Z) : string :=
  ((if secure then "https" else "http") ++ "://localhost:" ++ pretty port ++ "/")%string.

(** ** What the analytics count *)

(** The attempts on test [tid] that are COMPLETED. *)
Definition completed_on (d : DB) (tid : uuid) : list TestAttempt :=
  List.filter
    (fun ta => N.eqb (ta_test_id ta) tid && TestAttemptStatus_eqb (status ta) COMPLETED)
    (test_attempts d).

(** The answer was given in a COMPLETED attempt on test [tid]. *)
Definition in_completed_attempt (d : DB) (tid : uuid) (sa : StudentAnswer) : bool :=
  existsb (fun ta => N.eqb (attempt_id ta) (sa_attempt_id sa)) (completed_on d tid).

(** The answers to question [qid] given in COMPLETED attempts on [tid]. *)
Definition counted_answers (d : DB) (tid qid : uuid) : list StudentAnswer :=
  List.filter
    (fun sa => N.eqb (sa_question_id sa) qid && in_completed_attempt d tid sa)
    (student_answers d).

(** * Properties *)

(** ** Lists of rows *)

Lemma filter_filter_length {A} (f g : A -> bool) (l : list A) :
  (length (List.filter f (List.filter g l)) <= length (List.filter f l))%nat.
Proof.
  induction l as [|x l IH]; simpl; [lia|].
  destruct (g x); simpl; destruct (f x); simpl; lia.
Qed.

Lemma filter_update_length {A} (f hit : A -> bool) (u : A -> A) (l : list A) :
  (forall x, f (u x) = true -> f x = true) ->
  (length (List.filter f (map (fun x => if hit x then u x else x) l))
   <= length (List.filter f l))%nat.
Proof.
  intros Hu. induction l as [|x l IH]; simpl; [lia|].
  destruct (hit x).
  - destruct (f (u x)) eqn:E.
    + rewrite (Hu _ E). simpl. lia.
    + destruct (f x); simpl; lia.
  - destruct (f x); simpl; lia.
Qed.

Lemma existsb_false_filter {A} (f : A -> bool) (l : list A) :
  existsb f l = false -> List.filter f l = [].
Proof.
  induction l as [|x l IH]; simpl; [done|].
  destruct (f x); simpl; [done|]. exact IH.
Qed.

Lemma existsb_true_filter {A} (f : A -> bool) (l : list A) :
  existsb f l = true -> List.filter f l <> [].
Proof.
  induction l as [|x l IH]; simpl; [done|].
  destruct (f x); simpl; [done|]. exact IH.
Qed.

Lemma filter_nil_existsb {A} (f : A -> bool) (l : list A) :
  List.filter f l = [] -> existsb f l = false.
Proof.
  intros H. destruct (existsb f l) eqn:E; [|done].
  by apply existsb_true_filter in E.
Qed.

(** ** What the storage loop does *)

Lemma logged_nil (w : World) : logged w [] = w.
Proof. destruct w. unfold logged. simpl. by rewrite app_nil_r. Qed.

Lemma logged_app (w : World) (k1 k2 : list string) :
  logged (logged w k1) k2 = logged w (k1 ++ k2).
Proof. unfold logged. simpl. by rewrite map_app, app_assoc. Qed.

Lemma delete_image_run (c : S3.S3Client) (u : option string) (w : World) :
  S3.delete_image c u w = (Ok tt, logged w (option_list (S3.key_to_delete c u))).
Proof.
  unfold S3.delete_image. destruct (S3.key_to_delete c u); simpl.
  - reflexivity.
  - by rewrite logged_nil.
Qed.

Lemma answers_loop_run (c : S3.S3Client) (opts : list AnswerOption) (w : World) :
  TeacherServices.for_each opts (fun answer => S3.delete_image c (ao_image_url answer)) w
  = (Ok tt, logged w (option_keys c opts)).
Proof.
  revert w. induction opts as [|o opts IH]; intros w; simpl.
  - by rewrite logged_nil.
  - unfold mbind, M_bind. rewrite delete_image_run, IH, logged_app.
    unfold option_keys. simpl. by destruct (S3.key_to_delete c (ao_image_url o)).
Qed.

Lemma questions_loop_run (c : S3.S3Client) (d : DB) (qs : list Question) (w : World) :
  TeacherServices.for_each qs (fun question =>
    S3.delete_image c (q_image_url question);;
    TeacherServices.for_each (question_answer_options d question) (fun answer =>
      S3.delete_image c (ao_image_url answer))) w
  = (Ok tt, logged w (flat_map (question_keys c d) qs)).
Proof.
  revert w. induction qs as [|q qs IH]; intros w; simpl.
  - by rewrite logged_nil.
  - unfold mbind, M_bind in *. rewrite delete_image_run, answers_loop_run, IH.
    rewrite !logged_app. unfold question_keys. by rewrite <- !app_assoc.
Qed.

(** ** Running a request *)

Ltac run :=
  unfold scalar_one_or_none, except_IntegrityError, commit in *;
  unfold mbind, M_bind, mret, M_ret, raise, get_db, put_db, emit in *;
  simpl in *.

Lemma bind_run {A B} (m : M A) (k : A -> M B) (w : World) :
  (m ≫= k) w =
  match m w with
  | (Ok a, w') => k a w'
  | (Raise e, w') => (Raise e, w')
  end.
Proof. reflexivity. Qed.

Lemma bind_ok {A B} (m : M A) (k : A -> M B) (w w' : World) (a : A) :
  m w = (Ok a, w') -> (m ≫= k) w = k a w'.
Proof. intros H. by rewrite bind_run, H. Qed.

Lemma bind_raise {A B} (m : M A) (k : A -> M B) (w w' : World) (e : Exn) :
  m w = (Raise e, w') -> (m ≫= k) w = (Raise e, w').
Proof. intros H. by rewrite bind_run, H. Qed.
Lemma delete_test_run (c : S3.S3Client) (tid : uuid) (tch : Z) (w : World) (t : Test) :
  List.filter (TeacherRepository.owned tid tch) (tests (w_db w)) = [t] ->
  TeacherServices.delete_test c tid tch w
  = (Ok tt,
     mkWorld
       (TeacherRepository.cascade_delete_tests (TeacherRepository.owned tid tch) (w_db w))
       (w_log w ++ map S3DeleteObject (test_keys c (w_db w) t) ++ [Commit])).
Proof.
  intros Ht.
  unfold TeacherServices.delete_test.
  erewrite bind_ok; cycle 1.
  { unfold TeacherServices.get_test_by_id, TeacherRepository.get_test_by_id.
    run. rewrite Ht. reflexivity. }
  rewrite (bind_ok get_db _ w w (w_db w)) by reflexivity.
  erewrite bind_ok by apply delete_image_run.
  erewrite bind_ok by apply questions_loop_run.
  rewrite logged_app.
  unfold TeacherRepository.delete_test_by_id. run. rewrite Ht. simpl.
  unfold test_keys. by rewrite <- !app_assoc.
Qed.

Lemma delete_test_missing (c : S3.S3Client) (tid : uuid) (tch : Z) (w : World) :
  (forall t, List.filter (TeacherRepository.owned tid tch) (tests (w_db w)) <> [t]) ->
  exists e, TeacherServices.delete_test c tid tch w = (Raise e, w).
Proof.
  intros Ht.
  unfold TeacherServices.delete_test, TeacherServices.get_test_by_id,
    TeacherRepository.get_test_by_id.
  run. destruct (List.filter _ _) as [|t [|t' l]]; simpl; eauto.
  by destruct (Ht t).
Qed.

(** ** Single active attempt *)

Lemma attempts_step_active (l l' : list TestAttempt) (sid : Z) :
  attempts_step l l' ->
  (length (List.filter (StudentRepository.is_active_of sid) l) <= 1)%nat ->
  (length (List.filter (StudentRepository.is_active_of sid) l') <= 1)%nat.
Proof.
  intros Hstep Hinv.
  destruct Hstep as [|keep|hit sc|a Hnone].
  - done.
  - etrans; [|exact Hinv].
    clear. induction l as [|x l IH]; simpl; [lia|].
    destruct (keep x); simpl; destruct (StudentRepository.is_active_of sid x); simpl; lia.
  - etrans; [|exact Hinv].
    apply filter_update_length. intros x.
    unfold StudentRepository.is_active_of. simpl. by rewrite andb_false_r.
  - rewrite List.filter_app, length_app. simpl.
    destruct (StudentRepository.is_active_of sid a) eqn:Ea; simpl; [|lia].
    unfold StudentRepository.is_active_of in Ea.
    apply andb_prop in Ea as [Ea _]. apply Z.eqb_eq in Ea. subst sid.
    rewrite Hnone. simpl. lia.
Qed.

Lemma attempts_step_single (d d' : DB) :
  attempts_step (test_attempts d) (test_attempts d') ->
  single_active_attempt d -> single_active_attempt d'.
Proof.
  intros Hstep Hinv sid. unfold active_attempts.
  eapply attempts_step_active; [exact Hstep | apply Hinv].
Qed.

Section Invariant.
Variable s3_client : S3.S3Client.
Variable like : string -> string -> bool.

Lemma serve_attempts_step (r : Request) (w : World) :
  attempts_step (test_attempts (w_db w)) (test_attempts (w_db (serve s3_client like r w))).
Proof.
  destruct r; simpl.
  - unfold TeacherServices.create_test, TeacherRepository.create_test. run.
    repeat case_match; simplify_eq; simpl; apply step_same.
  - unfold TeacherServices.update_test_status, TeacherRepository.update_test_status.
    run. repeat case_match; simplify_eq; simpl; apply step_same.
  - unfold TeacherServices.create_question_with_answers,
      TeacherServices.get_test_by_id, TeacherRepository.get_test_by_id,
      TeacherRepository.create_question_with_answers.
    run. repeat case_match; simplify_eq; simpl; apply step_same.
  - destruct (List.filter (TeacherRepository.owned tid tch) (tests (w_db w)))
      as [|t [|t' l]] eqn:Ht.
    + destruct (delete_test_missing s3_client tid tch w) as [e ->].
      * intros t. by rewrite Ht.
      * apply step_same.
    + rewrite (delete_test_run _ _ _ _ _ Ht). simpl. apply step_removed.
    + destruct (delete_test_missing s3_client tid tch w) as [e ->].
      * intros t0. by rewrite Ht.
      * apply step_same.
  - unfold TeacherServices.get_test_analytics, TeacherRepository.get_test_analytics_data.
    run. repeat case_match; simplify_eq; simpl; apply step_same.
  - unfold StudentServices.start_test, StudentRepository.has_active_attempt,
      StudentRepository.get_test_for_student_by_id,
      StudentRepository.create_test_attempt.
    run.
    destruct (existsb (StudentRepository.is_active_of sid) _) eqn:Hact; simpl;
      [apply step_same|].
    repeat case_match; simplify_eq; simpl; try apply step_same.
    all: apply (step_started _ (mkTestAttempt new_id sid tid IN_PROGRESS None));
      simpl; by apply existsb_false_filter.
  - unfold StudentServices.submit_answer, StudentRepository.get_attempt_with_results,
      StudentRepository.get_correct_answers_for_question,
      StudentRepository.save_student_answer.
    run. repeat case_match; simplify_eq; simpl; apply step_same.
  - unfold StudentServices.finish_test, StudentRepository.get_attempt_with_results,
      StudentRepository.update_test_attempt.
    run. repeat case_match; simplify_eq; simpl; try apply step_same.
    all: apply step_completed.
Qed.

Lemma serve_single_active (r : Request) (w : World) :
  single_active_attempt (w_db w) ->
  single_active_attempt (w_db (serve s3_client like r w)).
Proof. apply attempts_step_single, serve_attempts_step. Qed.

End Invariant.



(** ** Integrity of the store *)

Lemma refers_In {A} (key : A -> uuid) (rows : list A) (id : uuid) :
  refers key rows id = true <-> exists x, In x rows /\ key x = id.
Proof.
  unfold refers. rewrite existsb_exists.
  split; intros (x & Hx & E); exists x; split; auto; by apply N.eqb_eq.
Qed.

Lemma forallb_refers {A B} (key : A -> uuid) (rows : list A) (f : B -> uuid) (l : list B) :
  forallb (fun y => refers key rows (f y)) l = true ->
  forall y, In y l -> exists x, In x rows /\ key x = f y.
Proof.
  rewrite forallb_forall. intros H y Hy. by apply refers_In, H.
Qed.

Lemma integrityb_sound (d : DB) : integrityb d = true -> integrity d.
Proof.
  unfold integrityb. rewrite !andb_true_iff.
  intros [[[[[[[[[[[H1 H2] H3] H4] H5] H6] H7] H8] H9] H10] H11] H12].
  constructor; unfold pk, fk; try (by eapply bool_decide_eq_true_1);
    by apply forallb_refers.
Qed.

(** A primary key selects at most the row itself. *)
Lemma filter_key_unique {A} (key : A -> uuid) (l : list A) (x : A) :
  NoDup (map key l) -> In x l ->
  List.filter (fun y => N.eqb (key y) (key x)) l = [x].
Proof.
  induction l as [|y l IH]; simpl; [done|].
  intros Hnd [->|Hin].
  - rewrite N.eqb_refl. f_equal.
    apply existsb_false_filter. apply NoDup_cons_1_1 in Hnd as Hx.
    destruct (existsb _ l) eqn:E; [|done].
    apply existsb_exists in E as (z & Hz & Ez). apply N.eqb_eq in Ez.
    exfalso. apply Hx. rewrite <- Ez. apply list_elem_of_In. by apply in_map.
  - pose proof (NoDup_cons_1_1 _ _ Hnd) as Hy.
    destruct (N.eqb_spec (key y) (key x)) as [E|E].
    + exfalso. apply Hy. rewrite E. apply list_elem_of_In. by apply in_map.
    + apply IH; [|done]. by apply NoDup_cons_1_2 in Hnd.
Qed.

Lemma find_key {A} (key : A -> uuid) (l : list A) (id : uuid) :
  (exists x, In x l /\ key x = id) ->
  exists x, List.find (fun y => N.eqb (key y) id) l = Some x /\ In x l /\ key x = id.
Proof.
  intros (x & Hx & E).
  destruct (List.find _ l) as [y|] eqn:F.
  - apply find_some in F as [Hy Ey]. apply N.eqb_eq in Ey. eauto.
  - eapply find_none in F; [|exact Hx]. apply N.eqb_neq in F. done.
Qed.

(** ** Submitting an answer *)

Lemma elem_of_correct_answer_ids (d : DB) (qid x : uuid) :
  x ∈ correct_answer_ids d qid <-> is_correct_option d qid x.
Proof.
  unfold correct_answer_ids, is_correct_option.
  rewrite elem_of_list_to_set, list_elem_of_In, in_map_iff.
  split.
  - intros (o & E & Ho). apply filter_In in Ho as [Ho Hc].
    apply andb_prop in Hc as [Hq Hc]. apply N.eqb_eq in Hq. eauto 6.
  - intros (o & Ho & E & Hq & Hc). exists o. split; [done|].
    apply filter_In. split; [done|]. rewrite Hc, andb_true_r. by apply N.eqb_eq.
Qed.

Lemma existsb_In {A} (f : A -> bool) (l : list A) (x : A) :
  In x l -> f x = true -> existsb f l = true.
Proof. intros. apply existsb_exists. eauto. Qed.

Lemma fresh_existsb {A} (key : A -> uuid) (l : list A) (id : uuid) :
  (forall x, In x l -> key x <> id) ->
  existsb (fun x => N.eqb (key x) id) l = false.
Proof.
  intros H. destruct (existsb _ l) eqn:E; [|done].
  apply existsb_exists in E as (x & Hx & Ex). apply N.eqb_eq in Ex.
  by destruct (H x Hx).
Qed.

Lemma submit_answer_run (w : World) (new_id aid : uuid) (answer_data : StudentAnswerIn) :
  let d := w_db w in
  let qid := in_question_id answer_data in
  let chosen := chosen_answer_option_ids answer_data in
  let b := bool_decide (list_to_set chosen = correct_answer_ids d qid) in
  integrity d -> one_answer_per_pair d -> can_submit d new_id aid qid ->
  submit_answer new_id aid answer_data w
  = (Ok (mkStudentAnswerResultOut b (elements (correct_answer_ids d qid))),
     mkWorld (upsert d new_id aid qid chosen b) (w_log w ++ [Commit])).
Proof.
  intros d qid chosen b Hint Hone [(a & Ha & Eaid & Hst & q & Hq & Eq & Hqt) Hfresh].
  unfold submit_answer.
  erewrite bind_ok; cycle 1.
  { unfold get_attempt_with_results. run. fold d. rewrite <- Eaid.
    rewrite (filter_key_unique attempt_id _ a); [reflexivity| |done].
    apply (pk_test_attempts _ Hint). }
  cbv beta iota. rewrite Hst.
  erewrite bind_ok by reflexivity.
  erewrite bind_ok by reflexivity.
  cbv beta iota zeta.
  destruct (find_key test_id (tests d) (ta_test_id a)) as (t & Ft & Ht & Et).
  { apply (fk_attempt_test _ Hint), Ha. }
  unfold attempt_test. fold d. rewrite Ft.
  assert (Hex : existsb (fun q0 => N.eqb (question_id q0) (in_question_id answer_data))
                  (test_questions d t) = true).
  { apply (existsb_In _ _ q).
    - apply filter_In. split; [done|]. apply N.eqb_eq. congruence.
    - by apply N.eqb_eq. }
  rewrite Hex. simpl negb. cbv iota.
  unfold save_student_answer, upsert, answers_for.
  fold d qid chosen. fold (correct_answer_ids d qid). fold b.
  specialize (Hone aid qid). unfold answers_for in Hone.
  run. fold d.
  destruct (List.filter _ (student_answers d)) as [|sa [|sa' l]] eqn:F; simpl in *.
  - rewrite (fresh_existsb student_answer_id _ _ Hfresh).
    rewrite (existsb_In _ _ a Ha) by (by apply N.eqb_eq).
    rewrite (existsb_In _ _ q Hq) by (by apply N.eqb_eq).
    reflexivity.
  - reflexivity.
  - lia.
Qed.

Lemma set_eq_lists (chosen : list uuid) (d : DB) (qid : uuid) :
  list_to_set chosen = correct_answer_ids d qid
  <-> (forall x, In x chosen <-> is_correct_option d qid x).
Proof.
  rewrite set_eq. apply forall_proper. intros x.
  by rewrite elem_of_list_to_set, list_elem_of_In, elem_of_correct_answer_ids.
Qed.

(** C2. A successful [submit_answer] reports [is_correct = true] exactly
    when the chosen ids, as a set, are the ids of the correct options of the
    question: a strict subset, a strict superset and any set with an
    incorrect option give [false]; for a question without correct options
    the empty choice, and only it, gives [true]. *)
Theorem exact_set_scoring (w : World) (new_id aid : uuid) (answer_data : StudentAnswerIn) :
  let d := w_db w in
  let qid := in_question_id answer_data in
  let chosen := chosen_answer_option_ids answer_data in
  integrity d -> one_answer_per_pair d -> can_submit d new_id aid qid ->
  exists out w',
    submit_answer new_id aid answer_data w = (Ok out, w')
    /\ (is_correct out = true <-> (forall x, In x chosen <-> is_correct_option d qid x))
    /\ ((forall x, In x chosen -> is_correct_option d qid x) ->
        (exists y, is_correct_option d qid y /\ ~ In y chosen) ->
        is_correct out = false)
    /\ ((forall x, is_correct_option d qid x -> In x chosen) ->
        (exists y, In y chosen /\ ~ is_correct_option d qid y) ->
        is_correct out = false)
    /\ ((exists y, In y chosen /\ ~ is_correct_option d qid y) ->
        is_correct out = false)
    /\ ((forall x, ~ is_correct_option d qid x) ->
        (is_correct out = true <-> chosen = [])).
Proof.
  intros d qid chosen Hint Hone Hcan.
  eexists _, _. split; [by apply submit_answer_run|]. simpl.
  fold d qid chosen. rewrite bool_decide_eq_true, bool_decide_eq_false, set_eq_lists.
  split; [done|].
  split; [|split; [|split]].
  - intros _ (y & Hy & Hn) H. by apply Hn, H.
  - intros _ (y & Hy & Hn) H. by apply Hn, H.
  - intros (y & Hy & Hn) H. by apply Hn, H.
  - intros Hno. split.
    + intros H. destruct chosen as [|x l]; [done|].
      destruct (Hno x). apply H. by left.
    + intros -> x. split; [done|]. intros Hx. by destruct (Hno x).
Qed.

(** ** The upsert *)

Lemma filter_map_commute {A} (f : A -> bool) (u : A -> A) (l : list A) :
  (forall x, f (u x) = f x) ->
  List.filter f (map u l) = map u (List.filter f l).
Proof.
  intros H. induction l as [|x l IH]; simpl; [done|].
  rewrite H. destruct (f x); simpl; by rewrite IH.
Qed.

Lemma chosen_rows_ids (d : DB) (chosen : list uuid) (x : uuid) :
  In x (map answer_id (chosen_rows d chosen)) <-> In x chosen /\ is_option d x.
Proof.
  unfold chosen_rows, is_option. rewrite in_map_iff. split.
  - intros (o & E & Ho). apply filter_In in Ho as [Ho Hc].
    apply existsb_exists in Hc as (y & Hy & Ey). apply N.eqb_eq in Ey.
    split; [by rewrite <- E, Ey|eauto].
  - intros (Hx & o & Ho & E). exists o. split; [done|].
    apply filter_In. split; [done|]. apply existsb_exists. exists x.
    split; [done|]. by apply N.eqb_eq.
Qed.

Lemma selected_rows_filter (sid : uuid) (opts : list AnswerOption) :
  List.filter (fun r => N.eqb (sel_student_answer_id r) sid) (selected_rows sid opts)
  = selected_rows sid opts.
Proof.
  induction opts as [|o opts IH]; simpl; [done|].
  by rewrite N.eqb_refl, IH.
Qed.

Lemma selected_rows_ids (sid : uuid) (opts : list AnswerOption) :
  map sel_answer_option_id (selected_rows sid opts) = map answer_id opts.
Proof. unfold selected_rows. rewrite map_map. done. Qed.

Lemma filter_negb_none {A} (f : A -> bool) (l : list A) :
  List.filter f (List.filter (fun x => negb (f x)) l) = [].
Proof.
  induction l as [|x l IH]; simpl; [done|].
  destruct (f x) eqn:E; simpl; [done|]. by rewrite E.
Qed.

(** What the store holds for the pair after the upsert: one row, flagged
    with the latest verdict, linked to the chosen ids that are rows of
    [answer_options]; a row that was there keeps its id and no row is
    added. *)
Lemma upsert_spec (d : DB) (new_id aid qid : uuid) (chosen : list uuid) (b : bool) :
  integrity d -> one_answer_per_pair d ->
  (forall s, In s (student_answers d) -> student_answer_id s <> new_id) ->
  let d' := upsert d new_id aid qid chosen b in
  exists sa,
    answers_for d' aid qid = [sa]
    /\ sa_is_correct sa = b
    /\ (forall x, x ∈ chosen_options d' (student_answer_id sa)
                  <-> In x chosen /\ is_option d x)
    /\ (forall old, In old (answers_for d aid qid) ->
          student_answer_id sa = student_answer_id old
          /\ length (student_answers d') = length (student_answers d))
    /\ (answers_for d aid qid = [] ->
          student_answers d' = (student_answers d ++ [sa])%list).
Proof.
  intros Hint Hone Hfresh d'. subst d'. unfold upsert.
  pose proof (Hone aid qid) as Hle.
  destruct (answers_for d aid qid) as [|sa [|sa' l]] eqn:F; simpl in Hle; [| |lia].
  - exists (mkStudentAnswer new_id aid qid b).
    unfold answers_for in *. simpl. rewrite List.filter_app, F. simpl.
    rewrite !N.eqb_refl. simpl.
    split; [done|]. split; [done|]. split; [|split; [intros old []|done]].
    intros x. unfold chosen_options. simpl.
    rewrite elem_of_list_to_set, list_elem_of_In, List.filter_app, map_app.
    rewrite selected_rows_filter, selected_rows_ids, in_app_iff, chosen_rows_ids.
    split; [|tauto]. intros [H|H]; [|done]. exfalso.
    apply in_map_iff in H as (r & _ & Hr). apply filter_In in Hr as [Hr Er].
    apply N.eqb_eq in Er.
    destruct (fk_selected_answer _ Hint r Hr) as (s & Hs & Es).
    apply (Hfresh s Hs). congruence.
  - exists (set_is_correct sa b).
    assert (Hsa : In sa (student_answers d)).
    { assert (H : In sa (answers_for d aid qid)) by (rewrite F; by left).
      by apply filter_In in H as [H _]. }
    unfold answers_for in *. simpl.
    rewrite filter_map_commute
      by (intros s; by destruct (N.eqb (student_answer_id s) _)).
    rewrite F. simpl. rewrite N.eqb_refl.
    split; [done|]. split; [done|]. split; [|split; [|done]].
    + intros x. unfold chosen_options. simpl.
      rewrite elem_of_list_to_set, list_elem_of_In, List.filter_app, map_app.
      rewrite selected_rows_filter, selected_rows_ids, filter_negb_none.
      simpl. apply chosen_rows_ids.
    + intros old [<-|[]]. split; [done|]. by rewrite length_map.
Qed.

Lemma answers_step_one (d d' : DB) :
  answers_step (student_answers d) (student_answers d') ->
  one_answer_per_pair d -> one_answer_per_pair d'.
Proof.
  unfold one_answer_per_pair, answers_for.
  intros Hstep Hinv aid qid. specialize (Hinv aid qid).
  destruct Hstep as [|keep|sid b|s Hnone].
  - done.
  - etrans; [|exact Hinv]. clear.
    induction (student_answers d) as [|x l IH]; simpl; [lia|].
    destruct (keep x); simpl; destruct (_ && _); simpl; lia.
  - rewrite filter_map_commute
      by (intros s; by destruct (N.eqb (student_answer_id s) _)).
    by rewrite length_map.
  - rewrite List.filter_app, length_app. simpl.
    destruct (N.eqb_spec (sa_attempt_id s) aid) as [<-|]; simpl; [|lia].
    destruct (N.eqb_spec (sa_question_id s) qid) as [<-|]; simpl; [|lia].
    rewrite Hnone. simpl. lia.
Qed.

Section Upsert.
Variable s3_client : S3.S3Client.
Variable like : string -> string -> bool.

Lemma serve_answers_step (r : Request) (w : World) :
  answers_step (student_answers (w_db w))
    (student_answers (w_db (serve s3_client like r w))).
Proof.
  destruct r; simpl.
  - unfold TeacherServices.create_test, TeacherRepository.create_test. run.
    repeat case_match; simplify_eq; simpl; apply ans_same.
  - unfold TeacherServices.update_test_status, TeacherRepository.update_test_status.
    run. repeat case_match; simplify_eq; simpl; apply ans_same.
  - unfold TeacherServices.create_question_with_answers,
      TeacherServices.get_test_by_id, TeacherRepository.get_test_by_id,
      TeacherRepository.create_question_with_answers.
    run. repeat case_match; simplify_eq; simpl; apply ans_same.
  - destruct (List.filter (TeacherRepository.owned tid tch) (tests (w_db w)))
      as [|t [|t' l]] eqn:Ht.
    + destruct (delete_test_missing s3_client tid tch w) as [e ->].
      * intros t. by rewrite Ht.
      * apply ans_same.
    + rewrite (delete_test_run _ _ _ _ _ Ht). simpl. apply ans_removed.
    + destruct (delete_test_missing s3_client tid tch w) as [e ->].
      * intros t0. by rewrite Ht.
      * apply ans_same.
  - unfold TeacherServices.get_test_analytics, TeacherRepository.get_test_analytics_data.
    run. repeat case_match; simplify_eq; simpl; apply ans_same.
  - unfold StudentServices.start_test, StudentRepository.has_active_attempt,
      StudentRepository.get_test_for_student_by_id,
      StudentRepository.create_test_attempt.
    run. repeat case_match; simplify_eq; simpl; apply ans_same.
  - unfold StudentServices.submit_answer, StudentRepository.get_attempt_with_results,
      StudentRepository.get_correct_answers_for_question,
      StudentRepository.save_student_answer.
    run.
    repeat case_match; simplify_eq; simpl;
      try apply ans_same; try apply ans_updated.
    all: by apply (ans_added _ (mkStudentAnswer _ _ _ _)).
  - unfold StudentServices.finish_test, StudentRepository.get_attempt_with_results,
      StudentRepository.update_test_attempt.
    run. repeat case_match; simplify_eq; simpl; apply ans_same.
Qed.

Lemma serve_one_answer_per_pair (r : Request) (w : World) :
  one_answer_per_pair (w_db w) ->
  one_answer_per_pair (w_db (serve s3_client like r w)).
Proof. apply answers_step_one, serve_answers_step. Qed.

End Upsert.

Lemma one_answer_per_pairb_sound (d : DB) :
  one_answer_per_pairb d = true -> one_answer_per_pair d.
Proof.
  unfold one_answer_per_pairb, one_answer_per_pair, answers_for.
  intros H aid qid. apply bool_decide_eq_true_1 in H.
  induction (student_answers d) as [|x l IH]; simpl in *; [lia|].
  apply NoDup_cons in H as [Hx Hl]. specialize (IH Hl).
  destruct (N.eqb_spec (sa_attempt_id x) aid) as [Ea|]; simpl; [|done].
  destruct (N.eqb_spec (sa_question_id x) qid) as [Eq|]; simpl; [|done].
  rewrite existsb_false_filter; [simpl; lia|].
  destruct (existsb _ l) eqn:E; [|done]. exfalso. apply Hx.
  apply existsb_exists in E as (y & Hy & Ey).
  apply andb_prop in Ey as [E1 E2]. apply N.eqb_eq in E1, E2.
  apply list_elem_of_In, in_map_iff. exists y. split; [|done]. congruence.
Qed.

(** ** A quiz to run the engine on *)

Lemma quiz_integrity : integrity (w_db quiz).
Proof. apply integrityb_sound. vm_compute. reflexivity. Qed.

Lemma quiz_one_answer_per_pair : one_answer_per_pair (w_db quiz).
Proof. apply one_answer_per_pairb_sound. vm_compute. reflexivity. Qed.

Lemma quiz_can_submit (new_id qid : uuid) :
  (62 <= new_id)%N -> (qid = 10 \/ qid = 11 \/ qid = 12)%N ->
  can_submit (w_db quiz) new_id 50%N qid.
Proof.
  intros Hn Hq. split.
  - exists (mkTestAttempt 50%N 3 1%N IN_PROGRESS None).
    split; [simpl; auto|]. split; [reflexivity|]. split; [reflexivity|].
    destruct Hq as [->|[->| ->]];
      [exists (mkQuestion 10%N 1%N "first" None (Some 1) 2)
      |exists (mkQuestion 11%N 1%N "second" None (Some 2) 3)
      |exists (mkQuestion 12%N 1%N "third" None (Some 3) 5)];
      (split; [simpl; auto 6|split; reflexivity]).
  - simpl. intros s [<-|[<-|[]]]; simpl; lia.
Qed.

Lemma quiz_reachable :
  quiz = serve_all edu (fun _ _ => true) quiz_requests empty_world.
Proof. vm_compute. reflexivity. Qed.

Lemma exact_set_scoring_witness :
  exists out w',
    submit_answer 62%N 50%N (mkStudentAnswerIn 11%N [111%N; 110%N; 111%N]) quiz
    = (Ok out, w')
    /\ is_correct out = true.
Proof.
  destruct (exact_set_scoring quiz 62%N 50%N (mkStudentAnswerIn 11%N [111%N; 110%N; 111%N])
              quiz_integrity quiz_one_answer_per_pair
              (quiz_can_submit 62%N 11%N ltac:(lia) ltac:(auto)))
    as (out & w' & Hrun & Hiff & _).
  exists out, w'. split; [exact Hrun|].
  apply Hiff. apply set_eq_lists. vm_compute. reflexivity.
Defined.

Lemma quiz_finished_integrity : integrity (w_db quiz_finished).
Proof. apply integrityb_sound. vm_compute. reflexivity. Qed.



(** C10. [submit_answer] does not look the chosen ids up before it
    scores: it never raises [AnswerOptionNotFound], and whether it succeeds
    does not depend on them.  The verdict compares the raw ids with the
    correct ones, so any id that is not a correct option of the question (an
    id of no row, an option of another question) makes it [false]; the
    stored answer is linked to the chosen ids that are rows of
    [answer_options], of whatever question, and to no other. *)
Theorem chosen_ids_not_validated
    (w : World) (new_id aid : uuid) (answer_data : StudentAnswerIn) :
  let d := w_db w in
  let qid := in_question_id answer_data in
  let chosen := chosen_answer_option_ids answer_data in
  (forall id, fst (submit_answer new_id aid answer_data w)
              <> Raise (AnswerOptionNotFound id))
  /\ (integrity d -> one_answer_per_pair d -> can_submit d new_id aid qid ->
      exists out w' sa,
        submit_answer new_id aid answer_data w = (Ok out, w')
        /\ (is_correct out = true
            <-> (forall x, In x chosen <-> is_correct_option d qid x))
        /\ ((exists x, In x chosen /\ ~ is_correct_option d qid x) ->
            is_correct out = false)
        /\ answers_for (w_db w') aid qid = [sa]
        /\ (forall x, x ∈ chosen_options (w_db w') (student_answer_id sa)
                      <-> In x chosen /\ is_option d x)).
Proof.
  intros d qid chosen. split.
  - intros id. unfold submit_answer, get_attempt_with_results,
      get_correct_answers_for_question, save_student_answer.
    run. repeat case_match; simplify_eq; simpl; discriminate.
  - intros Hint Hone Hcan.
    destruct (upsert_spec d new_id aid qid chosen
                (bool_decide (list_to_set chosen = correct_answer_ids d qid))
                Hint Hone (cs_fresh _ _ _ _ Hcan))
      as (sa & H1 & H2 & H3 & _).
    eexists _, _, sa. split; [by apply submit_answer_run|]. simpl.
    fold d qid chosen.
    split; [rewrite bool_decide_eq_true; apply set_eq_lists|].
    split; [|done].
    intros (x & Hx & Hn). apply bool_decide_eq_false. rewrite set_eq_lists.
    intros H. by apply Hn, H.
Qed.

Lemma chosen_ids_not_validated_witness :
  exists out w' sa,
    submit_answer 62%N 50%N (mkStudentAnswerIn 12%N [200%N; 999%N]) quiz = (Ok out, w')
    /\ is_correct out = false
    /\ answers_for (w_db w') 50%N 12%N = [sa]
    /\ (200%N ∈ chosen_options (w_db w') (student_answer_id sa))
    /\ (999%N ∉ chosen_options (w_db w') (student_answer_id sa)).
Proof.
  destruct (chosen_ids_not_validated quiz 62%N 50%N
              (mkStudentAnswerIn 12%N [200%N; 999%N])) as [_ H].
  destruct (H quiz_integrity quiz_one_answer_per_pair
              (quiz_can_submit 62%N 12%N ltac:(lia) ltac:(auto)))
    as (out & w' & sa & Hrun & _ & Hfalse & Hsa & Hopts).
  exists out, w', sa. split; [exact Hrun|]. split; [|split; [exact Hsa|split]].
  - apply Hfalse. exists 999%N. split; [simpl; auto|].
    intros (o & Ho & E & _). simpl in Ho.
    repeat (destruct Ho as [<-|Ho]; [discriminate E|]). destruct Ho.
  - apply Hopts. split; [simpl; auto|].
    exists (mkAnswerOption 200%N 20%N (Some "a") None true). simpl. auto 10.
  - intros Hin. apply Hopts in Hin as [_ (o & Ho & E)]. simpl in Ho.
    repeat (destruct Ho as [<-|Ho]; [discriminate E|]). destruct Ho.
Defined.

(** ** Finishing an attempt *)

Lemma answers_within_testb_sound (d : DB) :
  answers_within_testb d = true -> answers_within_test d.
Proof.
  unfold answers_within_testb, answers_within_test.
  intros H s a q Hs Ha Ea Hq Eq.
  rewrite forallb_forall in H. specialize (H s Hs).
  rewrite forallb_forall in H. specialize (H a Ha).
  rewrite forallb_forall in H. specialize (H q Hq).
  apply N.eqb_eq in Ea, Eq. rewrite Ea, Eq in H. simpl in H.
  by apply N.eqb_eq.
Qed.

Lemma correct_answer_points_total (d : DB) (answers : list StudentAnswer) :
  integrity d ->
  (forall s, In s answers -> In s (student_answers d)) ->
  correct_answer_points d answers
  = Some (map (fun s => question_points d (sa_question_id s))
            (List.filter sa_is_correct answers)).
Proof.
  intros Hint. induction answers as [|s l IH]; intros Hsub; simpl; [done|].
  rewrite IH by (intros; apply Hsub; by right).
  destruct (sa_is_correct s); [|done]. simpl.
  destruct (find_key question_id (questions d) (sa_question_id s)) as (q & Fq & _).
  { apply (fk_answer_question _ Hint), Hsub. by left. }
  unfold answer_question, question_points. by rewrite Fq.
Qed.

Lemma finish_test_run (w : World) (aid : uuid) (a : TestAttempt) :
  let d := w_db w in
  let sc := score_percentage (earned d aid) (total_points d (ta_test_id a)) in
  integrity d ->
  In a (test_attempts d) -> attempt_id a = aid -> status a = IN_PROGRESS ->
  finish_test aid w
  = (Ok (mkTestResultOut aid (ta_test_id a) COMPLETED sc
           (total_points d (ta_test_id a)) (earned d aid)),
     mkWorld (completed d aid sc) (w_log w ++ [Commit])).
Proof.
  intros d sc Hint Ha Eaid Hst.
  assert (Hf : List.filter (fun a0 => N.eqb (attempt_id a0) aid) (test_attempts d) = [a]).
  { rewrite <- Eaid. apply filter_key_unique; [|done]. apply (pk_test_attempts _ Hint). }
  unfold finish_test.
  erewrite bind_ok; cycle 1.
  { unfold get_attempt_with_results. run. fold d. by rewrite Hf. }
  cbv beta iota. rewrite Hst.
  erewrite bind_ok by reflexivity. cbv beta iota zeta. fold d.
  destruct (find_key test_id (tests d) (ta_test_id a)) as (t & Ft & _ & Et).
  { apply (fk_attempt_test _ Hint), Ha. }
  unfold attempt_test. rewrite Ft.
  rewrite correct_answer_points_total; [|done|]; cycle 1.
  { intros s Hs. by apply filter_In in Hs as [Hs _]. }
  unfold attempt_student_answers, test_questions. rewrite Eaid, Et.
  fold (earned d aid) (total_points d (ta_test_id a)). fold sc.
  unfold update_test_attempt. run. fold d. rewrite Hf. reflexivity.
Qed.

(** *** Earned points, question by question *)

Lemma sum_app (xs ys : list Z) : sum (xs ++ ys) = sum xs + sum ys.
Proof. induction xs as [|x xs IH]; simpl; [done|]. rewrite IH. lia. Qed.

Lemma sum_map_add {A} (f g : A -> Z) (l : list A) :
  sum (map (fun x => f x + g x) l) = sum (map f l) + sum (map g l).
Proof. induction l as [|x l IH]; simpl; [done|]. rewrite IH. lia. Qed.

Lemma sum_map_zero {A} (l : list A) : sum (map (fun _ => 0) l) = 0.
Proof. induction l as [|x l IH]; simpl; [done|]. by rewrite IH. Qed.

Lemma sum_map_ext {A} (f g : A -> Z) (l : list A) :
  (forall x, In x l -> f x = g x) -> sum (map f l) = sum (map g l).
Proof.
  induction l as [|x l IH]; intros H; simpl; [done|].
  rewrite (H x) by (by left). rewrite IH; [done|]. intros; apply H. by right.
Qed.

Lemma sum_exchange {A B} (f : A -> B -> Z) (xs : list A) (ys : list B) :
  sum (map (fun x => sum (map (f x) ys)) xs)
  = sum (map (fun y => sum (map (fun x => f x y) xs)) ys).
Proof.
  induction xs as [|x xs IH]; simpl.
  - by rewrite sum_map_zero.
  - by rewrite IH, sum_map_add.
Qed.

(** A sum that picks the rows selected by [sel]. *)
Lemma sum_select {A} (sel : A -> bool) (f : A -> Z) (l : list A) :
  sum (map (fun x => if sel x then f x else 0) l) = sum (map f (List.filter sel l)).
Proof.
  induction l as [|x l IH]; simpl; [done|].
  destruct (sel x); simpl; rewrite IH; lia.
Qed.

Lemma filter_and {A} (f g : A -> bool) (l : list A) :
  List.filter f (List.filter g l) = List.filter (fun x => g x && f x) l.
Proof.
  induction l as [|x l IH]; simpl; [done|].
  destruct (g x); simpl; [destruct (f x)|]; by rewrite IH.
Qed.

Lemma NoDup_map_filter {A} (key : A -> uuid) (keep : A -> bool) (l : list A) :
  NoDup (map key l) -> NoDup (map key (List.filter keep l)).
Proof.
  induction l as [|x l IH]; simpl; [done|].
  intros H. apply NoDup_cons in H as [Hx Hl].
  destruct (keep x); simpl; [|by apply IH].
  apply NoDup_cons. split; [|by apply IH].
  intros Hin. apply Hx. apply list_elem_of_In in Hin. apply list_elem_of_In.
  apply in_map_iff in Hin as (y & E & Hy). apply in_map_iff. exists y.
  split; [done|]. by apply filter_In in Hy as [Hy _].
Qed.

Lemma find_key_unique {A} (key : A -> uuid) (l : list A) (x : A) :
  NoDup (map key l) -> In x l ->
  List.find (fun y => N.eqb (key y) (key x)) l = Some x.
Proof.
  intros Hnd Hx.
  pose proof (filter_key_unique key l x Hnd Hx) as F.
  induction l as [|y l IH]; simpl in *; [done|].
  destruct (N.eqb (key y) (key x)); [congruence|].
  apply NoDup_cons in Hnd as [_ Hl].
  destruct Hx as [->|Hx].
  - assert (In x (List.filter (fun y => N.eqb (key y) (key x)) l)) as Hin
      by (rewrite F; by left).
    apply filter_In in Hin as [Hin _]. by apply IH.
  - by apply IH.
Qed.

Lemma earned_by_question (d : DB) (a : TestAttempt) :
  integrity d -> one_answer_per_pair d -> answers_within_test d ->
  In a (test_attempts d) ->
  earned d (attempt_id a)
  = sum (map (fun q => if answered_correctly d (attempt_id a) (question_id q)
                       then points q else 0)
           (List.filter (fun q => N.eqb (q_test_id q) (ta_test_id a)) (questions d))).
Proof.
  intros Hint Hone Hwithin Ha. unfold earned.
  set (S := List.filter sa_is_correct
              (List.filter (fun s => N.eqb (sa_attempt_id s) (attempt_id a))
                 (student_answers d))).
  set (Tq := List.filter (fun q => N.eqb (q_test_id q) (ta_test_id a)) (questions d)).
  set (g := fun (s : StudentAnswer) (q : Question) =>
              if N.eqb (question_id q) (sa_question_id s) then points q else 0).
  transitivity (sum (map (fun s => sum (map (g s) Tq)) S)).
  - apply sum_map_ext. intros s Hs.
    apply filter_In in Hs as [Hs _]. apply filter_In in Hs as [Hs Es].
    apply N.eqb_eq in Es.
    destruct (fk_answer_question _ Hint s Hs) as (q & Hq & Eq).
    assert (HqT : In q Tq).
    { apply filter_In. split; [done|]. apply N.eqb_eq.
      by apply (Hwithin s a q). }
    unfold g. rewrite sum_select, <- Eq.
    rewrite (filter_key_unique question_id Tq q); [|by apply NoDup_map_filter, pk_questions|done].
    unfold question_points.
    rewrite (find_key_unique question_id (questions d) q); [simpl; lia| |done].
    by apply pk_questions.
  - rewrite sum_exchange. apply sum_map_ext. intros q Hq.
    unfold g. rewrite (sum_select _ (fun _ => points q)).
    specialize (Hone (attempt_id a) (question_id q)).
    unfold answered_correctly.
    assert (HL : List.filter (fun s => N.eqb (question_id q) (sa_question_id s)) S
                 = List.filter sa_is_correct
                     (answers_for d (attempt_id a) (question_id q))).
    { unfold S, answers_for. rewrite !filter_and. apply List.filter_ext.
      intros s. rewrite (N.eqb_sym (question_id q)).
      destruct (N.eqb _ _), (N.eqb _ _), (sa_is_correct s); reflexivity. }
    rewrite HL.
    destruct (answers_for d (attempt_id a) (question_id q)) as [|s [|s' l]];
      simpl in *; [done| |lia].
    destruct (sa_is_correct s); simpl; lia.
Qed.

(** C3. [finish_test] on an attempt in progress returns: as total, the
    sum of the points of all questions of the attempt's test; as earned
    points, the sum of the points of the questions of the answers marked
    correct, which is the sum over the questions of the test of their
    points when the attempt holds a correct answer to them and of zero
    otherwise (an unanswered question earns nothing and counts in the
    total); as score, [earned / total * 100] in binary64 when the total is
    positive and 0 otherwise.  The attempt is stored COMPLETED with that
    score. *)
Theorem score_formula (w : World) (aid : uuid) (a : TestAttempt) :
  let d := w_db w in
  let test_qs := List.filter (fun q => N.eqb (q_test_id q) (ta_test_id a)) (questions d) in
  integrity d -> one_answer_per_pair d -> answers_within_test d ->
  In a (test_attempts d) -> attempt_id a = aid -> status a = IN_PROGRESS ->
  exists res w',
    finish_test aid w = (Ok res, w')
    /\ total_possible_points res = sum (map points test_qs)
    /\ earned_points res
       = sum (map (fun s => question_points d (sa_question_id s))
                (List.filter sa_is_correct
                   (List.filter (fun s => N.eqb (sa_attempt_id s) aid)
                      (student_answers d))))
    /\ earned_points res
       = sum (map (fun q => if answered_correctly d aid (question_id q)
                            then points q else 0) test_qs)
    /\ r_score res
       = (if 0 <? total_possible_points res
          then PrimFloat.mul
                 (PrimFloat.div (float_of_Z (earned_points res))
                    (float_of_Z (total_possible_points res)))
                 (float_of_Z 100)
          else float_of_Z 0)
    /\ In (mkTestAttempt aid (student_id a) (ta_test_id a) COMPLETED (Some (r_score res)))
         (test_attempts (w_db w')).
Proof.
  intros d test_qs Hint Hone Hwithin Ha Eaid Hst.
  eexists _, _. split; [by apply (finish_test_run w aid a)|]. simpl.
  split; [done|]. split; [done|].
  split; [subst aid; by apply earned_by_question|].
  split; [done|].
  apply in_map_iff. exists a. rewrite Eaid, N.eqb_refl. by subst aid.
Qed.

Lemma score_formula_witness :
  exists res w',
    finish_test 50%N quiz = (Ok res, w')
    /\ earned_points res = 3
    /\ total_possible_points res = 10
    /\ r_score res = 30%float
    /\ In (mkTestAttempt 50%N 3 1%N COMPLETED (Some 30%float)) (test_attempts (w_db w')).
Proof.
  destruct (score_formula quiz 50%N (mkTestAttempt 50%N 3 1%N IN_PROGRESS None))
    as (res & w' & Hrun & Htot & Hearned & _ & Hsc & Hrow).
  - exact quiz_integrity.
  - exact quiz_one_answer_per_pair.
  - apply answers_within_testb_sound. vm_compute. reflexivity.
  - simpl. auto.
  - reflexivity.
  - reflexivity.
  - assert (Htot' : total_possible_points res = 10)
      by (rewrite Htot; vm_compute; reflexivity).
    assert (Hearned' : earned_points res = 3)
      by (rewrite Hearned; vm_compute; reflexivity).
    assert (Hsc' : r_score res = 30%float)
      by (rewrite Hsc, Htot', Hearned'; vm_compute; reflexivity).
    exists res, w'. rewrite Hsc' in Hrow. auto.
Defined.

(** ** Test titles *)





(** ** Deleting a test *)


Lemma key_to_delete_Some (c : S3.S3Client) (u : option string) (k : string) :
  S3.key_to_delete c u = Some k
  <-> exists url, u = Some url /\ url <> ""%string
        /\ S3.get_key_from_url c url = Some k /\ k <> ""%string.
Proof.
  unfold S3.key_to_delete. split.
  - destruct u as [[|a url]|]; [done| |done].
    destruct (S3.get_key_from_url c (String a url)) as [[|b k']|] eqn:E;
      [done| |done].
    intros [= <-]. by exists (String a url).
  - intros (url & -> & Hurl & Hk & Hne).
    destruct url; [done|]. rewrite Hk. by destruct k.
Qed.

Lemma test_keys_complete (c : S3.S3Client) (d : DB) (t : Test) (url k : string) :
  held_image d t url -> S3.key_to_delete c (Some url) = Some k ->
  In k (test_keys c d t).
Proof.
  unfold test_keys. intros [Ht|(q & Hq & [Hu|(o & Ho & Hu)])] Hk; apply in_app_iff.
  - left. rewrite Ht, Hk. by left.
  - right. apply in_flat_map. exists q. split; [done|].
    unfold question_keys. apply in_app_iff. left. rewrite Hu, Hk. by left.
  - right. apply in_flat_map. exists q. split; [done|].
    unfold question_keys, option_keys. apply in_app_iff. right.
    apply list_elem_of_In, list_elem_of_omap. exists o.
    split; [by apply list_elem_of_In|]. by rewrite Hu.
Qed.




(** ** Analytics *)

Lemma insert_by_order_In {A} (key : A -> option Z) (x y : A) (l : list A) :
  In y (TeacherRepository.insert_by_order key x l) <-> y = x \/ In y l.
Proof.
  induction l as [|z l IH]; simpl; [intuition|].
  destruct (TeacherRepository.order_le _ _); simpl; [intuition|].
  rewrite IH. intuition.
Qed.

Lemma sort_by_order_In {A} (key : A -> option Z) (y : A) (l : list A) :
  In y (TeacherRepository.sort_by_order key l) <-> In y l.
Proof.
  unfold TeacherRepository.sort_by_order.
  induction l as [|x l IH]; simpl; [done|].
  rewrite insert_by_order_In, IH. intuition.
Qed.

Lemma group_keys_In (rows : list (StudentAnswer * Question)) (q : Question) :
  In q (TeacherRepository.group_keys rows) -> exists sa, In (sa, q) rows.
Proof.
  induction rows as [|[sa q0] rows IH]; simpl; [done|].
  intros [<-|Hin]; [eauto|].
  apply filter_In in Hin as [Hin _]. destruct (IH Hin) as [sa' H]. eauto.
Qed.

Lemma analytics_join_In (like : string -> string -> bool) (d : DB) (tid : uuid)
    (tch : Z) (search_query : option string) (sa : StudentAnswer) (q : Question) :
  In (sa, q) (TeacherRepository.analytics_join like d tid tch search_query) ->
  In sa (student_answers d) /\ In q (questions d)
  /\ sa_question_id sa = question_id q
  /\ exists ta, In ta (test_attempts d) /\ sa_attempt_id sa = attempt_id ta
                /\ ta_test_id ta = tid /\ status ta = COMPLETED.
Proof.
  unfold TeacherRepository.analytics_join.
  intros H. apply in_flat_map in H as (sa' & Hsa & H).
  apply in_flat_map in H as (q' & Hq & H).
  apply in_flat_map in H as (ta & Hta & H).
  apply in_flat_map in H as (t & Ht & H).
  destruct (_ && _) eqn:E in H; [|done]. destruct H as [[= -> ->]|[]].
  repeat (apply andb_prop in E as [E ?]).
  repeat match goal with H : N.eqb _ _ = true |- _ => apply N.eqb_eq in H end.
  split; [done|]. split; [done|]. split; [done|].
  exists ta. split; [done|]. split; [done|]. split; [congruence|].
  by destruct (status ta).
Qed.

(** Every row of the per-question report is about a question that has an
    answer recorded in a COMPLETED attempt of the test: the second query
    starts from [student_answers], so its [else_=0.0] is never taken. *)
Lemma reported_questions_have_answers (like : string -> string -> bool)
    (tid : uuid) (tch : Z) (search_query : option string) (w : World)
    (out : TeacherServices.TestAnalyticsOut) (w' : World)
    (row : TeacherServices.QuestionAnalyticsOut) :
  TeacherServices.get_test_analytics like tid tch search_query w = (Ok out, w') ->
  In row (TeacherServices.question_analytics out) ->
  exists sa ta,
    In sa (student_answers (w_db w)) /\ In ta (test_attempts (w_db w))
    /\ sa_question_id sa = TeacherServices.qa_question_id row
    /\ sa_attempt_id sa = attempt_id ta /\ ta_test_id ta = tid
    /\ status ta = COMPLETED.
Proof.
  unfold TeacherServices.get_test_analytics, TeacherRepository.get_test_analytics_data.
  run. destruct (_ =? 0); simpl; intros [= <- <-]; simpl; [done|].
  rewrite map_map. intros Hin. apply in_map_iff in Hin as (q & <- & Hq).
  apply sort_by_order_In, group_keys_In in Hq as (sa & Hrow).
  apply analytics_join_In in Hrow as (Hsa & _ & Eq & ta & Hta & Ea & Et & Hst).
  exists sa, ta. simpl. auto 10.
Qed.

(** C7, at a failing input. Test 1 of the finished quiz has three
    questions and one COMPLETED attempt that answered the first (wrongly)
    and the second (correctly).  The report has a row for each of these two,
    in display order, and none for the third question: a question without
    answers is left out instead of being reported with 0. *)
Theorem analytics_omits_unanswered_questions :
  TeacherServices.get_test_analytics (fun _ _ => true) 1%N 7 None quiz_finished
  = (Ok (TeacherServices.mkTestAnalyticsOut 1 (Some 30%float)
           [TeacherServices.mkQuestionAnalyticsOut 10%N "first" 0%float;
            TeacherServices.mkQuestionAnalyticsOut 11%N "second" 100%float]),
     quiz_finished)
  /\ In (mkQuestion 12%N 1%N "third" None (Some 3) 5) (questions (w_db quiz_finished)).
Proof.
  split; [vm_compute; reflexivity|]. simpl. auto.
Qed.

(** ** Answer options without text and image *)

(** The body of the create-side validator rejects an option that has
    neither a text nor an image. *)
Lemma check_text_or_image_rejects (data : Schemas.AnswerOptionData) :
  S3.truthy (Schemas.d_answer_text data) = false ->
  S3.truthy (Schemas.d_image_url data) = false ->
  Schemas.check_text_or_image data
  = Raise (ValidationError "Either answer_text or image_url must be provided").
Proof. unfold Schemas.check_text_or_image. by intros -> ->. Qed.

(** The edit schema accepts whatever options it is given. *)
Lemma QuestionEdit_accepts_any_options (data : Schemas.QuestionEditData) :
  Schemas.e_points data = None ->
  Schemas.QuestionEdit_validate data = Ok data.
Proof.
  unfold Schemas.QuestionEdit_validate. intros ->. simpl.
  destruct (Schemas.e_answer_options data) as [opts|]; [|done].
  assert (H : Schemas.validate_all Schemas.AnswerOptionEdit_validate opts = Ok opts).
  { induction opts as [|o opts IH]; simpl; [done|]. by rewrite IH. }
  by rewrite H.
Qed.

(** C9, at a failing input. An edit of a question that carries one new
    answer option with neither text nor image, only [is_correct], passes
    the validation of [QuestionEdit]: no [ValidationError] is raised for
    it, while the validator written for the create schema rejects the
    same option. *)
Theorem edit_accepts_option_without_text_and_image :
  let option := Schemas.mkAnswerOptionData None None None (Some true) in
  let payload := Schemas.mkQuestionEditData None None None None (Some [option]) None in
  Schemas.QuestionEdit_validate payload = Ok payload
  /\ Schemas.check_text_or_image option
     = Raise (ValidationError "Either answer_text or image_url must be provided").
Proof. split; reflexivity. Qed.

(** ** Reachable stores *)

(** *** Keys under the writes of the engine *)

Lemma pk_app_fresh {A} (key : A -> uuid) (l : list A) (y : A) :
  pk key l -> (forall x, In x l -> key x <> key y) -> pk key (l ++ [y]).
Proof.
  unfold pk. intros Hl Hfresh. rewrite map_app. simpl.
  apply NoDup_app. split; [done|]. split; [|apply NoDup_singleton].
  intros k Hk Hin. apply list_elem_of_In in Hk. apply list_elem_of_In in Hin.
  destruct Hin as [<-|[]]. apply in_map_iff in Hk as (x & E & Hx).
  by destruct (Hfresh x Hx).
Qed.

Lemma pk_app {A} (key : A -> uuid) (l l' : list A) :
  pk key l -> pk key l' ->
  (forall x y, In x l -> In y l' -> key x <> key y) -> pk key (l ++ l').
Proof.
  unfold pk. intros Hl Hl' Hfresh. rewrite map_app.
  apply NoDup_app. split; [done|]. split; [|done].
  intros k Hk Hin. apply list_elem_of_In in Hk. apply list_elem_of_In in Hin.
  apply in_map_iff in Hk as (x & E & Hx). apply in_map_iff in Hin as (y & E' & Hy).
  apply (Hfresh x y Hx Hy). congruence.
Qed.

Lemma pk_update {A} (key : A -> uuid) (hit : A -> bool) (u : A -> A) (l : list A) :
  (forall x, key (u x) = key x) ->
  pk key l -> pk key (map (fun x => if hit x then u x else x) l).
Proof.
  unfold pk. intros Hu Hl. rewrite map_map.
  erewrite map_ext; [exact Hl|]. intros x. simpl. by destruct (hit x).
Qed.

Lemma pk_filter {A} (key : A -> uuid) (keep : A -> bool) (l : list A) :
  pk key l -> pk key (List.filter keep l).
Proof. apply NoDup_map_filter. Qed.

Lemma pk_inj {A} (key : A -> uuid) (l : list A) (x y : A) :
  pk key l -> In x l -> In y l -> key x = key y -> x = y.
Proof.
  intros Hl Hx Hy E.
  pose proof (filter_key_unique key l x Hl Hx) as Fx.
  assert (In y (List.filter (fun z => N.eqb (key z) (key x)) l)) as Hin.
  { apply filter_In. split; [done|]. by apply N.eqb_eq. }
  rewrite Fx in Hin. by destruct Hin as [?|[]].
Qed.

Lemma fk_parent_app {A B} (c : list A) (ref : A -> uuid) (p p' : list B)
    (key : B -> uuid) :
  fk c ref p key -> fk c ref (p ++ p') key.
Proof.
  intros H x Hx. destruct (H x Hx) as (y & Hy & E).
  exists y. split; [|done]. apply in_app_iff. by left.
Qed.

Lemma fk_child_app {A B} (c c' : list A) (ref : A -> uuid) (p : list B)
    (key : B -> uuid) :
  fk c ref p key -> fk c' ref p key -> fk (c ++ c') ref p key.
Proof.
  intros H H' x Hx. apply in_app_iff in Hx as [Hx|Hx]; auto.
Qed.

Lemma fk_parent_update {A B} (c : list A) (ref : A -> uuid) (p : list B)
    (key : B -> uuid) (hit : B -> bool) (u : B -> B) :
  (forall y, key (u y) = key y) ->
  fk c ref p key -> fk c ref (map (fun y => if hit y then u y else y) p) key.
Proof.
  intros Hu H x Hx. destruct (H x Hx) as (y & Hy & E).
  exists (if hit y then u y else y). split.
  - apply in_map_iff. eauto.
  - destruct (hit y); [by rewrite Hu|done].
Qed.

Lemma fk_child_update {A B} (c : list A) (ref : A -> uuid) (p : list B)
    (key : B -> uuid) (hit : A -> bool) (u : A -> A) :
  (forall x, ref (u x) = ref x) ->
  fk c ref p key -> fk (map (fun x => if hit x then u x else x) c) ref p key.
Proof.
  intros Hu H x Hx. apply in_map_iff in Hx as (x0 & <- & Hx0).
  destruct (H x0 Hx0) as (y & Hy & E). exists y. split; [done|].
  destruct (hit x0); [by rewrite Hu|done].
Qed.

Lemma fk_child_filter {A B} (c : list A) (ref : A -> uuid) (p : list B)
    (key : B -> uuid) (keep : A -> bool) :
  fk c ref p key -> fk (List.filter keep c) ref p key.
Proof. intros H x Hx. apply filter_In in Hx as [Hx _]. auto. Qed.

(** Rows whose parent is deleted are deleted with it. *)
Lemma fk_cascade {A B} (c : list A) (ref : A -> uuid) (p : list B)
    (key : B -> uuid) (c_gone : A -> bool) (p_gone : B -> bool) :
  fk c ref p key ->
  (forall x y, In x c -> In y p -> key y = ref x -> p_gone y = true -> c_gone x = true) ->
  fk (List.filter (fun x => negb (c_gone x)) c) ref
     (List.filter (fun y => negb (p_gone y)) p) key.
Proof.
  intros H Hgone x Hx. apply filter_In in Hx as [Hx Hn].
  destruct (H x Hx) as (y & Hy & E). exists y. split; [|done].
  apply filter_In. split; [done|].
  destruct (p_gone y) eqn:G; [|done].
  rewrite (Hgone x y Hx Hy E G) in Hn. discriminate Hn.
Qed.

Lemma gone_by_key {A} (key : A -> uuid) (gone : A -> bool) (l : list A) (y : A)
    (id : uuid) :
  In y l -> gone y = true -> key y = id ->
  existsb (fun z => N.eqb (key z) id) (List.filter gone l) = true.
Proof.
  intros Hy G E. apply (existsb_In _ _ y); [|by apply N.eqb_eq].
  by apply filter_In.
Qed.

Lemma cascade_integrity (gone : Test -> bool) (d : DB) :
  integrity d -> integrity (TeacherRepository.cascade_delete_tests gone d).
Proof.
  intros [P1 P2 P3 P4 P5 F1 F2 F3 F4 F5 F6 F7].
  unfold TeacherRepository.cascade_delete_tests.
  constructor; simpl; try (by apply pk_filter).
  - apply fk_cascade; [done|]. intros q t Hq Ht E G. by eapply gone_by_key.
  - apply fk_cascade; [done|]. intros o q Ho Hq E G. by eapply gone_by_key.
  - apply fk_cascade; [done|]. intros a t Ha Ht E G. by eapply gone_by_key.
  - apply fk_cascade; [done|]. intros s a Hs Ha E G.
    apply orb_true_iff. left. by eapply gone_by_key.
  - apply fk_cascade; [done|]. intros s q Hs Hq E G.
    apply orb_true_iff. right. by eapply gone_by_key.
  - apply fk_cascade; [done|]. intros r s Hr Hs E G.
    apply orb_true_iff. left. by eapply gone_by_key.
  - apply fk_cascade; [done|]. intros r o Hr Ho E G.
    apply orb_true_iff. right. by eapply gone_by_key.
Qed.

(** *** The writes of the engine *)

Lemma fk_selected_rows_answer (sid : uuid) (opts : list AnswerOption)
    (answers : list StudentAnswer) :
  (exists s, In s answers /\ student_answer_id s = sid) ->
  fk (selected_rows sid opts) sel_student_answer_id answers student_answer_id.
Proof.
  intros Hs r Hr. apply in_map_iff in Hr as (o & <- & _). exact Hs.
Qed.

Lemma fk_selected_rows_option (sid : uuid) (opts all : list AnswerOption) :
  (forall o, In o opts -> In o all) ->
  fk (selected_rows sid opts) sel_answer_option_id all answer_id.
Proof.
  intros Hsub r Hr. apply in_map_iff in Hr as (o & <- & Ho). eauto.
Qed.

Lemma db_step_integrity (d d' : DB) :
  db_step d d' -> integrity d -> integrity d'.
Proof.
  intros Hstep Hint.
  destruct Hstep as [|t Hfresh|hit u Hu|q opts Hfresh Ht Hopts Hoq Hofresh|gone
                    |a Hfresh Ht|hit u Hu|s opts Hfresh Hrefs Hopts|sa b opts Hsa Hopts];
    try (by apply cascade_integrity);
    destruct Hint as [P1 P2 P3 P4 P5 F1 F2 F3 F4 F5 F6 F7];
    try done; constructor; simpl; try done.
  - by apply pk_app_fresh.
  - by apply fk_parent_app.
  - by apply fk_parent_app.
  - by apply pk_update.
  - by apply fk_parent_update.
  - by apply fk_parent_update.
  - by apply pk_app_fresh.
  - by apply pk_app.
  - apply fk_child_app; [done|]. by intros x [<-|[]].
  - apply fk_child_app; [by apply fk_parent_app|].
    intros o Ho. exists q. split; [apply in_app_iff; right; by left|].
    by rewrite Hoq.
  - by apply fk_parent_app.
  - by apply fk_parent_app.
  - by apply pk_app_fresh.
  - apply fk_child_app; [done|]. by intros x [<-|[]].
  - by apply fk_parent_app.
  - apply pk_update; [|done]. intros a. apply Hu.
  - apply fk_child_update; [|done]. intros a. apply Hu.
  - apply fk_parent_update; [|done]. intros a. apply Hu.
  - by apply pk_app_fresh.
  - apply fk_child_app; [done|].
    destruct Hrefs as (a & q & Ha & Ea & _). intros x [<-|[]]. eauto.
  - apply fk_child_app; [done|].
    destruct Hrefs as (a & q & _ & _ & Hq & Eq & _). intros x [<-|[]]. eauto.
  - apply fk_child_app; [by apply fk_parent_app|].
    apply fk_selected_rows_answer. exists s. split; [|done].
    apply in_app_iff. right. by left.
  - apply fk_child_app; [done|]. by apply fk_selected_rows_option.
  - by apply (pk_update student_answer_id).
  - by apply (fk_child_update _ sa_attempt_id).
  - by apply (fk_child_update _ sa_question_id).
  - apply fk_child_app.
    + apply fk_child_filter. by apply (fk_parent_update _ _ _ student_answer_id).
    + apply fk_selected_rows_answer.
      exists (set_is_correct sa b). split; [|done].
      apply in_map_iff. exists sa. by rewrite N.eqb_refl.
  - apply fk_child_app; [by apply fk_child_filter|].
    by apply fk_selected_rows_option.
Qed.

Lemma existsb_key_false {A} (key : A -> uuid) (l : list A) (id : uuid) :
  existsb (fun x => N.eqb (key x) id) l = false ->
  forall x, In x l -> key x <> id.
Proof.
  intros H x Hx E.
  assert (existsb (fun x => N.eqb (key x) id) l = true) as H'
    by (apply (existsb_In _ _ x); [done|by apply N.eqb_eq]).
  congruence.
Qed.

Lemma scalar_one {A} (f : A -> bool) (l : list A) (x : A) :
  List.filter f l = [x] -> In x l /\ f x = true.
Proof.
  intros H. apply filter_In. rewrite H. by left.
Qed.

Ltac tidy_bools :=
  repeat match goal with
    | H : negb _ = false |- _ => apply negb_false_iff in H
    | H : negb _ = true |- _ => apply negb_true_iff in H
    | H : _ || _ = false |- _ => apply orb_false_iff in H as [? ?]
    end.

Section Steps.
Variable s3_client : S3.S3Client.
Variable like : string -> string -> bool.

Lemma serve_db_step (r : Request) (w : World) :
  db_step (w_db w) (w_db (serve s3_client like r w)).
Proof.
  destruct r; simpl.
  - unfold TeacherServices.create_test, TeacherRepository.create_test. run.
    repeat case_match; simplify_eq; simpl; try apply db_unchanged.
    all: apply (db_new_test _ (mkTest _ _ _ _ _ _)); simpl;
      by apply (existsb_key_false test_id).
  - unfold TeacherServices.update_test_status, TeacherRepository.update_test_status.
    run. repeat case_match; simplify_eq; simpl;
      by apply (db_tests_updated _ (TeacherRepository.owned tid tch)).
  - unfold TeacherServices.create_question_with_answers,
      TeacherServices.get_test_by_id, TeacherRepository.get_test_by_id,
      TeacherRepository.create_question_with_answers.
    run. repeat case_match; simplify_eq; simpl; try apply db_unchanged.
    all: tidy_bools.
    all: apply (db_new_question _ (mkQuestion _ _ _ _ _ _)); simpl.
    all: try (by apply (existsb_key_false question_id)).
    all: try (by apply (refers_In test_id)).
    all: try (by eapply bool_decide_eq_true_1).
    all: try (intros o Ho; apply list_elem_of_In, list_elem_of_lookup in Ho as [i Hi];
              rewrite list_lookup_imap in Hi;
              destruct (_ !! i); simpl in Hi; [|done]; by injection Hi as <-).
    all: intros x o Hx Ho E;
      match goal with
      | H : existsb ?f (answer_options ?d) = false |- _ =>
          assert (existsb f (answer_options d) = true) as H'; [|congruence]
      end;
      apply (existsb_In _ _ x Hx); apply existsb_exists;
      exists (answer_id o); (split; [by apply in_map|]); by apply N.eqb_eq.
  - destruct (List.filter (TeacherRepository.owned tid tch) (tests (w_db w)))
      as [|t [|t' l]] eqn:Ht.
    + destruct (delete_test_missing s3_client tid tch w) as [e ->].
      * intros t. by rewrite Ht.
      * apply db_unchanged.
    + rewrite (delete_test_run _ _ _ _ _ Ht). simpl. apply db_tests_deleted.
    + destruct (delete_test_missing s3_client tid tch w) as [e ->].
      * intros t0. by rewrite Ht.
      * apply db_unchanged.
  - unfold TeacherServices.get_test_analytics, TeacherRepository.get_test_analytics_data.
    run. repeat case_match; simplify_eq; simpl; apply db_unchanged.
  - unfold StudentServices.start_test, StudentRepository.has_active_attempt,
      StudentRepository.get_test_for_student_by_id,
      StudentRepository.create_test_attempt.
    run. repeat case_match; simplify_eq; simpl; try apply db_unchanged.
    all: tidy_bools.
    all: apply (db_new_attempt _ (mkTestAttempt _ _ _ _ _)); simpl;
      [by apply (existsb_key_false attempt_id)|by apply (refers_In test_id)].
  - unfold StudentServices.submit_answer, StudentRepository.get_attempt_with_results,
      StudentRepository.get_correct_answers_for_question,
      StudentRepository.save_student_answer.
    run. repeat case_match; simplify_eq; simpl; try apply db_unchanged.
    all: tidy_bools.
    all: repeat match goal with
           | H : List.filter _ _ = [_] |- _ => apply scalar_one in H as [? ?]
           end.
    all: try (apply db_answer_updated;
              [done|intros o Ho; by apply filter_In in Ho as [Ho _]]).
    all: apply (db_new_answer _ (mkStudentAnswer _ _ _ _)); simpl;
      [by apply (existsb_key_false student_answer_id)
      | |intros o Ho; by apply filter_In in Ho as [Ho _]].
    all: match goal with
         | Ha : In ?a (test_attempts _), Ft : attempt_test _ ?a = Some ?t,
           Eq : existsb _ (test_questions _ ?t) = true |- _ =>
             apply find_some in Ft as [Ht Et]; apply N.eqb_eq in Et;
             apply existsb_exists in Eq as (q & Hq & Eq); apply N.eqb_eq in Eq;
             apply filter_In in Hq as [Hq Eqt]; apply N.eqb_eq in Eqt;
             exists a, q
         end.
    all: repeat match goal with H : N.eqb _ _ = true |- _ => apply N.eqb_eq in H end.
    all: repeat split; try done; congruence.
  - unfold StudentServices.finish_test, StudentRepository.get_attempt_with_results,
      StudentRepository.update_test_attempt.
    run. repeat case_match; simplify_eq; simpl; try apply db_unchanged.
    all: by apply (db_attempts_updated _ (fun a => N.eqb (attempt_id a) aid)).
Qed.

End Steps.

Lemma db_step_within_test (d d' : DB) :
  db_step d d' -> integrity d -> answers_within_test d -> answers_within_test d'.
Proof.
  intros Hstep Hint Hw.
  destruct Hstep as [|t Hfresh|hit u Hu|q opts Hfresh Ht Hopts Hoq Hofresh|gone
                    |a Hfresh Ht|hit u Hu|s opts Hfresh Hrefs Hopts|sa b opts Hsa Hopts];
    unfold answers_within_test in *; simpl; try done.
  - intros s a q0 Hs Ha Ea Hq Eq. apply in_app_iff in Hq as [Hq|[<-|[]]]; [eauto|].
    destruct (fk_answer_question _ Hint s Hs) as (q' & Hq' & E').
    destruct (Hfresh q' Hq'). congruence.
  - intros s a q Hs Ha Ea Hq Eq.
    apply filter_In in Hs as [Hs _]. apply filter_In in Ha as [Ha _].
    apply filter_In in Hq as [Hq _]. eauto.
  - intros s a0 q Hs Ha Ea Hq Eq. apply in_app_iff in Ha as [Ha|[<-|[]]]; [eauto|].
    destruct (fk_answer_attempt _ Hint s Hs) as (a' & Ha' & E').
    destruct (Hfresh a' Ha'). congruence.
  - intros s a q Hs Ha Ea Hq Eq. apply in_map_iff in Ha as (a0 & <- & Ha0).
    destruct (Hu a0) as [E1 E2].
    destruct (hit a0); [rewrite E2; rewrite E1 in Ea|]; eauto.
  - intros s0 a q Hs Ha Ea Hq Eq. apply in_app_iff in Hs as [Hs|[<-|[]]]; [eauto|].
    destruct Hrefs as (a' & q' & Ha' & Ea' & Hq' & Eq' & Et).
    assert (a = a') as -> by (apply (pk_inj attempt_id (test_attempts d));
                              [apply Hint|done|done|congruence]).
    assert (q = q') as -> by (apply (pk_inj question_id (questions d));
                              [apply Hint|done|done|congruence]).
    done.
  - intros s a q Hs Ha Ea Hq Eq. apply in_map_iff in Hs as (s0 & <- & Hs0).
    apply (Hw s0 a q); try done;
      destruct (N.eqb (student_answer_id s0) _); done.
Qed.

(** *** The invariants of the engine *)

Lemma empty_consistent : consistent empty_db.
Proof.
  split.
  - constructor; simpl; try apply NoDup_nil_2; by intros x [].
  - intros s. simpl. lia.
  - intros a q. simpl. lia.
  - by intros s a q [].
Qed.

Section Reachable.
Variable s3_client : S3.S3Client.
Variable like : string -> string -> bool.

Lemma serve_consistent (r : Request) (w : World) :
  consistent (w_db w) -> consistent (w_db (serve s3_client like r w)).
Proof.
  intros [H1 H2 H3 H4]. split.
  - eapply db_step_integrity; [apply serve_db_step|done].
  - by apply serve_single_active.
  - by apply serve_one_answer_per_pair.
  - eapply db_step_within_test; [apply serve_db_step|done|done].
Qed.

(** Whatever requests are served, one after the other, from the empty
    store: keys and references are intact, no student has two attempts
    in progress, no (attempt, question) has two answers and every answer is
    to a question of the test of its attempt. *)
Lemma reachable_consistent (rs : list Request) :
  consistent (w_db (serve_all s3_client like rs empty_world)).
Proof.
  assert (H : forall w, consistent (w_db w) ->
                consistent (w_db (serve_all s3_client like rs w))).
  { induction rs as [|r rs0 IH]; intros w Hw; simpl; [done|].
    apply IH. by apply serve_consistent. }
  apply H, empty_consistent.
Qed.

End Reachable.

(** ** A completed attempt under later calls *)

Lemma map_update_id {A} (hit : A -> bool) (u : A -> A) (l : list A) :
  (forall x, In x l -> hit x = false) ->
  map (fun x => if hit x then u x else x) l = l.
Proof.
  intros H. induction l as [|x l IH]; simpl; [done|].
  rewrite (H x) by (by left). rewrite IH; [done|]. intros; apply H. by right.
Qed.

Lemma filter_update_other {A} (f hit : A -> bool) (u : A -> A) (l : list A) :
  (forall x, f (u x) = f x) ->
  (forall x, In x l -> f x = true -> hit x = false) ->
  List.filter f (map (fun x => if hit x then u x else x) l) = List.filter f l.
Proof.
  intros Hu Hother.
  rewrite filter_map_commute by (intros x; destruct (hit x); [apply Hu|done]).
  apply map_update_id. intros x Hx. apply filter_In in Hx as [Hx Hf]. auto.
Qed.

Lemma selected_rows_filter_other (sid sid' : uuid) (opts : list AnswerOption) :
  sid <> sid' ->
  List.filter (fun r => N.eqb (sel_student_answer_id r) sid') (selected_rows sid opts)
  = [].
Proof.
  intros Hne. induction opts as [|o opts IH]; simpl; [done|].
  by destruct (N.eqb_spec sid sid').
Qed.

Lemma upsert_other_attempt (d : DB) (new_id aid' qid : uuid) (chosen : list uuid)
    (b : bool) (aid : uuid) :
  integrity d -> aid' <> aid ->
  (answers_for d aid' qid = [] ->
   forall s, In s (student_answers d) -> student_answer_id s <> new_id) ->
  attempt_record (upsert d new_id aid' qid chosen b) aid = attempt_record d aid.
Proof.
  intros Hint Hne Hfresh. unfold attempt_record, upsert.
  destruct (answers_for d aid' qid) as [|sa l] eqn:F; simpl; f_equal.
  - specialize (Hfresh eq_refl). rewrite List.filter_app. simpl.
    destruct (N.eqb_spec aid' aid) as [|_]; [done|]. rewrite app_nil_r.
    apply map_ext_in. intros s Hs. apply filter_In in Hs as [Hs _]. f_equal.
    unfold chosen_options. simpl. rewrite List.filter_app.
    rewrite selected_rows_filter_other, app_nil_r; [done|].
    intros E. by destruct (Hfresh s Hs).
  - assert (Hsa : In sa (student_answers d) /\ sa_attempt_id sa = aid').
    { assert (In sa (answers_for d aid' qid)) as H by (rewrite F; by left).
      apply filter_In in H as [H E]. apply andb_prop in E as [E _].
      by apply N.eqb_eq in E. }
    destruct Hsa as [Hsa Ea].
    assert (Hother : forall s, In s (student_answers d) -> sa_attempt_id s = aid ->
                       N.eqb (student_answer_id s) (student_answer_id sa) = false).
    { intros s Hs Es. apply N.eqb_neq. intros E.
      assert (s = sa) as -> by (by apply (pk_inj student_answer_id (student_answers d));
                                [apply Hint|..]).
      congruence. }
    rewrite filter_update_other; cycle 1.
    { done. }
    { intros s Hs Es. apply N.eqb_eq in Es. auto. }
    apply map_ext_in. intros s Hs. apply filter_In in Hs as [Hs Es].
    apply N.eqb_eq in Es. f_equal.
    unfold chosen_options. simpl. rewrite List.filter_app.
    rewrite selected_rows_filter_other, app_nil_r; cycle 1.
    { intros E. specialize (Hother s Hs Es). rewrite E, N.eqb_refl in Hother.
      discriminate Hother. }
    rewrite filter_and. do 2 f_equal. apply List.filter_ext. intros r.
    destruct (N.eqb_spec (sel_student_answer_id r) (student_answer_id s)) as [E|_];
      [|by rewrite andb_false_r].
    rewrite E, (Hother s Hs Es). done.
Qed.

Lemma submit_answer_db (w : World) (new_id aid : uuid) (answer_data : StudentAnswerIn) :
  let d := w_db w in
  let qid := in_question_id answer_data in
  let chosen := chosen_answer_option_ids answer_data in
  w_db (snd (submit_answer new_id aid answer_data w)) = d
  \/ (w_db (snd (submit_answer new_id aid answer_data w))
       = upsert d new_id aid qid chosen
           (bool_decide (list_to_set chosen = correct_answer_ids d qid))
      /\ (answers_for d aid qid = [] ->
          forall s, In s (student_answers d) -> student_answer_id s <> new_id)).
Proof.
  intros d qid chosen. subst d qid chosen.
  unfold submit_answer, get_attempt_with_results, get_correct_answers_for_question,
    save_student_answer, upsert, answers_for, correct_answer_ids.
  run. repeat case_match; simplify_eq; simpl; auto.
  all: repeat match goal with
         | H1 : ?x = _, H2 : ?x = _ |- _ => rewrite H1 in H2
         end; simplify_eq.
  all: right; split; [done|]; intros E; try discriminate E.
  all: tidy_bools; by apply (existsb_key_false student_answer_id).
Qed.

Lemma completed_rejected (w : World) (aid : uuid) (a : TestAttempt) :
  integrity (w_db w) ->
  In a (test_attempts (w_db w)) -> attempt_id a = aid -> status a = COMPLETED ->
  (forall new_id answer_data,
     submit_answer new_id aid answer_data w = (Raise (AttemptAlreadyFinished aid), w))
  /\ finish_test aid w = (Raise (AttemptAlreadyFinished aid), w).
Proof.
  intros Hint Ha Eaid Hst.
  assert (Hget : get_attempt_with_results aid w = (Ok (Some a), w)).
  { unfold get_attempt_with_results. run. rewrite <- Eaid.
    rewrite (filter_key_unique attempt_id _ a); [reflexivity| |done].
    apply (pk_test_attempts _ Hint). }
  unfold submit_answer, finish_test. split; [intros new_id answer_data|].
  all: rewrite !(bind_ok _ _ _ _ _ Hget); cbv beta iota; by rewrite Hst.
Qed.

(** No [submit_answer] and no [finish_test], on whatever attempt, changes
    what the store records about a COMPLETED attempt. *)
Lemma completed_attempt_frozen (c : S3.S3Client) (like : string -> string -> bool)
    (r : Request) (w : World) (a : TestAttempt) :
  match r with SubmitAnswer _ _ _ | FinishTest _ => True | _ => False end ->
  integrity (w_db w) ->
  In a (test_attempts (w_db w)) -> status a = COMPLETED ->
  attempt_record (w_db (serve c like r w)) (attempt_id a)
  = attempt_record (w_db w) (attempt_id a).
Proof.
  intros Hr Hint Ha Hst.
  destruct (completed_rejected w _ a Hint Ha eq_refl Hst) as [Hsub Hfin].
  destruct r as [| | | | | |new_id aid' answer_data|aid']; try done; simpl.
  - destruct (N.eq_dec aid' (attempt_id a)) as [->|Hne]; [by rewrite Hsub|].
    destruct (submit_answer_db w new_id aid' answer_data) as [->|[-> Hfresh]]; [done|].
    by apply upsert_other_attempt.
  - destruct (N.eq_dec aid' (attempt_id a)) as [->|Hne]; [by rewrite Hfin|].
    unfold finish_test, get_attempt_with_results, update_test_attempt.
    run. repeat case_match; simplify_eq; simpl; try done.
    all: unfold attempt_record; simpl; f_equal.
    all: apply filter_update_other; [done|].
    all: intros x _ Ex; apply N.eqb_eq in Ex; apply N.eqb_neq; congruence.
Qed.

(** C4. Once an attempt is COMPLETED, [submit_answer] and [finish_test] on
    it raise [AttemptAlreadyFinished] and change nothing: the world after
    the call is the world before it.  And no later [submit_answer] or
    [finish_test] request, on this or on any other attempt, changes the row
    of the attempt (status, score), its recorded answers or the options
    chosen in them. *)
Theorem terminal_immutability
    (c : S3.S3Client) (like : string -> string -> bool)
    (w : World) (new_id aid : uuid) (answer_data : StudentAnswerIn)
    (a : TestAttempt) (r : Request) :
  integrity (w_db w) ->
  In a (test_attempts (w_db w)) -> attempt_id a = aid -> status a = COMPLETED ->
  submit_answer new_id aid answer_data w = (Raise (AttemptAlreadyFinished aid), w)
  /\ finish_test aid w = (Raise (AttemptAlreadyFinished aid), w)
  /\ (match r with SubmitAnswer _ _ _ | FinishTest _ => True | _ => False end ->
      attempt_record (w_db (serve c like r w)) aid = attempt_record (w_db w) aid).
Proof.
  intros Hint Ha Eaid Hst.
  destruct (completed_rejected w aid a Hint Ha Eaid Hst) as [Hsub Hfin].
  split; [apply Hsub|]. split; [exact Hfin|].
  intros Hr. subst aid. by apply completed_attempt_frozen.
Qed.

Lemma terminal_immutability_witness :
  submit_answer 62%N 50%N (mkStudentAnswerIn 12%N [120%N]) quiz_finished
  = (Raise (AttemptAlreadyFinished 50%N), quiz_finished)
  /\ finish_test 50%N quiz_finished
     = (Raise (AttemptAlreadyFinished 50%N), quiz_finished)
  /\ attempt_record
       (w_db (serve edu (fun _ _ => true)
                (SubmitAnswer 62%N 50%N (mkStudentAnswerIn 12%N [120%N])) quiz_finished))
       50%N
     = attempt_record (w_db quiz_finished) 50%N.
Proof.
  destruct (terminal_immutability edu (fun _ _ => true) quiz_finished 62%N 50%N
              (mkStudentAnswerIn 12%N [120%N])
              (mkTestAttempt 50%N 3 1%N COMPLETED (Some 30%float))
              (SubmitAnswer 62%N 50%N (mkStudentAnswerIn 12%N [120%N])))
    as (H1 & H2 & H3).
  - exact quiz_finished_integrity.
  - simpl. auto.
  - reflexivity.
  - reflexivity.
  - split; [exact H1|]. split; [exact H2|]. apply H3. exact I.
Defined.

Lemma same_group_trans (q1 q2 q3 : Question) :
  TeacherRepository.same_group q1 q2 = true ->
  TeacherRepository.same_group q2 q3 = true ->
  TeacherRepository.same_group q1 q3 = true.
Proof.
  unfold TeacherRepository.same_group. rewrite !andb_true_iff.
  rewrite !N.eqb_eq, !String.eqb_eq. intros [-> ->] [-> ->]. done.
Qed.

Lemma group_keys_cover (rows : list (StudentAnswer * Question))
    (sa : StudentAnswer) (q : Question) :
  In (sa, q) rows ->
  exists k, In k (TeacherRepository.group_keys rows)
            /\ TeacherRepository.same_group k q = true.
Proof.
  induction rows as [|[s0 q0] rows IH]; simpl; [done|].
  intros Hin.
  destruct (TeacherRepository.same_group q0 q) eqn:E; [eauto|].
  destruct Hin as [[= -> ->]|Hin].
  - unfold TeacherRepository.same_group in E.
    by rewrite N.eqb_refl, String.eqb_refl in E.
  - destruct (IH Hin) as (k & Hk & Ek). exists k. split; [|done].
    right. apply filter_In. split; [done|].
    destruct (TeacherRepository.same_group q0 k) eqn:E'; [|done].
    by rewrite (same_group_trans _ _ _ E' Ek) in E.
Qed.

(** A question of the test with an answer in a COMPLETED attempt has a
    row in the report (no text filter given). *)
Lemma answered_questions_are_reported (like : string -> string -> bool)
    (tid : uuid) (tch : Z) (w : World) (t : Test) (ta : TestAttempt)
    (sa : StudentAnswer) (q : Question) :
  let d := w_db w in
  In t (tests d) -> test_id t = tid -> teacher_id t = tch ->
  In ta (test_attempts d) -> ta_test_id ta = tid -> status ta = COMPLETED ->
  In sa (student_answers d) -> sa_attempt_id sa = attempt_id ta ->
  In q (questions d) -> sa_question_id sa = question_id q ->
  exists out row,
    TeacherServices.get_test_analytics like tid tch None w = (Ok out, w)
    /\ In row (TeacherServices.question_analytics out)
    /\ TeacherServices.qa_question_id row = question_id q.
Proof.
  intros d Ht Et Etch Hta Eta Hst Hsa Esa Hq Eq.
  unfold TeacherServices.get_test_analytics, TeacherRepository.get_test_analytics_data.
  run. fold d.
  assert (Hc : In ta (TeacherRepository.completed_attempts d tid tch)).
  { unfold TeacherRepository.completed_attempts.
    apply in_flat_map. exists ta. split; [done|].
    apply in_flat_map. exists t. split; [done|].
    rewrite Eta, Et, Etch, Hst, N.eqb_refl, Z.eqb_refl. simpl. by left. }
  destruct (Z.eqb_spec (Z.of_nat (length (TeacherRepository.completed_attempts d tid tch))) 0)
    as [E0|_].
  { destruct (TeacherRepository.completed_attempts d tid tch); [done|simpl in E0; lia]. }
  simpl.
  assert (Hrow : In (sa, q) (TeacherRepository.analytics_join like d tid tch None)).
  { unfold TeacherRepository.analytics_join.
    apply in_flat_map. exists sa. split; [done|].
    apply in_flat_map. exists q. split; [done|].
    apply in_flat_map. exists ta. split; [done|].
    apply in_flat_map. exists t. split; [done|].
    rewrite Esa, Eq, Eta, Et, Etch, Hst, !N.eqb_refl, Z.eqb_refl. simpl. by left. }
  apply group_keys_cover in Hrow as (k & Hk & Ek).
  eexists _, _. split; [reflexivity|]. simpl. split.
  - rewrite map_map. apply in_map_iff. exists k. split; [reflexivity|].
    by apply sort_by_order_In.
  - simpl. unfold TeacherRepository.same_group in Ek.
    apply andb_prop in Ek as [Ek _]. by apply N.eqb_eq.
Qed.

(** ORDER BY: the groups are reported by ascending display order, the
    questions without one last. *)
Lemma order_le_total (a b : option Z) :
  TeacherRepository.order_le a b = false -> TeacherRepository.order_le b a = true.
Proof. destruct a, b; simpl; try done. intros H. apply Z.leb_le. apply Z.leb_gt in H. lia. Qed.

Lemma insert_by_order_sorted {A} (key : A -> option Z) (x : A) (l : list A) :
  Sorted (fun a b => TeacherRepository.order_le (key a) (key b) = true) l ->
  Sorted (fun a b => TeacherRepository.order_le (key a) (key b) = true)
    (TeacherRepository.insert_by_order key x l).
Proof.
  induction l as [|y l IH]; simpl; intros Hs.
  - by repeat constructor.
  - destruct (TeacherRepository.order_le (key x) (key y)) eqn:E.
    + constructor; [done|]. by constructor.
    + apply Sorted_inv in Hs as [Hs Hhd]. constructor; [by apply IH|].
      destruct l as [|z l]; simpl.
      * constructor. by apply order_le_total.
      * destruct (TeacherRepository.order_le (key x) (key z)); constructor;
          [by apply order_le_total|]. by inversion Hhd.
Qed.

Lemma sort_by_order_sorted {A} (key : A -> option Z) (l : list A) :
  Sorted (fun a b => TeacherRepository.order_le (key a) (key b) = true)
    (TeacherRepository.sort_by_order key l).
Proof.
  unfold TeacherRepository.sort_by_order.
  induction l as [|x l IH]; simpl; [constructor|]. by apply insert_by_order_sorted.
Qed.

(** ** Deleting questions *)

Lemma cascade_questions_integrity (gone : Question -> bool) (d : DB) :
  integrity d -> integrity (TeacherRepository.cascade_delete_questions gone d).
Proof.
  intros [P1 P2 P3 P4 P5 F1 F2 F3 F4 F5 F6 F7].
  unfold TeacherRepository.cascade_delete_questions.
  constructor; simpl; try done; try (by apply pk_filter).
  - by apply fk_child_filter.
  - apply fk_cascade; [done|]. intros o q Ho Hq E G. by eapply gone_by_key.
  - by apply fk_child_filter.
  - apply fk_cascade; [done|]. intros s q Hs Hq E G. by eapply gone_by_key.
  - apply fk_cascade; [done|]. intros r s Hr Hs E G.
    apply orb_true_iff. left. by eapply gone_by_key.
  - apply fk_cascade; [done|]. intros r o Hr Ho E G.
    apply orb_true_iff. right. by eapply gone_by_key.
Qed.

Lemma cascade_questions_consistent (gone : Question -> bool) (d : DB) :
  consistent d -> consistent (TeacherRepository.cascade_delete_questions gone d).
Proof.
  intros [H1 H2 H3 H4]. split.
  - by apply cascade_questions_integrity.
  - exact H2.
  - intros aid qid. etrans; [|apply (H3 aid qid)].
    unfold answers_for. simpl. apply filter_filter_length.
  - intros s a q Hs Ha Ea Hq Eq. simpl in *.
    apply filter_In in Hs as [Hs _]. apply filter_In in Hq as [Hq _]. eauto.
Qed.

Lemma cascade_tests_consistent (gone : Test -> bool) (d : DB) :
  consistent d -> consistent (TeacherRepository.cascade_delete_tests gone d).
Proof.
  intros [H1 H2 H3 H4]. split.
  - by apply cascade_integrity.
  - intros sid. etrans; [|apply (H2 sid)].
    unfold active_attempts. simpl. apply filter_filter_length.
  - intros aid qid. etrans; [|apply (H3 aid qid)].
    unfold answers_for. simpl. apply filter_filter_length.
  - intros s a q Hs Ha Ea Hq Eq. simpl in *.
    apply filter_In in Hs as [Hs _]. apply filter_In in Hq as [Hq _].
    apply filter_In in Ha as [Ha _]. eauto.
Qed.

(** The test lookup that opens every operation of a teacher. *)
Lemma get_test_by_id_run (tid : uuid) (tch : Z) (w : World) (t : Test) :
  List.filter (TeacherRepository.owned tid tch) (tests (w_db w)) = [t] ->
  TeacherServices.get_test_by_id tid tch w = (Ok t, w).
Proof.
  intros Ht. unfold TeacherServices.get_test_by_id, TeacherRepository.get_test_by_id.
  run. by rewrite Ht.
Qed.

Lemma get_test_by_id_missing (tid : uuid) (tch : Z) (w : World) :
  List.filter (TeacherRepository.owned tid tch) (tests (w_db w)) = [] ->
  TeacherServices.get_test_by_id tid tch w = (Raise (NotFoundUuid "Test" tid), w).
Proof.
  intros Ht. unfold TeacherServices.get_test_by_id, TeacherRepository.get_test_by_id.
  run. by rewrite Ht.
Qed.

Lemma get_test_by_id_cases (tid : uuid) (tch : Z) (w : World) :
  (exists t, List.filter (TeacherRepository.owned tid tch) (tests (w_db w)) = [t]
             /\ TeacherServices.get_test_by_id tid tch w = (Ok t, w))
  \/ (exists e, TeacherServices.get_test_by_id tid tch w = (Raise e, w)).
Proof.
  unfold TeacherServices.get_test_by_id, TeacherRepository.get_test_by_id. run.
  destruct (List.filter _ _) as [|t [|t' l]]; simpl; eauto.
Qed.

Lemma get_question_by_id_run (tid qid : uuid) (tch : Z) (w : World) (t : Test)
    (q : Question) :
  List.filter (TeacherRepository.owned tid tch) (tests (w_db w)) = [t] ->
  List.filter (TeacherRepository.in_test tid qid) (questions (w_db w)) = [q] ->
  TeacherServices.get_question_by_id tid qid tch w = (Ok q, w).
Proof.
  intros Ht Hq. unfold TeacherServices.get_question_by_id.
  erewrite bind_ok by (by apply get_test_by_id_run).
  unfold TeacherRepository.get_question_by_id. run. by rewrite Hq.
Qed.

Lemma get_question_by_id_cases (tid qid : uuid) (tch : Z) (w : World) :
  (exists t q,
      List.filter (TeacherRepository.owned tid tch) (tests (w_db w)) = [t]
      /\ List.filter (TeacherRepository.in_test tid qid) (questions (w_db w)) = [q]
      /\ TeacherServices.get_question_by_id tid qid tch w = (Ok q, w))
  \/ (exists e, TeacherServices.get_question_by_id tid qid tch w = (Raise e, w)).
Proof.
  unfold TeacherServices.get_question_by_id.
  destruct (get_test_by_id_cases tid tch w) as [(t & Ht & E)|(e & E)].
  - rewrite (bind_ok _ _ _ _ _ E).
    unfold TeacherRepository.get_question_by_id. run.
    destruct (List.filter (TeacherRepository.in_test tid qid) _) as [|q [|q' l]] eqn:Hq;
      simpl; eauto 10.
  - right. exists e. by rewrite (bind_raise _ _ _ _ _ E).
Qed.

Lemma delete_question_run (c : S3.S3Client) (tid qid : uuid) (tch : Z) (w : World)
    (t : Test) (q : Question) :
  List.filter (TeacherRepository.owned tid tch) (tests (w_db w)) = [t] ->
  List.filter (TeacherRepository.in_test tid qid) (questions (w_db w)) = [q] ->
  TeacherServices.delete_question c tid qid tch w
  = (Ok tt,
     mkWorld
       (TeacherRepository.cascade_delete_questions
          (TeacherRepository.in_test tid qid) (w_db w))
       (w_log w ++ map S3DeleteObject (question_keys c (w_db w) q) ++ [Commit])).
Proof.
  intros Ht Hq. unfold TeacherServices.delete_question.
  erewrite bind_ok by (by eapply get_question_by_id_run).
  rewrite (bind_ok get_db _ w w (w_db w)) by reflexivity.
  erewrite bind_ok by apply delete_image_run.
  erewrite bind_ok by apply answers_loop_run.
  rewrite logged_app.
  unfold TeacherRepository.delete_question_by_id. run. rewrite Hq. simpl.
  unfold question_keys. by rewrite <- !app_assoc.
Qed.

Lemma delete_question_cases (c : S3.S3Client) (tid qid : uuid) (tch : Z) (w : World) :
  (exists t q,
      List.filter (TeacherRepository.owned tid tch) (tests (w_db w)) = [t]
      /\ List.filter (TeacherRepository.in_test tid qid) (questions (w_db w)) = [q])
  \/ (exists e, TeacherServices.delete_question c tid qid tch w = (Raise e, w)).
Proof.
  destruct (get_question_by_id_cases tid qid tch w) as [(t & q & Ht & Hq & E)|(e & E)].
  - left. eauto.
  - right. exists e. unfold TeacherServices.delete_question.
    by rewrite (bind_raise _ _ _ _ _ E).
Qed.

Lemma delete_all_questions_run (c : S3.S3Client) (tid : uuid) (tch : Z) (w : World)
    (t : Test) :
  List.filter (TeacherRepository.owned tid tch) (tests (w_db w)) = [t] ->
  TeacherServices.delete_all_questions_by_test_id c tid tch w
  = (Ok ("Successfully deleted "
         ++ pretty (Z.of_nat (length (test_questions (w_db w) t)))
         ++ " questions.")%string,
     mkWorld
       (TeacherRepository.cascade_delete_questions
          (fun q => N.eqb (q_test_id q) tid) (w_db w))
       (w_log w
        ++ map S3DeleteObject (flat_map (question_keys c (w_db w)) (test_questions (w_db w) t))
        ++ [Commit])).
Proof.
  intros Ht. unfold TeacherServices.delete_all_questions_by_test_id.
  erewrite bind_ok by (by apply get_test_by_id_run).
  rewrite (bind_ok get_db _ w w (w_db w)) by reflexivity.
  erewrite bind_ok by apply questions_loop_run.
  unfold TeacherRepository.delete_all_questions_by_test_id. run.
  apply scalar_one in Ht as [_ Ht]. apply andb_prop in Ht as [Ht _].
  apply N.eqb_eq in Ht. unfold test_questions. rewrite Ht.
  by rewrite <- !app_assoc.
Qed.

Lemma tests_loop_run (c : S3.S3Client) (d : DB) (ts : list Test) (w : World) :
  TeacherServices.for_each ts (fun test =>
    S3.delete_image c (test_image_url test);;
    TeacherServices.for_each (test_questions d test) (fun question =>
      S3.delete_image c (q_image_url question);;
      TeacherServices.for_each (question_answer_options d question) (fun answer =>
        S3.delete_image c (ao_image_url answer)))) w
  = (Ok tt, logged w (flat_map (test_keys c d) ts)).
Proof.
  revert w. induction ts as [|t ts IH]; intros w; simpl.
  - by rewrite logged_nil.
  - rewrite bind_run.
    rewrite (bind_ok _ _ _ _ _ (delete_image_run c (test_image_url t) w)).
    rewrite questions_loop_run, IH.
    rewrite !logged_app. unfold test_keys. by rewrite <- !app_assoc.
Qed.

Lemma delete_all_tests_run (c : S3.S3Client) (tch : Z) (w : World) :
  let mine := List.filter (fun t => Z.eqb (teacher_id t) tch) (tests (w_db w)) in
  TeacherServices.delete_all_tests c tch w
  = (Ok ("Successfully deleted " ++ pretty (Z.of_nat (length mine)) ++ " tests.")%string,
     mkWorld
       (TeacherRepository.cascade_delete_tests (fun t => Z.eqb (teacher_id t) tch) (w_db w))
       (w_log w ++ map S3DeleteObject (flat_map (test_keys c (w_db w)) mine) ++ [Commit])).
Proof.
  intros mine. unfold TeacherServices.delete_all_tests.
  rewrite (bind_ok _ _ w w mine) by reflexivity.
  rewrite (bind_ok get_db _ w w (w_db w)) by reflexivity.
  erewrite bind_ok by apply tests_loop_run.
  unfold TeacherRepository.delete_all_tests. run.
  by rewrite <- !app_assoc.
Qed.

Section HandleInvariant.
Variable s3_client : S3.S3Client.
Variable like : string -> string -> bool.

Lemma handle_consistent (c : Call) (w : World) :
  consistent (w_db w) -> consistent (w_db (handle s3_client like c w)).
Proof.
  intros H. destruct c as [r|tid qid tch|tid tch|tch]; simpl.
  - by apply serve_consistent.
  - destruct (delete_question_cases s3_client tid qid tch w) as [(t & q & Ht & Hq)|(e & E)].
    + rewrite (delete_question_run _ _ _ _ _ _ _ Ht Hq). simpl.
      by apply cascade_questions_consistent.
    + by rewrite E.
  - destruct (get_test_by_id_cases tid tch w) as [(t & Ht & _)|(e & E)].
    + rewrite (delete_all_questions_run _ _ _ _ _ Ht). simpl.
      by apply cascade_questions_consistent.
    + unfold TeacherServices.delete_all_questions_by_test_id.
      by rewrite (bind_raise _ _ _ _ _ E).
  - rewrite delete_all_tests_run. simpl. by apply cascade_tests_consistent.
Qed.

Lemma handle_all_consistent (cs : list Call) (w : World) :
  consistent (w_db w) -> consistent (w_db (handle_all s3_client like cs w)).
Proof.
  revert w. induction cs as [|c cs IH]; intros w H; simpl; [done|].
  apply IH. by apply handle_consistent.
Qed.

End HandleInvariant.

(** ** Scores and statistics *)

Ltac attempt_rows :=
  let a := fresh "a" in
  let Hin := fresh "Hin" in
  intros a Hin; simpl in *;
  try (left; exact Hin);
  try (apply filter_In in Hin as [Hin _]; left; exact Hin);
  try (apply in_app_iff in Hin as [Hin|[<-|[]]];
       [left; exact Hin | right; left; by split]);
  try (apply in_map_iff in Hin as (? & <- & Hin); case_match;
       [right; right; by split | left; exact Hin]).

Section Scored.
Variable s3_client : S3.S3Client.
Variable like : string -> string -> bool.

Lemma serve_attempt_rows (r : Request) (w : World) :
  forall a, In a (test_attempts (w_db (serve s3_client like r w))) ->
            attempt_row_ok (test_attempts (w_db w)) a.
Proof.
  unfold attempt_row_ok. destruct r; simpl.
  - unfold TeacherServices.create_test, TeacherRepository.create_test. run.
    repeat case_match; simplify_eq; simpl; attempt_rows.
  - unfold TeacherServices.update_test_status, TeacherRepository.update_test_status.
    run. repeat case_match; simplify_eq; simpl; attempt_rows.
  - unfold TeacherServices.create_question_with_answers,
      TeacherServices.get_test_by_id, TeacherRepository.get_test_by_id,
      TeacherRepository.create_question_with_answers.
    run. repeat case_match; simplify_eq; simpl; attempt_rows.
  - destruct (List.filter (TeacherRepository.owned tid tch) (tests (w_db w)))
      as [|t [|t' l]] eqn:Ht.
    + destruct (delete_test_missing s3_client tid tch w) as [e ->].
      * intros t. by rewrite Ht.
      * attempt_rows.
    + rewrite (delete_test_run _ _ _ _ _ Ht). attempt_rows.
    + destruct (delete_test_missing s3_client tid tch w) as [e ->].
      * intros t0. by rewrite Ht.
      * attempt_rows.
  - unfold TeacherServices.get_test_analytics, TeacherRepository.get_test_analytics_data.
    run. repeat case_match; simplify_eq; simpl; attempt_rows.
  - unfold StudentServices.start_test, StudentRepository.has_active_attempt,
      StudentRepository.get_test_for_student_by_id,
      StudentRepository.create_test_attempt.
    run. repeat case_match; simplify_eq; simpl; attempt_rows.
  - unfold StudentServices.submit_answer, StudentRepository.get_attempt_with_results,
      StudentRepository.get_correct_answers_for_question,
      StudentRepository.save_student_answer.
    run. repeat case_match; simplify_eq; simpl; attempt_rows.
  - unfold StudentServices.finish_test, StudentRepository.get_attempt_with_results,
      StudentRepository.update_test_attempt.
    run. repeat case_match; simplify_eq; simpl; attempt_rows.
Qed.

Lemma handle_attempt_rows (c : Call) (w : World) :
  forall a, In a (test_attempts (w_db (handle s3_client like c w))) ->
            attempt_row_ok (test_attempts (w_db w)) a.
Proof.
  destruct c as [r|tid qid tch|tid tch|tch]; simpl.
  - apply serve_attempt_rows.
  - unfold attempt_row_ok.
    destruct (delete_question_cases s3_client tid qid tch w) as [(t & q & Ht & Hq)|(e & E)].
    + rewrite (delete_question_run _ _ _ _ _ _ _ Ht Hq). attempt_rows.
    + rewrite E. attempt_rows.
  - unfold attempt_row_ok.
    destruct (get_test_by_id_cases tid tch w) as [(t & Ht & _)|(e & E)].
    + rewrite (delete_all_questions_run _ _ _ _ _ Ht). attempt_rows.
    + unfold TeacherServices.delete_all_questions_by_test_id.
      rewrite (bind_raise _ _ _ _ _ E). attempt_rows.
  - unfold attempt_row_ok. rewrite delete_all_tests_run. attempt_rows.
Qed.

Lemma handle_scored (c : Call) (w : World) :
  scored (w_db w) -> scored (w_db (handle s3_client like c w)).
Proof.
  intros H a Ha.
  destruct (handle_attempt_rows c w a Ha) as [Hin|[[Hs Hn]|[Hs Hn]]].
  - by apply H.
  - rewrite Hs, Hn. split; [discriminate|done].
  - rewrite Hs. by split.
Qed.

Lemma handle_all_scored (cs : list Call) (w : World) :
  scored (w_db w) -> scored (w_db (handle_all s3_client like cs w)).
Proof.
  revert w. induction cs as [|c cs IH]; intros w H; simpl; [done|].
  apply IH. by apply handle_scored.
Qed.

End Scored.

Lemma filter_status_partition (l : list TestAttempt) :
  (length (List.filter (fun a => TestAttemptStatus_eqb (status a) COMPLETED) l)
   + length (List.filter (fun a => TestAttemptStatus_eqb (status a) IN_PROGRESS) l)
   = length l)%nat.
Proof.
  induction l as [|a l IH]; simpl; [done|].
  destruct (status a); simpl; lia.
Qed.

Lemma omap_score_nil (l : list TestAttempt) :
  (forall a, In a l -> score a <> None) -> omap score l = [] -> l = [].
Proof.
  destruct l as [|a l]; [done|]. intros H. simpl.
  destruct (score a) eqn:E; [done|]. destruct (H a); [by left|done].
Qed.

Lemma func_avg_None (xs : list float) : func_avg xs = None <-> xs = [].
Proof. by destruct xs. Qed.

Lemma get_student_stats_run (sid : Z) (w : World) :
  let rows := attempts_of (w_db w) sid in
  let completed :=
    List.filter (fun a => TestAttemptStatus_eqb (status a) COMPLETED) rows in
  StudentServices.get_student_stats sid w
  = (Ok (mkStudentStatsOut
           (Z.of_nat (length completed))
           (func_avg (omap score completed))
           (Z.of_nat (length (active_attempts (w_db w) sid)))),
     w).
Proof.
  intros rows completed.
  assert (E : active_attempts (w_db w) sid
              = List.filter (fun a => TestAttemptStatus_eqb (status a) IN_PROGRESS) rows).
  { unfold active_attempts, rows, attempts_of. symmetry. apply filter_and. }
  rewrite E.
  unfold StudentServices.get_student_stats, StudentRepository.get_student_stats. by run.
Qed.

(** X1. The statistics of a student, in whatever store the endpoints can
    produce: the call answers and changes nothing; every attempt of the
    student is counted once, as completed or as in progress; at most one is
    in progress; and the average is missing exactly when no attempt is
    completed. *)
Theorem student_stats_of_reachable_store
    (c : S3.S3Client) (like : string -> string -> bool) (cs : list Call) (sid : Z) :
  let w := handle_all c like cs empty_world in
  exists out,
    StudentServices.get_student_stats sid w = (Ok out, w)
    /\ total_tests_completed out + in_progress_count out
       = Z.of_nat (length (attempts_of (w_db w) sid))
    /\ 0 <= in_progress_count out <= 1
    /\ (average_score out = None <-> total_tests_completed out = 0).
Proof.
  intros w.
  assert (Hc : consistent (w_db w)) by apply handle_all_consistent, empty_consistent.
  assert (Hs : scored (w_db w)).
  { apply handle_all_scored. by intros a []. }
  eexists. split; [apply get_student_stats_run|]. simpl.
  pose proof (filter_status_partition (attempts_of (w_db w) sid)) as Hp.
  pose proof (cons_single_active _ Hc sid) as H1.
  assert (Ha : List.filter (fun a => TestAttemptStatus_eqb (status a) IN_PROGRESS)
                 (attempts_of (w_db w) sid) = active_attempts (w_db w) sid).
  { unfold attempts_of, active_attempts. apply filter_and. }
  rewrite Ha in Hp.
  split; [lia|]. split; [lia|].
  rewrite func_avg_None. split.
  - intros E. apply omap_score_nil in E; [by rewrite E|].
    intros a Hin. apply filter_In in Hin as [Hin Hst].
    apply filter_In in Hin as [Hin _].
    apply (Hs a Hin). by destruct (status a).
  - intros E. destruct (List.filter _ (attempts_of (w_db w) sid)); [done|].
    simpl in E. lia.
Qed.

Lemma filter_update_one {A} (key : A -> uuid) (f : A -> bool) (u : A -> A)
    (l : list A) (a : A) :
  NoDup (map key l) -> In a l ->
  Z.of_nat (length (List.filter f
              (map (fun x => if N.eqb (key x) (key a) then u x else x) l)))
  = Z.of_nat (length (List.filter f l)) - Z.b2z (f a) + Z.b2z (f (u a)).
Proof.
  induction l as [|x l IH]; simpl; [done|].
  intros Hnd Hin. pose proof (NoDup_cons_1_1 _ _ Hnd) as Hx.
  pose proof (NoDup_cons_1_2 _ _ Hnd) as Hl.
  destruct Hin as [->|Hin].
  - rewrite N.eqb_refl.
    rewrite map_update_id.
    + destruct (f a), (f (u a)); simpl length; simpl Z.b2z; lia.
    + intros y Hy. apply N.eqb_neq. intros E. apply Hx. rewrite <- E.
      apply list_elem_of_In. by apply in_map.
  - destruct (N.eqb_spec (key x) (key a)) as [E|E].
    + exfalso. apply Hx. rewrite E. apply list_elem_of_In. by apply in_map.
    + specialize (IH Hl Hin). destruct (f x); simpl length; lia.
Qed.

(** X2. What finishing an attempt does to the statistics: the student of
    the attempt has one completed attempt more and one attempt in progress
    less, and the statistics of every other student are what they were. *)
Theorem finish_test_moves_statistics (w : World) (aid : uuid) (a : TestAttempt) (sid : Z) :
  integrity (w_db w) ->
  In a (test_attempts (w_db w)) -> attempt_id a = aid -> status a = IN_PROGRESS ->
  let w' := snd (finish_test aid w) in
  exists before after,
    StudentServices.get_student_stats sid w = (Ok before, w)
    /\ StudentServices.get_student_stats sid w' = (Ok after, w')
    /\ (sid = student_id a ->
        total_tests_completed after = total_tests_completed before + 1
        /\ in_progress_count after = in_progress_count before - 1)
    /\ (sid <> student_id a -> after = before).
Proof.
  intros Hint Ha Eaid Hst w'. subst w'.
  rewrite (finish_test_run w aid a Hint Ha Eaid Hst). simpl snd.
  eexists _, _. split; [apply get_student_stats_run|].
  split; [apply get_student_stats_run|]. simpl.
  set (sc := score_percentage _ _).
  set (upd := fun a0 : TestAttempt =>
         mkTestAttempt (attempt_id a0) (student_id a0) (ta_test_id a0) COMPLETED (Some sc)).
  pose proof (pk_test_attempts _ Hint) as Hpk. unfold pk in Hpk.
  split.
  - intros ->. subst aid. unfold attempts_of, active_attempts, completed. simpl.
    rewrite !(filter_and _ _ (map _ _)), !(filter_and _ _ (test_attempts (w_db w))).
    fold upd.
    rewrite (filter_update_one attempt_id _ upd _ a Hpk Ha).
    rewrite (filter_update_one attempt_id _ upd _ a Hpk Ha).
    unfold is_active_of. simpl. rewrite Hst, Z.eqb_refl. simpl. lia.
  - intros Hne.
    assert (Hrows : attempts_of (completed (w_db w) aid sc) sid = attempts_of (w_db w) sid).
    { unfold attempts_of, completed. simpl. apply filter_update_other; [done|].
      intros x Hx Ex. apply Z.eqb_eq in Ex. apply N.eqb_neq. intros E.
      apply Hne. rewrite <- Ex. f_equal.
      apply (pk_inj attempt_id (test_attempts (w_db w))); [done|done|done|congruence]. }
    assert (Hact : active_attempts (completed (w_db w) aid sc) sid
                   = active_attempts (w_db w) sid).
    { assert (E : forall d0, active_attempts d0 sid
                  = List.filter (fun a => TestAttemptStatus_eqb (status a) IN_PROGRESS)
                      (attempts_of d0 sid)).
      { intros d0. unfold active_attempts, attempts_of. symmetry. apply filter_and. }
      by rewrite !E, Hrows. }
    by rewrite Hrows, Hact.
Qed.

Lemma finish_test_moves_statistics_witness :
  let w' := snd (finish_test 50%N quiz) in
  exists before after,
    StudentServices.get_student_stats 3 quiz = (Ok before, quiz)
    /\ StudentServices.get_student_stats 3 w' = (Ok after, w')
    /\ (3 = student_id (mkTestAttempt 50%N 3 1%N IN_PROGRESS None) ->
        total_tests_completed after = total_tests_completed before + 1
        /\ in_progress_count after = in_progress_count before - 1)
    /\ (3 <> student_id (mkTestAttempt 50%N 3 1%N IN_PROGRESS None) -> after = before).
Proof.
  apply (finish_test_moves_statistics quiz 50%N
           (mkTestAttempt 50%N 3 1%N IN_PROGRESS None) 3).
  - apply quiz_integrity.
  - vm_compute. left. reflexivity.
  - reflexivity.
  - reflexivity.
Defined.

(** ** Starting a test *)

Lemma start_test_run (w : World) (new_id : uuid) (sid : Z) (tid : uuid) (t : Test) :
  active_attempts (w_db w) sid = [] ->
  (forall a, In a (test_attempts (w_db w)) -> attempt_id a <> new_id) ->
  List.filter
    (fun t => N.eqb (test_id t) tid && TestStatus_eqb (test_status t) PUBLISHED)
    (tests (w_db w)) = [t] ->
  start_test new_id sid tid w
  = (Ok (mkTestAttempt new_id sid tid IN_PROGRESS None),
     mkWorld
       (set_test_attempts (w_db w)
          (test_attempts (w_db w) ++ [mkTestAttempt new_id sid tid IN_PROGRESS None]))
       (w_log w ++ [Commit])).
Proof.
  intros Hact Hfresh Ht.
  unfold start_test, has_active_attempt, get_test_for_student_by_id, create_test_attempt.
  run. unfold active_attempts in Hact. rewrite (filter_nil_existsb _ _ Hact).
  rewrite Ht. simpl.
  rewrite (fresh_existsb attempt_id _ _ Hfresh).
  apply scalar_one in Ht as [Hin Ht]. apply andb_prop in Ht as [Ht _].
  rewrite (existsb_In _ _ t Hin Ht). reflexivity.
Qed.

(** X3. A student without an attempt in progress can start exactly the
    tests that [get_test_for_passing] hands out: where it returns the
    (PUBLISHED) test, [start_test] stores a new IN_PROGRESS attempt without a
    score and commits; where it raises, for a test that is missing, DRAFT or
    ARCHIVED, [start_test] raises the same exception and changes nothing. *)
Theorem start_test_opens_what_can_be_passed
    (w : World) (new_id : uuid) (sid : Z) (tid : uuid) :
  active_attempts (w_db w) sid = [] ->
  (forall a, In a (test_attempts (w_db w)) -> attempt_id a <> new_id) ->
  match get_test_for_passing tid w with
  | (Ok t, w1) =>
      w1 = w /\ In t (tests (w_db w)) /\ test_id t = tid /\ test_status t = PUBLISHED
      /\ start_test new_id sid tid w
         = (Ok (mkTestAttempt new_id sid tid IN_PROGRESS None),
            mkWorld
              (set_test_attempts (w_db w)
                 (test_attempts (w_db w)
                  ++ [mkTestAttempt new_id sid tid IN_PROGRESS None]))
              (w_log w ++ [Commit]))
  | (Raise e, w1) =>
      w1 = w /\ start_test new_id sid tid w = (Raise e, w)
  end.
Proof.
  intros Hact Hfresh.
  destruct (List.filter
              (fun t => N.eqb (test_id t) tid && TestStatus_eqb (test_status t) PUBLISHED)
              (tests (w_db w))) as [|t [|t' l]] eqn:Ht.
  - unfold get_test_for_passing, start_test, has_active_attempt,
      get_test_for_student_by_id.
    run. unfold active_attempts in Hact. rewrite (filter_nil_existsb _ _ Hact).
    by rewrite Ht.
  - rewrite (start_test_run w new_id sid tid t Hact Hfresh Ht).
    unfold get_test_for_passing, get_test_for_student_by_id. run. rewrite Ht. simpl.
    apply scalar_one in Ht as [Hin Ht]. apply andb_prop in Ht as [E1 E2].
    apply N.eqb_eq in E1. split; [done|]. split; [done|]. split; [done|].
    split; [by destruct (test_status t)|done].
  - unfold get_test_for_passing, start_test, has_active_attempt,
      get_test_for_student_by_id.
    run. unfold active_attempts in Hact. rewrite (filter_nil_existsb _ _ Hact).
    by rewrite Ht.
Qed.

Lemma start_test_opens_what_can_be_passed_witness :
  match get_test_for_passing 2%N quiz_finished with
  | (Ok t, w1) =>
      w1 = quiz_finished /\ In t (tests (w_db quiz_finished))
      /\ test_id t = 2%N /\ test_status t = PUBLISHED
      /\ start_test 51%N 3 2%N quiz_finished
         = (Ok (mkTestAttempt 51%N 3 2%N IN_PROGRESS None),
            mkWorld
              (set_test_attempts (w_db quiz_finished)
                 (test_attempts (w_db quiz_finished)
                  ++ [mkTestAttempt 51%N 3 2%N IN_PROGRESS None]))
              (w_log quiz_finished ++ [Commit]))
  | (Raise e, w1) =>
      w1 = quiz_finished /\ start_test 51%N 3 2%N quiz_finished = (Raise e, quiz_finished)
  end.
Proof.
  apply (start_test_opens_what_can_be_passed quiz_finished 51%N 3 2%N).
  - reflexivity.
  - intros a Hin. vm_compute in Hin. destruct Hin as [<-|[]]. discriminate.
Defined.

Lemma active_nil_after_finish (d : DB) (a : TestAttempt) (sc : float) :
  integrity d -> single_active_attempt d ->
  In a (test_attempts d) -> status a = IN_PROGRESS ->
  active_attempts (completed d (attempt_id a) sc) (student_id a) = [].
Proof.
  intros Hint Hone Ha Hst.
  pose proof (pk_test_attempts _ Hint) as Hpk. unfold pk in Hpk.
  pose proof (Hone (student_id a)) as H1.
  assert (Hin : In a (active_attempts d (student_id a))).
  { apply filter_In. split; [done|]. unfold is_active_of.
    by rewrite Z.eqb_refl, Hst. }
  apply length_zero_iff_nil, Nat2Z.inj.
  unfold active_attempts, completed. simpl.
  rewrite (filter_update_one attempt_id _
             (fun a0 => mkTestAttempt (attempt_id a0) (student_id a0) (ta_test_id a0)
                          COMPLETED (Some sc)) _ a Hpk Ha).
  unfold is_active_of at 2 3. simpl. rewrite Z.eqb_refl, Hst. simpl.
  unfold active_attempts in H1, Hin.
  destruct (List.filter (is_active_of (student_id a)) (test_attempts d)) as [|x l];
    [done|]. simpl in *. lia.
Qed.

(** X4. Finishing frees the student.  While an attempt is in progress its
    student cannot start any test; once [finish_test] has completed it (no
    student has two attempts in progress), the student has no attempt in
    progress left, and [start_test] on a published test succeeds again. *)
Theorem finish_test_frees_the_student
    (w : World) (aid : uuid) (a : TestAttempt) (new_id tid : uuid) (t : Test) :
  integrity (w_db w) -> single_active_attempt (w_db w) ->
  In a (test_attempts (w_db w)) -> attempt_id a = aid -> status a = IN_PROGRESS ->
  (forall x, In x (test_attempts (w_db w)) -> attempt_id x <> new_id) ->
  In t (tests (w_db w)) -> test_id t = tid -> test_status t = PUBLISHED ->
  let w' := snd (finish_test aid w) in
  start_test new_id (student_id a) tid w = (Raise ActiveTestAttemptExists, w)
  /\ active_attempts (w_db w') (student_id a) = []
  /\ exists w'',
       start_test new_id (student_id a) tid w'
       = (Ok (mkTestAttempt new_id (student_id a) tid IN_PROGRESS None), w'').
Proof.
  intros Hint Hone Ha Eaid Hst Hfresh Ht Etid Hpub w'. subst w'.
  rewrite (finish_test_run w aid a Hint Ha Eaid Hst). simpl snd. subst aid.
  split; [|split].
  - unfold start_test, has_active_attempt. run.
    rewrite (existsb_In _ _ a Ha); [done|].
    unfold is_active_of. by rewrite Z.eqb_refl, Hst.
  - by apply active_nil_after_finish.
  - eexists. apply (start_test_run _ _ _ _ t).
    + by apply active_nil_after_finish.
    + simpl. intros x Hx. apply in_map_iff in Hx as (x0 & <- & Hx0).
      specialize (Hfresh x0 Hx0). by destruct (N.eqb _ _).
    + simpl. rewrite <- Etid.
      rewrite <- (filter_key_unique test_id (tests (w_db w)) t (pk_tests _ Hint) Ht).
      apply filter_ext_in. intros x Hx.
      destruct (N.eqb_spec (test_id x) (test_id t)) as [E|E]; [|done]. simpl.
      assert (x = t) as ->
        by (apply (pk_inj test_id (tests (w_db w))); [apply Hint|done|done|done]).
      by rewrite Hpub.
Qed.

Lemma finish_test_frees_the_student_witness :
  let w' := snd (finish_test 50%N quiz) in
  start_test 51%N 3 2%N quiz = (Raise ActiveTestAttemptExists, quiz)
  /\ active_attempts (w_db w') 3 = []
  /\ exists w'',
       start_test 51%N 3 2%N w' = (Ok (mkTestAttempt 51%N 3 2%N IN_PROGRESS None), w'').
Proof.
  apply (finish_test_frees_the_student quiz 50%N
           (mkTestAttempt 50%N 3 1%N IN_PROGRESS None) 51%N 2%N
           (mkTest 2%N 7 "Geometry" None None PUBLISHED)).
  - apply quiz_integrity.
  - intros s. unfold active_attempts. simpl.
    destruct (is_active_of s _); simpl; lia.
  - vm_compute. left. reflexivity.
  - reflexivity.
  - reflexivity.
  - intros x Hin. vm_compute in Hin. destruct Hin as [<-|[]]. discriminate.
  - vm_compute. right. left. reflexivity.
  - reflexivity.
  - reflexivity.
Defined.

(** ** The status of the test during an attempt *)

Lemma find_map_key {A} (key : A -> uuid) (f : A -> A) (l : list A) (id : uuid) :
  (forall x, key (f x) = key x) ->
  List.find (fun x => N.eqb (key x) id) (map f l)
  = option_map f (List.find (fun x => N.eqb (key x) id) l).
Proof.
  intros Hf. induction l as [|x l IH]; simpl; [done|].
  rewrite Hf. by destruct (N.eqb (key x) id).
Qed.

Lemma update_test_status_db (tid : uuid) (st : TestStatus) (tch : Z) (w : World) :
  exists f, (forall t, test_id (f t) = test_id t)
            /\ w_db (snd (TeacherServices.update_test_status tid st tch w))
               = set_tests (w_db w) (map f (tests (w_db w))).
Proof.
  exists (fun t => if TeacherRepository.owned tid tch t
                   then mkTest (test_id t) (teacher_id t) (title t) (description t)
                          (test_image_url t) st
                   else t).
  split; [intros t; by destruct (TeacherRepository.owned tid tch t)|].
  unfold TeacherServices.update_test_status, TeacherRepository.update_test_status.
  run. repeat case_match; simplify_eq; simpl; reflexivity.
Qed.

Lemma correct_answer_points_set_tests (d : DB) (ts : list Test)
    (answers : list StudentAnswer) :
  correct_answer_points (set_tests d ts) answers = correct_answer_points d answers.
Proof.
  induction answers as [|s l IH]; simpl; [done|]. by rewrite IH.
Qed.

Lemma finish_test_ignores_tests (d : DB) (f : Test -> Test) (l l' : list Event)
    (aid : uuid) :
  (forall t, test_id (f t) = test_id t) ->
  fst (finish_test aid (mkWorld (set_tests d (map f (tests d))) l'))
  = fst (finish_test aid (mkWorld d l)).
Proof.
  intros Hf.
  unfold finish_test, get_attempt_with_results, update_test_attempt, attempt_test,
    test_questions, attempt_student_answers.
  run.
  destruct (List.filter _ (test_attempts d)) as [|a [|a' rest]]; simpl; try done.
  destruct (status a); [|done]. simpl.
  rewrite find_map_key by done.
  destruct (List.find _ (tests d)) as [t|]; simpl; [|done].
  rewrite Hf, correct_answer_points_set_tests.
  repeat case_match; simpl in *; simplify_eq; try done; congruence.
Qed.

Lemma submit_answer_ignores_tests (d : DB) (f : Test -> Test) (l l' : list Event)
    (new_id aid : uuid) (answer_data : StudentAnswerIn) :
  (forall t, test_id (f t) = test_id t) ->
  fst (submit_answer new_id aid answer_data (mkWorld (set_tests d (map f (tests d))) l'))
  = fst (submit_answer new_id aid answer_data (mkWorld d l)).
Proof.
  intros Hf.
  unfold submit_answer, get_attempt_with_results, get_correct_answers_for_question,
    save_student_answer, attempt_test, test_questions.
  run.
  destruct (List.filter _ (test_attempts d)) as [|a [|a' rest]]; simpl; try done.
  destruct (status a); [|done]. simpl.
  rewrite find_map_key by done.
  destruct (List.find _ (tests d)) as [t|]; simpl; [|done].
  rewrite Hf.
  repeat case_match; simpl in *; simplify_eq; try done; congruence.
Qed.

(** X5. The status of a test is read when an attempt is started and never
    again: whatever [update_test_status] does to whatever test (publish it,
    archive it, by its owner or not), [finish_test] and [submit_answer]
    answer afterwards what they would have answered before.  An attempt
    on a test that has been archived is answered and scored as usual. *)
Theorem test_status_is_not_consulted_after_start
    (w : World) (tid : uuid) (st : TestStatus) (tch : Z)
    (new_id aid : uuid) (answer_data : StudentAnswerIn) :
  let w' := snd (TeacherServices.update_test_status tid st tch w) in
  fst (finish_test aid w') = fst (finish_test aid w)
  /\ fst (submit_answer new_id aid answer_data w')
     = fst (submit_answer new_id aid answer_data w).
Proof.
  intros w'.
  destruct (update_test_status_db tid st tch w) as (f & Hf & E).
  fold w' in E. clearbody w'. destruct w' as [d' l']. simpl in E. subst d'.
  destruct w as [d l]. simpl.
  split.
  - by apply finish_test_ignores_tests.
  - by apply submit_answer_ignores_tests.
Qed.

(** ** Bounds of the result *)

Lemma sum_map_between {A} (sel : A -> bool) (f : A -> Z) (l : list A) :
  (forall x, In x l -> 0 <= f x) ->
  0 <= sum (map (fun x => if sel x then f x else 0) l) <= sum (map f l).
Proof.
  induction l as [|x l IH]; intros H; simpl; [lia|].
  specialize (IH (fun y Hy => H y (or_intror Hy))).
  pose proof (H x (or_introl eq_refl)).
  destruct (sel x); lia.
Qed.

(** X6. When no question carries negative points, the earned points that
    [finish_test] reports lie between 0 and the total possible points of
    the test. *)
Theorem earned_points_within_total (w : World) (aid : uuid) (a : TestAttempt) :
  let d := w_db w in
  integrity d -> one_answer_per_pair d -> answers_within_test d ->
  In a (test_attempts d) -> attempt_id a = aid -> status a = IN_PROGRESS ->
  (forall q, In q (questions d) -> 0 <= points q) ->
  exists res w',
    finish_test aid w = (Ok res, w')
    /\ 0 <= earned_points res <= total_possible_points res.
Proof.
  intros d Hint Hone Hwithin Ha Eaid Hst Hpos.
  eexists _, _. split; [by apply (finish_test_run w aid a)|]. simpl.
  subst aid. fold d. rewrite (earned_by_question d a Hint Hone Hwithin Ha).
  unfold total_points. apply sum_map_between.
  intros q Hq. apply filter_In in Hq as [Hq _]. by apply Hpos.
Qed.

Lemma quiz_within_test : answers_within_test (w_db quiz).
Proof. apply answers_within_testb_sound. vm_compute. reflexivity. Qed.

Lemma earned_points_within_total_witness :
  exists res w',
    finish_test 50%N quiz = (Ok res, w')
    /\ 0 <= earned_points res <= total_possible_points res.
Proof.
  apply (earned_points_within_total quiz 50%N (mkTestAttempt 50%N 3 1%N IN_PROGRESS None)).
  - apply quiz_integrity.
  - apply quiz_one_answer_per_pair.
  - apply quiz_within_test.
  - vm_compute. left. reflexivity.
  - reflexivity.
  - reflexivity.
  - intros q Hq. vm_compute in Hq.
    repeat (destruct Hq as [<-|Hq]; [vm_compute; discriminate|]). destruct Hq.
Defined.

(** ** Tests of another teacher *)

Lemma not_owned_filter (d : DB) (tid : uuid) (tch : Z) :
  (forall t, In t (tests d) -> test_id t = tid -> teacher_id t <> tch) ->
  List.filter (TeacherRepository.owned tid tch) (tests d) = [].
Proof.
  intros H. apply existsb_false_filter.
  destruct (existsb _ _) eqn:E; [|done].
  apply existsb_exists in E as (t & Ht & E). apply andb_prop in E as [E1 E2].
  apply N.eqb_eq in E1. apply Z.eqb_eq in E2. by destruct (H t Ht E1).
Qed.

Lemma set_tests_same (d : DB) : set_tests d (tests d) = d.
Proof. by destruct d. Qed.

(** X7. A teacher who does not own the test with the given id is refused
    by every operation on it, with [NotFoundUuid("Test")], as if the test
    did not exist: nothing is read out, no row is written or deleted and
    no image is deleted from the object store.  ([update_test_status]
    commits its empty UPDATE before it raises.) *)
Theorem foreign_teacher_is_refused
    (c : S3.S3Client) (w : World) (tid qid : uuid) (tch : Z) (st : TestStatus)
    (new_qid : uuid) (new_oid : nat -> uuid) (question_data : Schemas.QuestionCreate) :
  (forall t, In t (tests (w_db w)) -> test_id t = tid -> teacher_id t <> tch) ->
  TeacherServices.get_test_by_id tid tch w = (Raise (NotFoundUuid "Test" tid), w)
  /\ TeacherServices.delete_test c tid tch w = (Raise (NotFoundUuid "Test" tid), w)
  /\ TeacherServices.create_question_with_answers new_qid new_oid tid question_data tch w
     = (Raise (NotFoundUuid "Test" tid), w)
  /\ TeacherServices.get_question_by_id tid qid tch w
     = (Raise (NotFoundUuid "Test" tid), w)
  /\ TeacherServices.delete_question c tid qid tch w
     = (Raise (NotFoundUuid "Test" tid), w)
  /\ TeacherServices.delete_all_questions_by_test_id c tid tch w
     = (Raise (NotFoundUuid "Test" tid), w)
  /\ TeacherServices.update_test_status tid st tch w
     = (Raise (NotFoundUuid "Test" tid), mkWorld (w_db w) (w_log w ++ [Commit])).
Proof.
  intros H. apply not_owned_filter in H.
  pose proof (get_test_by_id_missing tid tch w H) as Hget.
  assert (Hq : TeacherServices.get_question_by_id tid qid tch w
               = (Raise (NotFoundUuid "Test" tid), w)).
  { unfold TeacherServices.get_question_by_id. by rewrite (bind_raise _ _ _ _ _ Hget). }
  split; [done|].
  split; [unfold TeacherServices.delete_test; by rewrite (bind_raise _ _ _ _ _ Hget)|].
  split; [unfold TeacherServices.create_question_with_answers;
          by rewrite (bind_raise _ _ _ _ _ Hget)|].
  split; [done|].
  split; [unfold TeacherServices.delete_question; by rewrite (bind_raise _ _ _ _ _ Hq)|].
  split; [unfold TeacherServices.delete_all_questions_by_test_id;
          by rewrite (bind_raise _ _ _ _ _ Hget)|].
  unfold TeacherServices.update_test_status, TeacherRepository.update_test_status.
  run. rewrite H. simpl. rewrite map_update_id.
  - by rewrite set_tests_same.
  - intros t Ht. destruct (TeacherRepository.owned tid tch t) eqn:E; [|done].
    assert (Hin : In t (List.filter (TeacherRepository.owned tid tch) (tests (w_db w))))
      by (by apply filter_In).
    by rewrite H in Hin.
Qed.

Lemma foreign_teacher_is_refused_witness :
  TeacherServices.get_test_by_id 1%N 8 quiz = (Raise (NotFoundUuid "Test" 1%N), quiz)
  /\ TeacherServices.delete_test edu 1%N 8 quiz = (Raise (NotFoundUuid "Test" 1%N), quiz)
  /\ TeacherServices.create_question_with_answers 13%N (fun _ => 130%N) 1%N
       (Schemas.mkQuestionCreate "fourth" None None None []) 8 quiz
     = (Raise (NotFoundUuid "Test" 1%N), quiz)
  /\ TeacherServices.get_question_by_id 1%N 10%N 8 quiz
     = (Raise (NotFoundUuid "Test" 1%N), quiz)
  /\ TeacherServices.delete_question edu 1%N 10%N 8 quiz
     = (Raise (NotFoundUuid "Test" 1%N), quiz)
  /\ TeacherServices.delete_all_questions_by_test_id edu 1%N 8 quiz
     = (Raise (NotFoundUuid "Test" 1%N), quiz)
  /\ TeacherServices.update_test_status 1%N ARCHIVED 8 quiz
     = (Raise (NotFoundUuid "Test" 1%N), mkWorld (w_db quiz) (w_log quiz ++ [Commit])).
Proof.
  apply (foreign_teacher_is_refused edu quiz 1%N 10%N 8 ARCHIVED 13%N (fun _ => 130%N)
           (Schemas.mkQuestionCreate "fourth" None None None [])).
  intros t Hin _. vm_compute in Hin.
  repeat (destruct Hin as [<-|Hin]; [vm_compute; discriminate|]). destruct Hin.
Defined.

(** ** What deleting a question removes *)


Lemma owned_filter (d : DB) (tid : uuid) (tch : Z) (t : Test) :
  pk test_id (tests d) ->
  In t (tests d) -> test_id t = tid -> teacher_id t = tch ->
  List.filter (TeacherRepository.owned tid tch) (tests d) = [t].
Proof.
  intros Hpk Ht Eid Etch.
  rewrite <- (filter_key_unique test_id (tests d) t Hpk Ht).
  apply filter_ext_in. intros x Hx. unfold TeacherRepository.owned. rewrite Eid.
  destruct (N.eqb_spec (test_id x) tid) as [E|E]; [|done]. simpl.
  assert (x = t) as -> by (apply (pk_inj test_id (tests d)); [done..|congruence]).
  by apply Z.eqb_eq.
Qed.




(** ** A test without questions *)

(** X9. The edge of the score formula: when the owner deletes all
    questions of a test while an attempt on it is in progress, the answers
    given so far go with the questions, and [finish_test] completes the
    attempt with 0 earned points out of 0 possible points and the score 0;
    nothing is divided.  The message reports how many questions were
    deleted. *)
Theorem finish_test_after_all_questions_deleted
    (c : S3.S3Client) (w : World) (tid : uuid) (tch : Z) (t : Test)
    (aid : uuid) (a : TestAttempt) :
  let d := w_db w in
  integrity d -> answers_within_test d ->
  In t (tests d) -> test_id t = tid -> teacher_id t = tch ->
  In a (test_attempts d) -> attempt_id a = aid -> ta_test_id a = tid ->
  status a = IN_PROGRESS ->
  exists w1 w2,
    TeacherServices.delete_all_questions_by_test_id c tid tch w
    = (Ok ("Successfully deleted "
           ++ pretty (Z.of_nat (length (test_questions d t))) ++ " questions.")%string,
       w1)
    /\ test_questions (w_db w1) t = []
    /\ attempt_student_answers (w_db w1) a = []
    /\ finish_test aid w1
       = (Ok (mkTestResultOut aid tid COMPLETED (float_of_Z 0) 0 0), w2).
Proof.
  intros d Hint Hwithin Ht Etid Etch Ha Eaid Eat Hst.
  pose proof (owned_filter d tid tch t (pk_tests _ Hint) Ht Etid Etch) as Fo.
  eexists _, _. split; [by apply (delete_all_questions_run c tid tch w t)|].
  set (d1 := TeacherRepository.cascade_delete_questions
               (fun q => N.eqb (q_test_id q) tid) d).
  assert (Hq : List.filter (fun q => N.eqb (q_test_id q) tid) (questions d1) = []).
  { unfold d1, TeacherRepository.cascade_delete_questions. simpl.
    apply (filter_negb_none (fun q => N.eqb (q_test_id q) tid)). }
  assert (Hs : List.filter (fun s => N.eqb (sa_attempt_id s) aid) (student_answers d1) = []).
  { apply existsb_false_filter. destruct (existsb _ _) eqn:E; [|done].
    apply existsb_exists in E as (s & Hs & E). apply N.eqb_eq in E.
    unfold d1, TeacherRepository.cascade_delete_questions in Hs. simpl in Hs.
    apply filter_In in Hs as [Hs Hkeep].
    destruct (fk_answer_question _ Hint s Hs) as (q & Hq0 & Eq0).
    assert (Etest : q_test_id q = tid).
    { rewrite <- Eat. apply (Hwithin s a q); try done. congruence. }
    rewrite (gone_by_key question_id _ (questions d) q (sa_question_id s)) in Hkeep;
      [done|done| |done].
    by apply N.eqb_eq. }
  split; [|split].
  - simpl. fold d d1. unfold test_questions. by rewrite Etid.
  - simpl. fold d d1. unfold attempt_student_answers. by rewrite Eaid.
  - simpl snd. fold d d1.
    rewrite (finish_test_run _ aid a); simpl; fold d d1.
    + unfold total_points, earned. rewrite Eat, Hq, Hs. simpl sum.
      unfold score_percentage. simpl. reflexivity.
    + by apply cascade_questions_integrity.
    + done.
    + done.
    + done.
Qed.

Lemma finish_test_after_all_questions_deleted_witness :
  exists w1 w2,
    TeacherServices.delete_all_questions_by_test_id edu 1%N 7 quiz
    = (Ok ("Successfully deleted "
           ++ pretty (Z.of_nat (length (test_questions (w_db quiz)
                                          (mkTest 1%N 7 "Algebra" None None PUBLISHED))))
           ++ " questions.")%string,
       w1)
    /\ test_questions (w_db w1) (mkTest 1%N 7 "Algebra" None None PUBLISHED) = []
    /\ attempt_student_answers (w_db w1) (mkTestAttempt 50%N 3 1%N IN_PROGRESS None) = []
    /\ finish_test 50%N w1
       = (Ok (mkTestResultOut 50%N 1%N COMPLETED (float_of_Z 0) 0 0), w2).
Proof.
  apply (finish_test_after_all_questions_deleted edu quiz 1%N 7
           (mkTest 1%N 7 "Algebra" None None PUBLISHED) 50%N
           (mkTestAttempt 50%N 3 1%N IN_PROGRESS None)).
  - apply quiz_integrity.
  - apply quiz_within_test.
  - vm_compute. left. reflexivity.
  - reflexivity.
  - reflexivity.
  - vm_compute. left. reflexivity.
  - reflexivity.
  - reflexivity.
  - reflexivity.
Defined.

(** ** What deleting all tests of a teacher spares *)

Lemma existsb_gone_false {A} (key : A -> uuid) (gone : A -> bool) (l : list A)
    (id : uuid) :
  (forall x, In x l -> key x = id -> gone x = false) ->
  existsb (fun z => N.eqb (key z) id) (List.filter gone l) = false.
Proof.
  intros H. destruct (existsb _ _) eqn:E; [|done].
  apply existsb_exists in E as (x & Hx & E). apply N.eqb_eq in E.
  apply filter_In in Hx as [Hx G]. by rewrite (H x Hx E) in G.
Qed.







(** ** Every store the endpoints can produce *)

(** X11. Whatever calls are handled, one after the other, from the empty
    store (the requests of the engine and the three deletions of questions
    and tests, in any order, succeeding or refused): every primary key is
    unique and every reference points at a row, so no question, option,
    attempt, answer or chosen option outlives what it belongs to; every
    answer is to a question of the test of its attempt; and an attempt has
    a score exactly when it is COMPLETED. *)
Theorem reachable_store_is_sound
    (c : S3.S3Client) (like : string -> string -> bool) (cs : list Call) :
  let d := w_db (handle_all c like cs empty_world) in
  integrity d /\ answers_within_test d /\ scored d.
Proof.
  intros d.
  assert (Hc : consistent d) by apply handle_all_consistent, empty_consistent.
  split; [apply Hc|]. split; [apply Hc|].
  apply handle_all_scored. by intros a [].
Qed.

(** ** Listing tests *)





(** ** The analytics report *)

Lemma get_test_analytics_run (like : string -> string -> bool) (tid : uuid) (tch : Z)
    (search_query : option string) (w : World) :
  let d := w_db w in
  let rows := TeacherRepository.analytics_join like d tid tch search_query in
  let attempts := TeacherRepository.completed_attempts d tid tch in
  TeacherServices.get_test_analytics like tid tch search_query w
  = (Ok (if Z.of_nat (length attempts) =? 0
         then TeacherServices.mkTestAnalyticsOut 0 None []
         else TeacherServices.mkTestAnalyticsOut
                (Z.of_nat (length attempts))
                (TeacherRepository.avg (omap score attempts))
                (map (fun q => TeacherServices.mkQuestionAnalyticsOut
                                 (question_id q) (question_text q)
                                 (snd (TeacherRepository.question_row rows q)))
                   (TeacherRepository.sort_by_order order
                      (TeacherRepository.group_keys rows)))),
     w).
Proof.
  unfold TeacherServices.get_test_analytics, TeacherRepository.get_test_analytics_data.
  run. destruct (_ =? 0); simpl; [done|]. by rewrite map_map.
Qed.

Lemma completed_attempts_In (d : DB) (tid : uuid) (tch : Z) (ta : TestAttempt) :
  In ta (TeacherRepository.completed_attempts d tid tch) ->
  In ta (test_attempts d) /\ ta_test_id ta = tid /\ status ta = COMPLETED
  /\ exists t, In t (tests d) /\ test_id t = tid /\ teacher_id t = tch.
Proof.
  unfold TeacherRepository.completed_attempts. intros H.
  apply in_flat_map in H as (ta' & Hta & H).
  apply in_flat_map in H as (t & Ht & H).
  destruct (_ && _) eqn:E in H; [|done]. destruct H as [->|[]].
  repeat (apply andb_prop in E as [E ?]).
  repeat match goal with H : N.eqb _ _ = true |- _ => apply N.eqb_eq in H end.
  split; [done|]. split; [congruence|]. split; [by destruct (status ta)|].
  exists t. split; [done|]. split; [done|]. by apply Z.eqb_eq.
Qed.

(** X13. The report of a test without results.  When the teacher owns no
    test with the given id, or no attempt on it is COMPLETED,
    [get_test_analytics] raises nothing: it answers 0 attempts, no average
    and no question rows, and changes nothing. *)
Theorem analytics_of_a_test_without_results
    (like : string -> string -> bool) (w : World) (tid : uuid) (tch : Z)
    (search_query : option string) :
  (forall t a, In t (tests (w_db w)) -> test_id t = tid -> teacher_id t = tch ->
               In a (test_attempts (w_db w)) -> ta_test_id a = tid ->
               status a = IN_PROGRESS) ->
  TeacherServices.get_test_analytics like tid tch search_query w
  = (Ok (TeacherServices.mkTestAnalyticsOut 0 None []), w).
Proof.
  intros H. rewrite get_test_analytics_run.
  destruct (TeacherRepository.completed_attempts (w_db w) tid tch) as [|ta l] eqn:E;
    [done|].
  assert (Hin : In ta (TeacherRepository.completed_attempts (w_db w) tid tch))
    by (rewrite E; by left).
  apply completed_attempts_In in Hin as (Hta & Et & Hst & t & Ht & Etid & Etch).
  by rewrite (H t ta Ht Etid Etch Hta Et) in Hst.
Qed.

Lemma analytics_of_a_test_without_results_witness :
  TeacherServices.get_test_analytics (fun _ _ => true) 1%N 7 None quiz
  = (Ok (TeacherServices.mkTestAnalyticsOut 0 None []), quiz)
  /\ TeacherServices.get_test_analytics (fun _ _ => true) 1%N 8 None quiz_finished
     = (Ok (TeacherServices.mkTestAnalyticsOut 0 None []), quiz_finished).
Proof.
  split.
  - apply (analytics_of_a_test_without_results (fun _ _ => true) quiz 1%N 7 None).
    intros t a _ _ _ Ha _. vm_compute in Ha. by destruct Ha as [<-|[]].
  - apply (analytics_of_a_test_without_results (fun _ _ => true) quiz_finished 1%N 8 None).
    intros t a Ht Et Etch _ _. vm_compute in Ht.
    repeat (destruct Ht as [<-|Ht]; [vm_compute in Etch; discriminate|]). destruct Ht.
Defined.

(** X14. Which questions the report has a row for (no text filter): a
    question id is reported exactly when some COMPLETED attempt on the test
    holds an answer to that question.  Questions nobody has answered are
    not listed. *)
Theorem analytics_reports_the_answered_questions
    (like : string -> string -> bool) (w : World) (tid : uuid) (tch : Z) (t : Test)
    (qid : uuid) :
  let d := w_db w in
  integrity d ->
  In t (tests d) -> test_id t = tid -> teacher_id t = tch ->
  exists out,
    TeacherServices.get_test_analytics like tid tch None w = (Ok out, w)
    /\ ((exists row, In row (TeacherServices.question_analytics out)
                     /\ TeacherServices.qa_question_id row = qid)
        <-> (exists sa ta,
               In sa (student_answers d) /\ In ta (test_attempts d)
               /\ sa_question_id sa = qid /\ sa_attempt_id sa = attempt_id ta
               /\ ta_test_id ta = tid /\ status ta = COMPLETED)).
Proof.
  intros d Hint Ht Etid Etch.
  eexists. split; [apply get_test_analytics_run|]. split.
  - intros (row & Hrow & Erow).
    destruct (reported_questions_have_answers like tid tch None w _ w row
                (get_test_analytics_run like tid tch None w) Hrow)
      as (sa & ta & H1 & H2 & H3 & H4 & H5 & H6).
    exists sa, ta. rewrite <- Erow. auto 10.
  - intros (sa & ta & Hsa & Hta & Eq & Ea & Et & Hst).
    destruct (fk_answer_question _ Hint sa Hsa) as (q & Hq & Eqq).
    destruct (answered_questions_are_reported like tid tch w t ta sa q
                Ht Etid Etch Hta Et Hst Hsa Ea Hq (eq_sym Eqq))
      as (out & row & Hout & Hrow & Erow).
    rewrite get_test_analytics_run in Hout. injection Hout as <-.
    exists row. split; [done|]. congruence.
Qed.

Lemma analytics_reports_the_answered_questions_witness :
  exists out,
    TeacherServices.get_test_analytics (fun _ _ => true) 1%N 7 None quiz_finished
    = (Ok out, quiz_finished)
    /\ ((exists row, In row (TeacherServices.question_analytics out)
                     /\ TeacherServices.qa_question_id row = 12%N)
        <-> (exists sa ta,
               In sa (student_answers (w_db quiz_finished))
               /\ In ta (test_attempts (w_db quiz_finished))
               /\ sa_question_id sa = 12%N /\ sa_attempt_id sa = attempt_id ta
               /\ ta_test_id ta = 1%N /\ status ta = COMPLETED)).
Proof.
  apply (analytics_reports_the_answered_questions (fun _ _ => true) quiz_finished 1%N 7
           (mkTest 1%N 7 "Algebra" None None PUBLISHED) 12%N).
  - apply quiz_finished_integrity.
  - vm_compute. left. reflexivity.
  - reflexivity.
  - reflexivity.
Defined.

Lemma insert_by_order_perm {A} (key : A -> option Z) (x : A) (l : list A) :
  Permutation (TeacherRepository.insert_by_order key x l) (x :: l).
Proof.
  induction l as [|y l IH]; simpl; [done|].
  destruct (TeacherRepository.order_le (key x) (key y)); [done|].
  rewrite IH. apply perm_swap.
Qed.

Lemma sort_by_order_perm {A} (key : A -> option Z) (l : list A) :
  Permutation (TeacherRepository.sort_by_order key l) l.
Proof.
  unfold TeacherRepository.sort_by_order.
  induction l as [|x l IH]; simpl; [done|].
  by rewrite insert_by_order_perm, IH.
Qed.

Lemma group_keys_NoDup (d : DB) (rows : list (StudentAnswer * Question)) :
  pk question_id (questions d) ->
  (forall sa q, In (sa, q) rows -> In q (questions d)) ->
  NoDup (map question_id (TeacherRepository.group_keys rows)).
Proof.
  intros Hpk. induction rows as [|[s q] rows IH]; intros Hin; simpl; [constructor|].
  assert (IH' : NoDup (map question_id (TeacherRepository.group_keys rows)))
    by (apply IH; intros sa q0 H0; apply (Hin sa q0); by right).
  constructor; [|by apply NoDup_map_filter].
  rewrite list_elem_of_In, in_map_iff. intros (k & Ek & Hk).
  apply filter_In in Hk as [Hk Hn].
  apply group_keys_In in Hk as (sa & Hk).
  assert (k = q) as ->.
  { apply (pk_inj question_id (questions d)); [done| | |done].
    - apply (Hin sa k). by right.
    - apply (Hin s q). by left. }
  unfold TeacherRepository.same_group in Hn.
  by rewrite N.eqb_refl, String.eqb_refl in Hn.
Qed.

(** X15. The shape of the per-question report: it has one row per
    reported question (no question id twice), every reported question is
    a question of the test, and the rows come by ascending display order,
    the questions without one last. *)
Theorem analytics_rows_one_per_question_in_order
    (like : string -> string -> bool) (w : World) (tid : uuid) (tch : Z)
    (search_query : option string) :
  let d := w_db w in
  integrity d -> answers_within_test d ->
  exists out qs,
    TeacherServices.get_test_analytics like tid tch search_query w = (Ok out, w)
    /\ map TeacherServices.qa_question_id (TeacherServices.question_analytics out)
       = map question_id qs
    /\ map TeacherServices.qa_question_text (TeacherServices.question_analytics out)
       = map question_text qs
    /\ (forall q, In q qs -> In q (questions d) /\ q_test_id q = tid)
    /\ NoDup (map question_id qs)
    /\ Sorted (fun a b => TeacherRepository.order_le (order a) (order b) = true) qs.
Proof.
  intros d Hint Hwithin.
  rewrite get_test_analytics_run. fold d.
  destruct (_ =? 0).
  - eexists. exists []. simpl. split; [done|]. split; [done|]. split; [done|].
    split; [done|]. split; constructor.
  - set (rows := TeacherRepository.analytics_join like d tid tch search_query).
    eexists.
    exists (TeacherRepository.sort_by_order order (TeacherRepository.group_keys rows)).
    split; [done|]. simpl. rewrite !map_map. simpl.
    split; [done|]. split; [done|].
    assert (Hrows : forall sa q, In (sa, q) rows -> In q (questions d) /\ q_test_id q = tid).
    { intros sa q H.
      apply analytics_join_In in H as (Hsa & Hq & Eq & ta & Hta & Ea & Et & _).
      split; [done|]. rewrite <- Et. apply (Hwithin sa ta q); try done; congruence. }
    split; [|split].
    + intros q Hq. apply sort_by_order_In, group_keys_In in Hq as (sa & Hq).
      by apply (Hrows sa).
    + rewrite (sort_by_order_perm order (TeacherRepository.group_keys rows)).
      apply (group_keys_NoDup d); [apply Hint|]. intros sa q H. by apply (Hrows sa).
    + apply sort_by_order_sorted.
Qed.

Lemma quiz_finished_within_test : answers_within_test (w_db quiz_finished).
Proof. apply answers_within_testb_sound. vm_compute. reflexivity. Qed.

Lemma analytics_rows_one_per_question_in_order_witness :
  let d := w_db quiz_finished in
  exists out qs,
    TeacherServices.get_test_analytics (fun _ _ => true) 1%N 7 None quiz_finished
    = (Ok out, quiz_finished)
    /\ map TeacherServices.qa_question_id (TeacherServices.question_analytics out)
       = map question_id qs
    /\ map TeacherServices.qa_question_text (TeacherServices.question_analytics out)
       = map question_text qs
    /\ (forall q, In q qs -> In q (questions d) /\ q_test_id q = 1%N)
    /\ NoDup (map question_id qs)
    /\ Sorted (fun a b => TeacherRepository.order_le (order a) (order b) = true) qs.
Proof.
  apply (analytics_rows_one_per_question_in_order (fun _ _ => true) quiz_finished 1%N 7 None).
  - apply quiz_finished_integrity.
  - apply quiz_finished_within_test.
Defined.

(** ** The title of a copy *)

Lemma string_length_app (a b : string) :
  String.length (a ++ b) = (String.length a + String.length b)%nat.
Proof. induction a as [|x a IH]; simpl; [done|]. by rewrite IH. Qed.

Lemma string_app_nil_r (a : string) : (a ++ "")%string = a.
Proof.
  induction a as [|x a IH]; [done|].
  change (String x (a ++ "")%string = String x a). by rewrite IH.
Qed.

Lemma string_app_inv_tail (a b c : string) : (a ++ c = b ++ c)%string -> a = b.
Proof.
  revert b. induction a as [|x a IH]; intros [|y b] H; simpl in *.
  - done.
  - apply (f_equal String.length) in H. simpl in H.
    rewrite ?string_length_app in H. simpl in H. lia.
  - apply (f_equal String.length) in H. simpl in H.
    rewrite ?string_length_app in H. simpl in H. lia.
  - injection H as -> H. f_equal. by apply IH.
Qed.

Lemma copy_title_inj (base_title : string) (i j : N) :
  TeacherServices.copy_title base_title i = TeacherServices.copy_title base_title j ->
  i = j.
Proof.
  unfold TeacherServices.copy_title. intros H.
  apply String.app_inj, String.app_inj, string_app_inv_tail in H.
  by apply (inj pretty) in H.
Qed.

Lemma existsb_eqb_In (x : string) (l : list string) :
  existsb (String.eqb x) l = true <-> In x l.
Proof.
  rewrite existsb_exists. split.
  - intros (y & Hy & E). apply String.eqb_eq in E. by subst.
  - intros H. exists x. split; [done|]. apply String.eqb_refl.
Qed.

Lemma remove_title_shorter (x : string) (l : list string) :
  In x l ->
  (length (List.filter (fun s => negb (String.eqb s x)) l) < length l)%nat.
Proof.
  induction l as [|y l IH]; simpl; [done|].
  intros [->|Hin].
  - rewrite String.eqb_refl. simpl.
    pose proof (filter_length_le (fun s => negb (String.eqb s x)) l). lia.
  - specialize (IH Hin). destruct (negb _); simpl; lia.
Qed.

(** The loop stops at the first copy number that is free; [l] holds the
    taken titles it can still meet. *)
Lemma copy_loop_stops (existing : list string) (base_title : string) (fuel : nat) :
  forall (i : N) (l : list string),
    (forall j, (i <= j)%N ->
               In (TeacherServices.copy_title base_title j) existing ->
               In (TeacherServices.copy_title base_title j) l) ->
    (length l < fuel)%nat ->
    exists k,
      (i <= k)%N
      /\ TeacherServices.copy_loop existing base_title i fuel
         = Some (TeacherServices.copy_title base_title k)
      /\ ~ In (TeacherServices.copy_title base_title k) existing
      /\ forall j, (i <= j < k)%N -> In (TeacherServices.copy_title base_title j) existing.
Proof.
  induction fuel as [|fuel IH]; intros i l Hl Hlen; [lia|]. simpl.
  destruct (existsb _ existing) eqn:E; simpl.
  - apply existsb_eqb_In in E.
    destruct (IH (i + 1)%N
                (List.filter
                   (fun s => negb (String.eqb s (TeacherServices.copy_title base_title i)))
                   l))
      as (k & Hk & Hloop & Hfree & Hbelow).
    + intros j Hj Hin. apply filter_In. split; [apply Hl; [lia|done]|].
      apply negb_true_iff, String.eqb_neq. intros Eq.
      apply copy_title_inj in Eq. lia.
    + pose proof (remove_title_shorter _ l (Hl i (N.le_refl i) E)). lia.
    + exists k. split; [lia|]. split; [done|]. split; [done|].
      intros j Hj. destruct (N.eq_dec j i) as [->|Hne]; [done|]. apply Hbelow. lia.
  - exists i. split; [lia|]. split; [done|]. split.
    + intros Hin. apply existsb_eqb_In in Hin. by rewrite Hin in E.
    + intros j Hj. lia.
Qed.

(** X16. [_generate_unique_title] always comes back, however many copies
    exist: with more rounds than the teacher has tests the loop reaches its
    [return].  The title it returns is none of the titles it has looked
    up.  It is the base title if that one is free, and otherwise the copy
    with the least number (counting from 1) that is free.  If the lookup
    pattern [base%] matches every title that begins with the base title,
    no test of the teacher carries the returned title. *)
Theorem generate_unique_title_finds_the_first_free_title
    (ilike : string -> string -> bool) (fuel : nat) (base_title : string) (tch : Z)
    (w : World) :
  let d := w_db w in
  let existing_titles :=
    map title
      (List.filter
         (fun t => Z.eqb (teacher_id t) tch
                   && ilike (base_title ++ "%")%string (title t))
         (tests d)) in
  (length (tests d) < fuel)%nat ->
  exists new_title,
    TeacherServices._generate_unique_title ilike fuel base_title tch w
    = (Ok (Some new_title), w)
    /\ ~ In new_title existing_titles
    /\ (new_title = base_title
        \/ exists i,
             (1 <= i)%N /\ new_title = TeacherServices.copy_title base_title i
             /\ In base_title existing_titles
             /\ forall j, (1 <= j < i)%N ->
                  In (TeacherServices.copy_title base_title j) existing_titles)
    /\ ((forall s, ilike (base_title ++ "%")%string (base_title ++ s)%string = true) ->
        forall t, In t (tests d) -> teacher_id t = tch -> title t <> new_title).
Proof.
  intros d existing_titles Hfuel.
  assert (Hown : forall new_title suffix,
            new_title = (base_title ++ suffix)%string ->
            ~ In new_title existing_titles ->
            (forall s, ilike (base_title ++ "%")%string (base_title ++ s)%string = true) ->
            forall t, In t (tests d) -> teacher_id t = tch -> title t <> new_title).
  { intros new_title suffix -> Hfree Hlike t Ht Etch Etitle. apply Hfree.
    unfold existing_titles. rewrite <- Etitle. apply in_map, filter_In.
    split; [done|]. rewrite Etitle, Hlike, andb_true_r. by apply Z.eqb_eq. }
  unfold TeacherServices._generate_unique_title,
    TeacherRepository.get_tests_by_title_prefix.
  run. fold d existing_titles.
  destruct (existsb (String.eqb base_title) existing_titles) eqn:E; simpl.
  - apply existsb_eqb_In in E.
    destruct (copy_loop_stops existing_titles base_title fuel 1%N existing_titles)
      as (k & Hk & Hloop & Hfree & Hbelow).
    + done.
    + unfold existing_titles. rewrite length_map.
      pose proof (filter_length_le
                    (fun t => Z.eqb (teacher_id t) tch
                              && ilike (base_title ++ "%")%string (title t))
                    (tests d)). lia.
    + exists (TeacherServices.copy_title base_title k). rewrite Hloop.
      split; [done|]. split; [done|]. split; [right; eauto|].
      apply (Hown _ (" (копия " ++ pretty k ++ ")")%string); [|done].
      reflexivity.
  - exists base_title. split; [done|].
    assert (Hfree : ~ In base_title existing_titles).
    { intros Hin. apply existsb_eqb_In in Hin. by rewrite Hin in E. }
    split; [done|]. split; [by left|].
    apply (Hown _ ""%string); [|done].
    by rewrite string_app_nil_r.
Qed.

Lemma generate_unique_title_finds_the_first_free_title_witness :
  let d := w_db quiz in
  let existing_titles :=
    map title
      (List.filter
         (fun t => Z.eqb (teacher_id t) 7
                   && (fun _ _ : string => true) ("Algebra" ++ "%")%string (title t))
         (tests d)) in
  exists new_title,
    TeacherServices._generate_unique_title (fun _ _ => true) 3 "Algebra" 7 quiz
    = (Ok (Some new_title), quiz)
    /\ ~ In new_title existing_titles
    /\ (new_title = "Algebra"
        \/ exists i,
             (1 <= i)%N /\ new_title = TeacherServices.copy_title "Algebra" i
             /\ In "Algebra" existing_titles
             /\ forall j, (1 <= j < i)%N ->
                  In (TeacherServices.copy_title "Algebra" j) existing_titles)
    /\ ((forall s, (fun _ _ : string => true) ("Algebra" ++ "%")%string
                     ("Algebra" ++ s)%string = true) ->
        forall t, In t (tests d) -> teacher_id t = 7 -> title t <> new_title).
Proof.
  apply (generate_unique_title_finds_the_first_free_title (fun _ _ => true) 3 "Algebra" 7 quiz).
  vm_compute. lia.
Defined.

(** ** Public URLs and object keys *)

Lemma string_app_assoc (a b c : string) : ((a ++ b) ++ c = a ++ (b ++ c))%string.
Proof.
  induction a as [|x a IH]; [done|].
  change (String x ((a ++ b) ++ c)%string = String x (a ++ (b ++ c))%string).
  by rewrite IH.
Qed.

Lemma string_app_cons (x : ascii) (a b : string) :
  (String x a ++ b)%string = String x (a ++ b)%string.
Proof. reflexivity. Qed.

Lemma prefix_app (s u : string) : String.prefix s (s ++ u) = true.
Proof.
  induction s as [|x s IH]; [by destruct u|].
  rewrite string_app_cons. simpl. destruct (ascii_dec x x) as [_|n]; [exact IH|by destruct n].
Qed.

Lemma prefix_inv (s t : string) :
  String.prefix s t = true -> exists u, t = (s ++ u)%string.
Proof.
  revert t. induction s as [|x s IH]; intros t H; [by exists t|].
  destruct t as [|y t]; simpl in H; [done|].
  destruct (ascii_dec x y) as [->|]; [|done].
  destruct (IH t H) as (u & ->). by exists u.
Qed.

Lemma string_app_eq_app (a x b y : string) :
  (a ++ x = b ++ y)%string ->
  (exists z, a = (b ++ z)%string /\ y = (z ++ x)%string)
  \/ (exists z, b = (a ++ z)%string /\ x = (z ++ y)%string).
Proof.
  revert b. induction a as [|c a IH]; intros b H.
  - right. exists b. by split.
  - destruct b as [|c' b].
    + left. exists (String c a). by split.
    + rewrite !string_app_cons in H. injection H as -> H.
      destruct (IH b H) as [(z & -> & ->)|(z & -> & ->)]; [left|right]; by exists z.
Qed.

Lemma contains_false_suffix (sub s : string) :
  contains sub s = false ->
  forall a b, s = (a ++ b)%string -> String.prefix sub b = false.
Proof.
  intros H a. revert s H. induction a as [|x a IH]; intros s H b ->.
  - destruct b; simpl in H; by apply orb_false_elim in H as [H _].
  - rewrite string_app_cons in H. simpl in H.
    apply orb_false_elim in H as [_ H]. by apply (IH _ H).
Qed.

Lemma contains_true (sub a b : string) : contains sub (a ++ sub ++ b) = true.
Proof.
  destruct (contains sub (a ++ sub ++ b)) eqn:E; [done|].
  pose proof (contains_false_suffix _ _ E a (sub ++ b)%string eq_refl) as H.
  by rewrite prefix_app in H.
Qed.

Section Split.
Variable sep : string.

Lemma split_aux_skip (s1 k : string) (cur : list ascii) :
  S3.split_aux sep (String.length s1) cur (s1 ++ k) = S3.split_aux sep 0 cur k.
Proof.
  induction s1 as [|x s1 IH]; simpl.
  - by destruct k.
  - exact IH.
Qed.

Lemma split_aux_step (cur : list ascii) (x : ascii) (s : string) :
  S3.split_aux sep 0 cur (String x s)
  = if String.prefix sep (String x s)
    then string_of_list_ascii (rev cur)
         :: S3.split_aux sep (String.length sep - 1) [] s
    else S3.split_aux sep 0 (x :: cur) s.
Proof. reflexivity. Qed.

Lemma split_aux_scan (r rest : string) (cur : list ascii) :
  (forall a b, r = (a ++ b)%string -> b <> ""%string ->
               String.prefix sep (b ++ rest) = false) ->
  S3.split_aux sep 0 cur (r ++ rest)
  = S3.split_aux sep 0 (rev (list_ascii_of_string r) ++ cur) rest.
Proof.
  revert cur. induction r as [|x r IH]; intros cur H; [done|].
  rewrite string_app_cons, split_aux_step.
  assert (Hp : String.prefix sep (String x (r ++ rest)) = false)
    by (by apply (H ""%string (String x r))).
  rewrite Hp, IH.
  - simpl. by rewrite <- app_assoc.
  - intros a b -> Hb. by apply (H (String x a) b).
Qed.

End Split.

Lemma string_of_rev_rev (s : string) :
  string_of_list_ascii (rev (rev (list_ascii_of_string s) ++ [])) = s.
Proof. by rewrite app_nil_r, rev_involutive, string_of_list_ascii_of_string. Qed.

Lemma split_first (sep root rest : string) :
  sep <> ""%string ->
  (forall a b, root = (a ++ b)%string -> b <> ""%string ->
               String.prefix sep (b ++ (sep ++ rest)) = false) ->
  S3.split (root ++ sep ++ rest) sep = root :: S3.split rest sep.
Proof.
  intros Hsep Hroot. unfold S3.split.
  rewrite split_aux_scan by done.
  pose proof (prefix_app sep rest) as Hp.
  destruct sep as [|c sep']; [done|].
  rewrite string_app_cons in *. rewrite split_aux_step, Hp, string_of_rev_rev.
  f_equal. rewrite <- (split_aux_skip _ sep' rest []).
  f_equal. simpl. lia.
Qed.

Lemma split_none (sep key : string) :
  contains sep key = false -> S3.split key sep = [key].
Proof.
  intros Hkey. unfold S3.split.
  rewrite <- (string_app_nil_r key) at 1.
  rewrite split_aux_scan.
  - simpl. by rewrite string_of_rev_rev.
  - intros a b -> Hb. rewrite string_app_nil_r.
    by apply (contains_false_suffix sep _ Hkey a b).
Qed.

Lemma ends_with_slash (a b root0 : string) :
  (a ++ b = root0 ++ "/")%string -> b <> ""%string ->
  exists b0, b = (b0 ++ "/")%string.
Proof.
  intros H Hb. apply string_app_eq_app in H as [(z & -> & E)|(z & -> & ->)].
  - destruct z as [|x z].
    + change ("/"%string = b) in E. exists ""%string. by subst b.
    + rewrite string_app_cons in E. injection E as _ E.
      destruct z as [|y z]; [|by rewrite string_app_cons in E].
      change (""%string = b) in E. by subst b.
  - by exists z.
Qed.

(** No occurrence of the separator starts inside the root of the URL. *)
Lemma url_root_scanned (c : S3.S3Client) (secure : bool) (port : Z) (rest : string) :
  let sep := (S3.bucket_name c ++ "/")%string in
  contains "/" (S3.bucket_name c) = false ->
  contains sep (url_root secure port) = false ->
  forall a b, url_root secure port = (a ++ b)%string -> b <> ""%string ->
              String.prefix sep (b ++ (sep ++ rest)) = false.
Proof.
  intros sep Hbucket Hroot a b Eab Hb.
  destruct (String.prefix sep (b ++ sep ++ rest)) eqn:E; [|done].
  exfalso. apply prefix_inv in E as (u & E).
  assert (Hend : exists b0, b = (b0 ++ "/")%string).
  { apply (ends_with_slash a b
             ((if secure then "https" else "http") ++ "://localhost:" ++ pretty port));
      [|done].
    rewrite <- Eab. unfold url_root. by rewrite !string_app_assoc. }
  destruct Hend as (b0 & ->).
  apply string_app_eq_app in E as [(z & E1 & E2)|(z & E1 & E2)].
  - pose proof (contains_false_suffix sep _ Hroot a _ Eab) as Hp.
    by rewrite E1, prefix_app in Hp.
  - unfold sep in E1.
    apply string_app_eq_app in E1 as [(z' & E3 & E4)|(z' & E3 & E4)].
    + rewrite E3, string_app_assoc in Hbucket.
      by rewrite (contains_true "/" b0 z') in Hbucket.
    + destruct z' as [|x z'].
      * rewrite string_app_nil_r in E3. rewrite <- E3 in Hbucket.
        rewrite <- (string_app_nil_r (b0 ++ "/")), string_app_assoc in Hbucket.
        by rewrite (contains_true "/" b0 "") in Hbucket.
      * rewrite string_app_cons in E4. injection E4 as <- E4.
        destruct z' as [|y z']; [|by rewrite string_app_cons in E4].
        pose proof (contains_false_suffix sep _ Hroot a _ Eab) as Hp.
        rewrite E3 in Hp. fold sep in Hp.
        assert (Hs : String.prefix sep sep = true)
          by (rewrite <- (string_app_nil_r sep) at 2; apply prefix_app).
        by rewrite Hs in Hp.
Qed.

Lemma public_url_split (c : S3.S3Client) (secure : bool) (port : Z) (object_key : string) :
  let sep := (S3.bucket_name c ++ "/")%string in
  contains "/" (S3.bucket_name c) = false ->
  contains sep (url_root secure port) = false ->
  S3.split (S3.get_public_url c secure port object_key) sep
  = url_root secure port :: S3.split object_key sep.
Proof.
  intros sep Hbucket Hroot.
  assert (Eurl : S3.get_public_url c secure port object_key
                 = (url_root secure port ++ sep ++ object_key)%string).
  { unfold S3.get_public_url, url_root, sep.
    rewrite !string_app_assoc. reflexivity. }
  rewrite Eurl. apply split_first.
  - unfold sep. destruct (S3.bucket_name c); done.
  - by apply url_root_scanned.
Qed.

(** X17. The round trip of an object key: the key that
    [get_key_from_url] reads out of the public URL of a key is that key,
    provided the bucket name has no slash, and the bucket name followed by
    a slash occurs neither in the key nor in the part of the URL before the
    bucket. *)
Theorem public_url_round_trip
    (c : S3.S3Client) (secure : bool) (port : Z) (object_key : string) :
  let sep := (S3.bucket_name c ++ "/")%string in
  contains "/" (S3.bucket_name c) = false ->
  contains sep (url_root secure port) = false ->
  contains sep object_key = false ->
  S3.get_key_from_url c (S3.get_public_url c secure port object_key) = Some object_key.
Proof.
  intros sep Hbucket Hroot Hkey.
  unfold S3.get_key_from_url. fold sep.
  by rewrite public_url_split, split_none.
Qed.

Lemma public_url_round_trip_witness :
  S3.get_key_from_url edu (S3.get_public_url edu false 9000 "tests/cover.png")
  = Some "tests/cover.png".
Proof.
  apply (public_url_round_trip edu false 9000 "tests/cover.png"); reflexivity.
Defined.

(** X18. An image the platform itself has stored is deleted with its
    test: when the cover of a test, the picture of one of its questions or
    of one of their answer options is the public URL of an object key (under
    the conditions of the round trip, the key not empty), [delete_test] by
    the owner sends a delete request for exactly that key. *)
Theorem stored_image_is_deleted_with_the_test
    (c : S3.S3Client) (secure : bool) (port : Z) (object_key : string)
    (w : World) (tid : uuid) (tch : Z) (t : Test) :
  let sep := (S3.bucket_name c ++ "/")%string in
  contains "/" (S3.bucket_name c) = false ->
  contains sep (url_root secure port) = false ->
  contains sep object_key = false ->
  object_key <> ""%string ->
  List.filter (TeacherRepository.owned tid tch) (tests (w_db w)) = [t] ->
  held_image (w_db w) t (S3.get_public_url c secure port object_key) ->
  In (S3DeleteObject object_key)
    (w_log (snd (TeacherServices.delete_test c tid tch w))).
Proof.
  intros sep Hbucket Hroot Hkey Hne Ht Hheld.
  rewrite (delete_test_run c tid tch w t Ht). simpl.
  apply in_or_app. right. apply in_or_app. left. apply in_map.
  apply (test_keys_complete c (w_db w) t _ _ Hheld).
  unfold S3.key_to_delete.
  assert (Hk : S3.get_key_from_url c (S3.get_public_url c secure port object_key)
               = Some object_key).
  { unfold S3.get_key_from_url. fold sep. by rewrite public_url_split, split_none. }
  rewrite Hk.
  destruct object_key; [done|].
  unfold S3.get_public_url. by destruct secure.
Qed.

Lemma stored_image_is_deleted_with_the_test_witness :
  In (S3DeleteObject "tests/cover.png")
    (w_log (snd (TeacherServices.delete_test edu 1%N 7 illustrated))).
Proof.
  apply (stored_image_is_deleted_with_the_test edu false 9000 "tests/cover.png"
           illustrated 1%N 7
           (mkTest 1%N 7 "Algebra" None
              (Some "http://localhost:9000/edu/tests/cover.png") DRAFT)).
  - reflexivity.
  - reflexivity.
  - reflexivity.
  - discriminate.
  - reflexivity.
  - left. reflexivity.
Defined.


(** X19. Where the round trip breaks: a key that begins with the bucket
    name and a slash (as the keys [tests/...] of uploads do in a bucket
    named [tests]) is read back from its public URL as the empty key, and
    no delete request is ever sent for such an image. *)
Theorem key_that_repeats_the_bucket_is_never_deleted
    (c : S3.S3Client) (secure : bool) (port : Z) (rest : string) :
  let sep := (S3.bucket_name c ++ "/")%string in
  let url := S3.get_public_url c secure port (sep ++ rest) in
  contains "/" (S3.bucket_name c) = false ->
  contains sep (url_root secure port) = false ->
  S3.get_key_from_url c url = Some ""%string
  /\ S3.key_to_delete c (Some url) = None
  /\ forall w, S3.delete_image c (Some url) w = (Ok tt, w).
Proof.
  intros sep url Hbucket Hroot.
  assert (Hkey : S3.get_key_from_url c url = Some ""%string).
  { unfold S3.get_key_from_url, url. fold sep.
    rewrite public_url_split by done. fold sep. simpl.
    pose proof (prefix_app sep rest) as Hp.
    assert (Hsep : sep <> ""%string) by (unfold sep; destruct (S3.bucket_name c); done).
    unfold S3.split. destruct sep as [|x sep']; [done|].
    rewrite string_app_cons in *. by rewrite split_aux_step, Hp. }
  assert (Hdel : S3.key_to_delete c (Some url) = None).
  { unfold S3.key_to_delete. rewrite Hkey. by destruct url. }
  split; [done|]. split; [done|].
  intros w. unfold S3.delete_image. by rewrite Hdel.
Qed.

Lemma key_that_repeats_the_bucket_is_never_deleted_witness :
  let c := S3.mkS3Client "tests" in
  let url := S3.get_public_url c false 9000 ("tests/" ++ "cover.png") in
  S3.get_key_from_url c url = Some ""%string
  /\ S3.key_to_delete c (Some url) = None
  /\ forall w, S3.delete_image c (Some url) w = (Ok tt, w).
Proof.
  apply (key_that_repeats_the_bucket_is_never_deleted
           (S3.mkS3Client "tests") false 9000 "cover.png"); reflexivity.
Defined.


(** ** What the student is told, and when the student is refused *)



(** X22. When the student is refused.  For an id that is no attempt,
    [submit_answer] and [finish_test] raise [AttemptNotFound]; for an
    attempt in progress and a question that is not a question of the test of
    the attempt, [submit_answer] raises [QuestionNotFoundInTest].  In each
    case nothing is stored and nothing is committed. *)
Theorem unknown_attempt_and_foreign_question_are_refused
    (w : World) (new_id aid : uuid) (answer_data : StudentAnswerIn) :
  let d := w_db w in
  let qid := in_question_id answer_data in
  integrity d ->
  ((forall a, In a (test_attempts d) -> attempt_id a <> aid) ->
   submit_answer new_id aid answer_data w = (Raise (AttemptNotFound aid), w)
   /\ finish_test aid w = (Raise (AttemptNotFound aid), w))
  /\ (forall a, In a (test_attempts d) -> attempt_id a = aid -> status a = IN_PROGRESS ->
        (forall q, In q (questions d) -> question_id q = qid ->
                   q_test_id q <> ta_test_id a) ->
        submit_answer new_id aid answer_data w
        = (Raise (QuestionNotFoundInTest qid (ta_test_id a)), w)).
Proof.
  intros d qid Hint. split.
  - intros Hnone.
    assert (Hget : get_attempt_with_results aid w = (Ok None, w)).
    { unfold get_attempt_with_results. run. fold d.
      by rewrite (existsb_false_filter _ _ (fresh_existsb attempt_id _ _ Hnone)). }
    unfold submit_answer, finish_test. by rewrite !(bind_ok _ _ _ _ _ Hget).
  - intros a Ha Eaid Hst Hq.
    assert (Hget : get_attempt_with_results aid w = (Ok (Some a), w)).
    { unfold get_attempt_with_results. run. fold d. rewrite <- Eaid.
      rewrite (filter_key_unique attempt_id _ a); [reflexivity| |done].
      apply (pk_test_attempts _ Hint). }
    unfold submit_answer. rewrite (bind_ok _ _ _ _ _ Hget). cbv beta iota. rewrite Hst.
    erewrite bind_ok by reflexivity.
    erewrite bind_ok by reflexivity.
    cbv beta iota zeta.
    destruct (find_key test_id (tests d) (ta_test_id a)) as (t & Ft & Ht & Et).
    { apply (fk_attempt_test _ Hint), Ha. }
    unfold attempt_test. fold d. rewrite Ft.
    assert (Hex : existsb (fun q0 => N.eqb (question_id q0) (in_question_id answer_data))
                    (test_questions d t) = false).
    { destruct (existsb _ _) eqn:E; [|done].
      apply existsb_exists in E as (q & Hin & E). apply N.eqb_eq in E.
      apply filter_In in Hin as [Hin Eq]. apply N.eqb_eq in Eq.
      destruct (Hq q Hin E). congruence. }
    by rewrite Hex.
Qed.

Lemma unknown_attempt_and_foreign_question_are_refused_witness :
  (submit_answer 62%N 51%N (mkStudentAnswerIn 20%N [200%N]) quiz
   = (Raise (AttemptNotFound 51%N), quiz)
   /\ finish_test 51%N quiz = (Raise (AttemptNotFound 51%N), quiz))
  /\ submit_answer 62%N 50%N (mkStudentAnswerIn 20%N [200%N]) quiz
     = (Raise (QuestionNotFoundInTest 20%N 1%N), quiz).
Proof.
  split.
  - apply (proj1 (unknown_attempt_and_foreign_question_are_refused quiz 62%N 51%N
                    (mkStudentAnswerIn 20%N [200%N]) quiz_integrity)).
    intros a Ha. vm_compute in Ha. destruct Ha as [<-|[]]. discriminate.
  - apply (proj2 (unknown_attempt_and_foreign_question_are_refused quiz 62%N 50%N
                    (mkStudentAnswerIn 20%N [200%N]) quiz_integrity)
             (mkTestAttempt 50%N 3 1%N IN_PROGRESS None)).
    + vm_compute. left. reflexivity.
    + reflexivity.
    + reflexivity.
    + intros q Hq Eq. vm_compute in Hq.
      repeat (destruct Hq as [<-|Hq]; [vm_compute in Eq |- *; discriminate|]).
      destruct Hq.
Defined.

(** ** Writing a question and reading it back *)





(** ** Publishing and archiving *)

Lemma update_test_status_run (tid : uuid) (st : TestStatus) (tch : Z) (w : World)
    (t : Test) :
  let d := w_db w in
  let upd t0 :=
    mkTest (test_id t0) (teacher_id t0) (title t0) (description t0)
      (test_image_url t0) st in
  integrity d -> In t (tests d) -> test_id t = tid -> teacher_id t = tch ->
  TeacherServices.update_test_status tid st tch w
  = (Ok (upd t),
     mkWorld
       (set_tests d (map (fun t0 => if N.eqb (test_id t0) tid then upd t0 else t0) (tests d)))
       (w_log w ++ [Commit])).
Proof.
  intros d upd Hint Ht Etid Etch.
  pose proof (owned_filter d tid tch t (pk_tests _ Hint) Ht Etid Etch) as Fo.
  unfold TeacherServices.update_test_status, TeacherRepository.update_test_status.
  run. fold d. rewrite Fo. simpl. do 3 f_equal.
  apply map_ext_in. intros x Hx. unfold TeacherRepository.owned.
  destruct (N.eqb_spec (test_id x) tid) as [E|E]; [|done]. simpl.
  assert (x = t) as -> by (apply (pk_inj test_id (tests d)); [apply Hint|done..|congruence]).
  apply Z.eqb_eq in Etch. by rewrite Etch.
Qed.

(** X24. The owner may set any status at any time (there is no order of
    states: an archived test can be published again).  The call rewrites
    the status of that one test and nothing else.  Afterwards students can
    open the test exactly when the new status is PUBLISHED; in any other
    status [get_test_for_passing] raises [TestNotFound], as for a test
    that does not exist. *)
Theorem status_decides_what_students_can_open
    (w : World) (tid : uuid) (st : TestStatus) (tch : Z) (t : Test) :
  let d := w_db w in
  let t' := mkTest (test_id t) (teacher_id t) (title t) (description t)
              (test_image_url t) st in
  integrity d -> In t (tests d) -> test_id t = tid -> teacher_id t = tch ->
  exists w',
    TeacherServices.update_test_status tid st tch w = (Ok t', w')
    /\ (forall x, In x (tests (w_db w')) <->
                  x = t' \/ (In x (tests d) /\ test_id x <> tid))
    /\ set_tests (w_db w') (tests d) = d
    /\ get_test_for_passing tid w'
       = (if TestStatus_eqb st PUBLISHED then Ok t' else Raise (TestNotFound tid), w').
Proof.
  intros d t' Hint Ht Etid Etch.
  eexists. split; [by apply update_test_status_run|]. simpl w_db. fold d.
  pose proof (pk_tests _ Hint) as Hpk.
  set (upd := fun t0 : Test =>
                mkTest (test_id t0) (teacher_id t0) (title t0) (description t0)
                  (test_image_url t0) st).
  split; [|split].
  - intros x. simpl. rewrite in_map_iff. split.
    + intros (y & E & Hy). destruct (N.eqb_spec (test_id y) tid) as [Ey|Ey].
      * left. subst x.
        by assert (y = t) as ->
          by (apply (pk_inj test_id (tests d)); [done..|congruence]).
      * right. by subst x.
    + intros [->|[Hx Ex]].
      * exists t. split; [|done]. by rewrite (proj2 (N.eqb_eq _ _) Etid).
      * exists x. split; [|done]. apply N.eqb_neq in Ex. by rewrite Ex.
  - by destruct d.
  - unfold get_test_for_passing, get_test_for_student_by_id. run.
    rewrite filter_map_swap.
    assert (E : List.filter
                  (fun x => N.eqb (test_id (if N.eqb (test_id x) tid then upd x else x)) tid
                            && TestStatus_eqb
                                 (test_status (if N.eqb (test_id x) tid then upd x else x))
                                 PUBLISHED)
                  (tests d)
                = if TestStatus_eqb st PUBLISHED then [t] else []).
    { destruct (TestStatus_eqb st PUBLISHED) eqn:Est.
      - rewrite <- (filter_key_unique test_id (tests d) t Hpk Ht), Etid.
        apply filter_ext. intros x. destruct (N.eqb_spec (test_id x) tid) as [Ex|Ex].
        + simpl. by rewrite Ex, N.eqb_refl.
        + apply N.eqb_neq in Ex. by rewrite Ex.
      - apply existsb_false_filter. destruct (existsb _ _) eqn:Ex; [|done].
        apply existsb_exists in Ex as (x & _ & Ex).
        destruct (N.eqb_spec (test_id x) tid) as [Ey|Ey].
        + simpl in Ex. by rewrite Est, andb_false_r in Ex.
        + apply N.eqb_neq in Ey. by rewrite Ey in Ex. }
    unfold upd in E. cbv beta in E. rewrite E. destruct (TestStatus_eqb st PUBLISHED); simpl; [|done].
    by rewrite (proj2 (N.eqb_eq _ _) Etid).
Qed.

Lemma status_decides_what_students_can_open_witness :
  let d := w_db quiz in
  let t' := mkTest 1%N 7 "Algebra" None None ARCHIVED in
  exists w',
    TeacherServices.update_test_status 1%N ARCHIVED 7 quiz = (Ok t', w')
    /\ (forall x, In x (tests (w_db w')) <->
                  x = t' \/ (In x (tests d) /\ test_id x <> 1%N))
    /\ set_tests (w_db w') (tests d) = d
    /\ get_test_for_passing 1%N w'
       = (if TestStatus_eqb ARCHIVED PUBLISHED then Ok t' else Raise (TestNotFound 1%N), w').
Proof.
  apply (status_decides_what_students_can_open quiz 1%N ARCHIVED 7
           (mkTest 1%N 7 "Algebra" None None PUBLISHED)).
  - apply quiz_integrity.
  - vm_compute. left. reflexivity.
  - reflexivity.
  - reflexivity.
Defined.

(** ** What the analytics count *)

Lemma flat_map_nil {A B} (G : A -> list B) (l : list A) :
  (forall x, In x l -> G x = []) -> flat_map G l = [].
Proof.
  induction l as [|x l IH]; intros H; simpl; [done|].
  rewrite (H x) by (by left). apply IH. intros y Hy. apply H. by right.
Qed.

(** A join on a primary key meets one row. *)
Lemma flat_map_unique {A B} (key : A -> uuid) (G : A -> list B) (l : list A) (y : A) :
  NoDup (map key l) -> In y l ->
  (forall x, In x l -> key x <> key y -> G x = []) ->
  flat_map G l = G y.
Proof.
  induction l as [|x l IH]; simpl; [done|].
  intros Hnd Hin H. pose proof (NoDup_cons_1_1 _ _ Hnd) as Hx.
  pose proof (NoDup_cons_1_2 _ _ Hnd) as Hl.
  destruct Hin as [->|Hin].
  - rewrite (flat_map_nil G l); [by rewrite app_nil_r|].
    intros z Hz. apply H; [by right|]. intros E. apply Hx. rewrite <- E.
    apply list_elem_of_In. by apply in_map.
  - rewrite (H x); [|by left|].
    + apply IH; [done|done|]. intros z Hz. apply H. by right.
    + intros E. apply Hx. rewrite E. apply list_elem_of_In. by apply in_map.
Qed.

Lemma flat_map_if_filter {A} (c : A -> bool) (l : list A) :
  flat_map (fun x => if c x then [x] else []) l = List.filter c l.
Proof.
  induction l as [|x l IH]; simpl; [done|]. rewrite IH. by destruct (c x).
Qed.

Lemma completed_attempts_filter (d : DB) (tid : uuid) (tch : Z) (t : Test) :
  integrity d -> In t (tests d) -> test_id t = tid -> teacher_id t = tch ->
  TeacherRepository.completed_attempts d tid tch = completed_on d tid.
Proof.
  intros Hint Ht Etid Etch.
  unfold TeacherRepository.completed_attempts, completed_on.
  rewrite <- flat_map_if_filter. apply flat_map_ext. intros ta.
  rewrite (flat_map_unique test_id _ (tests d) t (pk_tests _ Hint) Ht).
  - rewrite Etid, Etch, N.eqb_refl, Z.eqb_refl. by rewrite !andb_true_r.
  - intros x Hx Ex. rewrite Etid in Ex. apply N.eqb_neq in Ex.
    by rewrite Ex, andb_false_r.
Qed.

(** X25. The head of the report, for the owner of the test: the number of
    attempts is the number of COMPLETED attempts on the test, each counted
    once, and the average is the mean of their scores (none when there is
    no such attempt). *)
Theorem analytics_counts_completed_attempts
    (like : string -> string -> bool) (w : World) (tid : uuid) (tch : Z)
    (search_query : option string) (t : Test) :
  let d := w_db w in
  integrity d -> In t (tests d) -> test_id t = tid -> teacher_id t = tch ->
  exists out,
    TeacherServices.get_test_analytics like tid tch search_query w = (Ok out, w)
    /\ TeacherServices.total_attempts out = Z.of_nat (length (completed_on d tid))
    /\ TeacherServices.average_score out
       = TeacherRepository.avg (omap score (completed_on d tid)).
Proof.
  intros d Hint Ht Etid Etch.
  eexists. split; [apply get_test_analytics_run|]. fold d.
  rewrite (completed_attempts_filter d tid tch t Hint Ht Etid Etch).
  destruct (completed_on d tid) as [|a l]; [done|].
  replace (Z.of_nat (length (a :: l)) =? 0) with false; [done|].
  symmetry. apply Z.eqb_neq. simpl length. lia.
Qed.

Lemma analytics_counts_completed_attempts_witness :
  exists out,
    TeacherServices.get_test_analytics (fun _ _ => true) 1%N 7 None quiz_finished
    = (Ok out, quiz_finished)
    /\ TeacherServices.total_attempts out
       = Z.of_nat (length (completed_on (w_db quiz_finished) 1%N))
    /\ TeacherServices.average_score out
       = TeacherRepository.avg (omap score (completed_on (w_db quiz_finished) 1%N)).
Proof.
  apply (analytics_counts_completed_attempts (fun _ _ => true) quiz_finished 1%N 7 None
           (mkTest 1%N 7 "Algebra" None None PUBLISHED)).
  - apply quiz_finished_integrity.
  - vm_compute. left. reflexivity.
  - reflexivity.
  - reflexivity.
Defined.

(** The rows of the join that one student answer contributes. *)
Lemma analytics_join_of_answer (like : string -> string -> bool) (d : DB) (tid : uuid)
    (tch : Z) (t : Test) (sa : StudentAnswer) :
  integrity d -> In t (tests d) -> test_id t = tid -> teacher_id t = tch ->
  In sa (student_answers d) ->
  exists q, In q (questions d) /\ question_id q = sa_question_id sa
    /\ flat_map (fun q =>
         flat_map (fun ta =>
           flat_map (fun t =>
             if N.eqb (sa_question_id sa) (question_id q)
                && N.eqb (sa_attempt_id sa) (attempt_id ta)
                && N.eqb (ta_test_id ta) (test_id t)
                && N.eqb (test_id t) tid
                && Z.eqb (teacher_id t) tch
                && TestAttemptStatus_eqb (status ta) COMPLETED
                && true
             then [(sa, q)] else [])
             (tests d))
           (test_attempts d))
         (questions d)
       = if in_completed_attempt d tid sa then [(sa, q)] else [].
Proof.
  intros Hint Ht Etid Etch Hsa.
  destruct (fk_answer_question _ Hint sa Hsa) as (q & Hq & Eq).
  destruct (fk_answer_attempt _ Hint sa Hsa) as (ta & Hta & Eta).
  exists q. split; [done|]. split; [done|].
  rewrite (flat_map_unique question_id _ (questions d) q (pk_questions _ Hint) Hq); cycle 1.
  { intros x Hx Ex. apply flat_map_nil. intros a _. apply flat_map_nil. intros t0 _.
    rewrite Eq in Ex. replace (N.eqb (sa_question_id sa) (question_id x)) with false; [done|].
    symmetry. apply N.eqb_neq. congruence. }
  rewrite (flat_map_unique attempt_id _ (test_attempts d) ta (pk_test_attempts _ Hint) Hta);
    cycle 1.
  { intros x Hx Ex. apply flat_map_nil. intros t0 _.
    rewrite Eta in Ex.
    replace (N.eqb (sa_attempt_id sa) (attempt_id x)) with false;
      [by rewrite andb_false_r|].
    symmetry. apply N.eqb_neq. congruence. }
  rewrite (flat_map_unique test_id _ (tests d) t (pk_tests _ Hint) Ht); cycle 1.
  { intros x Hx Ex. rewrite Etid in Ex. apply N.eqb_neq in Ex.
    by rewrite Ex, !andb_false_r. }
  rewrite Eq, Eta, Etid, Etch, !N.eqb_refl, Z.eqb_refl. simpl. rewrite !andb_true_r.
  replace (in_completed_attempt d tid sa)
    with (N.eqb (ta_test_id ta) tid && TestAttemptStatus_eqb (status ta) COMPLETED);
    [done|].
  unfold in_completed_attempt, completed_on. rewrite <- Eta.
  destruct (N.eqb (ta_test_id ta) tid && TestAttemptStatus_eqb (status ta) COMPLETED) eqn:E.
  - symmetry. apply (existsb_In _ _ ta); [|apply N.eqb_refl]. by apply filter_In.
  - symmetry. apply existsb_gone_false. intros x Hx Ex.
    assert (x = ta) as ->
      by (apply (pk_inj attempt_id (test_attempts d)); [apply Hint|done..]).
    done.
Qed.

Lemma flat_map_ext_in {A B} (f g : A -> list B) (l : list A) :
  (forall x, In x l -> f x = g x) -> flat_map f l = flat_map g l.
Proof.
  induction l as [|x l IH]; intros H; simpl; [done|].
  rewrite (H x) by (by left). f_equal. apply IH. intros y Hy. apply H. by right.
Qed.

Lemma map_filter_flat_map {A B C} (h : B -> C) (P : B -> bool) (F : A -> list B)
    (l : list A) :
  map h (List.filter P (flat_map F l))
  = flat_map (fun x => map h (List.filter P (F x))) l.
Proof.
  induction l as [|x l IH]; simpl; [done|].
  by rewrite List.filter_app, map_app, IH.
Qed.

(** The group of a question in the join: the answers to it that were
    given in COMPLETED attempts on the test, each once. *)
Lemma analytics_group (like : string -> string -> bool) (d : DB) (tid : uuid)
    (tch : Z) (t : Test) (q0 : Question) :
  integrity d -> In t (tests d) -> test_id t = tid -> teacher_id t = tch ->
  In q0 (questions d) ->
  map fst
    (List.filter (fun r => TeacherRepository.same_group q0 (snd r))
       (TeacherRepository.analytics_join like d tid tch None))
  = counted_answers d tid (question_id q0).
Proof.
  intros Hint Ht Etid Etch Hq0.
  unfold TeacherRepository.analytics_join, counted_answers. simpl.
  rewrite map_filter_flat_map, <- flat_map_if_filter.
  apply flat_map_ext_in. intros sa Hsa.
  destruct (analytics_join_of_answer like d tid tch t sa Hint Ht Etid Etch Hsa)
    as (q & Hq & Eq & ->).
  destruct (in_completed_attempt d tid sa); simpl; [|by rewrite andb_false_r].
  rewrite andb_true_r. unfold TeacherRepository.same_group.
  destruct (N.eqb_spec (sa_question_id sa) (question_id q0)) as [E|E].
  - assert (q0 = q) as ->
      by (apply (pk_inj question_id (questions d)); [apply Hint|done..|congruence]).
    by rewrite N.eqb_refl, String.eqb_refl.
  - replace (N.eqb (question_id q0) (question_id q)) with false; [done|].
    symmetry. apply N.eqb_neq. congruence.
Qed.

(** X26. The percentage of a question in the report of the owner (no
    text filter): among the answers to the question given in COMPLETED
    attempts on the test, each counted once, the share of those marked
    correct, times 100.  A reported question has at least one such
    answer. *)
Theorem analytics_percentage_of_a_question
    (like : string -> string -> bool) (w : World) (tid : uuid) (tch : Z) (t : Test) :
  let d := w_db w in
  integrity d -> In t (tests d) -> test_id t = tid -> teacher_id t = tch ->
  exists out,
    TeacherServices.get_test_analytics like tid tch None w = (Ok out, w)
    /\ forall row, In row (TeacherServices.question_analytics out) ->
         let answers := counted_answers d tid (TeacherServices.qa_question_id row) in
         answers <> []
         /\ TeacherServices.correct_answer_percentage row
            = PrimFloat.mul
                (PrimFloat.div
                   (float_of_Z (Z.of_nat (length (List.filter sa_is_correct answers))))
                   (float_of_Z (Z.of_nat (length answers))))
                (float_of_Z 100).
Proof.
  intros d Hint Ht Etid Etch.
  eexists. split; [apply get_test_analytics_run|]. fold d.
  intros row Hrow. destruct (_ =? 0); [done|]. simpl in Hrow.
  apply in_map_iff in Hrow as (q & <- & Hq). simpl.
  apply sort_by_order_In, group_keys_In in Hq as (sa & Hin).
  pose proof Hin as Hjoin.
  apply analytics_join_In in Hjoin as (_ & Hq & _).
  pose proof (analytics_group like d tid tch t q Hint Ht Etid Etch Hq) as Hgroup.
  set (group := List.filter (fun r => TeacherRepository.same_group q (snd r))
                  (TeacherRepository.analytics_join like d tid tch None)) in *.
  assert (Hne : group <> []).
  { assert (In (sa, q) group); [|by destruct group].
    apply filter_In. split; [done|]. simpl. unfold TeacherRepository.same_group.
    by rewrite N.eqb_refl, String.eqb_refl. }
  rewrite <- Hgroup. split; [by destruct group|].
  rewrite filter_map_swap, !length_map.
  unfold TeacherRepository.percentage_correct.
  replace (0 <? Z.of_nat (length group)) with true; [done|].
  symmetry. apply Z.ltb_lt. destruct group; [done|]. simpl length. lia.
Qed.

Lemma analytics_percentage_of_a_question_witness :
  let d := w_db quiz_finished in
  exists out,
    TeacherServices.get_test_analytics (fun _ _ => true) 1%N 7 None quiz_finished
    = (Ok out, quiz_finished)
    /\ forall row, In row (TeacherServices.question_analytics out) ->
         let answers := counted_answers d 1%N (TeacherServices.qa_question_id row) in
         answers <> []
         /\ TeacherServices.correct_answer_percentage row
            = PrimFloat.mul
                (PrimFloat.div
                   (float_of_Z (Z.of_nat (length (List.filter sa_is_correct answers))))
                   (float_of_Z (Z.of_nat (length answers))))
                (float_of_Z 100).
Proof.
  apply (analytics_percentage_of_a_question (fun _ _ => true) quiz_finished 1%N 7
           (mkTest 1%N 7 "Algebra" None None PUBLISHED)).
  - apply quiz_finished_integrity.
  - vm_compute. left. reflexivity.
  - reflexivity.
  - reflexivity.
Defined.

(** ** A question and its test *)

(** X27. A question is reached only through the test it belongs to: for a
    test of the teacher and the id of a question of another test (or of no
    question at all), [get_question_by_id] and [delete_question] raise
    [NotFoundUuid("Question")]; nothing is deleted, in the store or in the
    object store. *)
Theorem question_is_reached_through_its_test
    (c : S3.S3Client) (w : World) (tid qid : uuid) (tch : Z) (t : Test) :
  let d := w_db w in
  integrity d ->
  In t (tests d) -> test_id t = tid -> teacher_id t = tch ->
  (forall q, In q (questions d) -> question_id q = qid -> q_test_id q <> tid) ->
  TeacherServices.get_question_by_id tid qid tch w
  = (Raise (NotFoundUuid "Question" qid), w)
  /\ TeacherServices.delete_question c tid qid tch w
     = (Raise (NotFoundUuid "Question" qid), w).
Proof.
  intros d Hint Ht Etid Etch Hq.
  pose proof (owned_filter d tid tch t (pk_tests _ Hint) Ht Etid Etch) as Fo.
  assert (Hget : TeacherServices.get_question_by_id tid qid tch w
                 = (Raise (NotFoundUuid "Question" qid), w)).
  { unfold TeacherServices.get_question_by_id.
    erewrite bind_ok by (by apply get_test_by_id_run).
    unfold TeacherRepository.get_question_by_id. run. fold d.
    rewrite (existsb_false_filter _ (questions d)); [done|].
    destruct (existsb _ _) eqn:E; [|done].
    apply existsb_exists in E as (q & Hin & E). apply andb_prop in E as [E1 E2].
    apply N.eqb_eq in E1, E2. by destruct (Hq q Hin E1). }
  split; [done|].
  unfold TeacherServices.delete_question. by rewrite (bind_raise _ _ _ _ _ Hget).
Qed.

Lemma question_is_reached_through_its_test_witness :
  TeacherServices.get_question_by_id 2%N 10%N 7 quiz
  = (Raise (NotFoundUuid "Question" 10%N), quiz)
  /\ TeacherServices.delete_question edu 2%N 10%N 7 quiz
     = (Raise (NotFoundUuid "Question" 10%N), quiz).
Proof.
  apply (question_is_reached_through_its_test edu quiz 2%N 10%N 7
           (mkTest 2%N 7 "Geometry" None None PUBLISHED)).
  - apply quiz_integrity.
  - vm_compute. right. left. reflexivity.
  - reflexivity.
  - reflexivity.
  - intros q Hin E. vm_compute in Hin.
    repeat (destruct Hin as [<-|Hin]; [vm_compute in E |- *; discriminate|]).
    destruct Hin.
Defined.

